(** * simplepir: the LIFX packet builder and the motion-driven brightness
      controller, embedded in Rocq.

    The development follows the two Python modules of the repository:
    [packet_builder.py] (bit packing, the [Parameter]/[Part]/[Packet]
    classes, the message builders and [deconstruct]) and [lifx.py]
    (transport, [get_state], [MotionHandler] and the poll loop).

    Python integers are [Z]; Python floats are IEEE binary64 values in the
    sense of the standard library's [SpecFloat]; a [bytes]/[bytearray] is a
    [list Byte.byte]; a [dict] with string keys is a [gmap string Z];
    exceptions are values of [exn] carried by a small error monad. *)

From Stdlib Require Import ZArith List Strings.String Strings.Ascii QArith Lia.
From Stdlib Require Import Floats.SpecFloat Lqa.
From Stdlib Require Strings.Byte.
From stdpp Require Import gmap strings list fin_maps.

Local Open Scope string_scope.
Local Open Scope list_scope.
Local Open Scope Z_scope.

(** ** Python values, exceptions and arithmetic *)
Module Py.

(** The exceptions the embedded code can raise. *)
Inductive exn : Set :=
| IndexError
| OverflowError
| ValueError
| TypeError
| ZeroDivisionError
| StopIteration
| SocketTimeout.

Inductive result (A : Type) : Type :=
| Ok (a : A)
| Raise (e : exn).
Arguments Ok {A} a.
Arguments Raise {A} e.

#[global] Instance result_ret : MRet result := fun _ a => Ok a.
#[global] Instance result_bind : MBind result := fun _ _ f m =>
  match m with
  | Ok a => f a
  | Raise e => Raise e
  end.

Definition is_ok {A} (r : result A) : bool :=
  match r with Ok _ => true | Raise _ => false end.

(** A Python number: [int] (unbounded) or [float] (binary64). *)
Inductive pynum : Set :=
| PyInt (z : Z)
| PyFloat (f : spec_float).

Definition prec : Z := 53.
Definition emax : Z := 1024.

(** An integer as an exact, unrounded mantissa with exponent 0. *)
Definition raw_of_Z (z : Z) : spec_float :=
  match z with
  | Z0 => S754_zero false
  | Zpos p => S754_finite false p 0
  | Zneg p => S754_finite true p 0
  end.

(** [float(z)]: round to nearest even; too large an integer raises. *)
Definition float_of_int (z : Z) : result spec_float :=
  match binary_normalize prec emax z 0 false with
  | S754_infinity _ => Raise OverflowError
  | f => Ok f
  end.

Definition to_float (x : pynum) : result spec_float :=
  match x with
  | PyInt z => float_of_int z
  | PyFloat f => Ok f
  end.

Definition is_zero (f : spec_float) : bool :=
  match f with S754_zero _ => true | _ => false end.

(** [x * y] *)
Definition py_mul (x y : pynum) : result pynum :=
  match x, y with
  | PyInt a, PyInt b => Ok (PyInt (a * b))
  | _, _ =>
      a ← to_float x;
      b ← to_float y;
      Ok (PyFloat (SFmul prec emax a b))
  end.

(** [x / y]: true division.  Two integers give the correctly rounded
    quotient of the exact operands. *)
Definition py_truediv (x y : pynum) : result pynum :=
  match x, y with
  | PyInt a, PyInt b =>
      if b =? 0 then Raise ZeroDivisionError
      else match SFdiv prec emax (raw_of_Z a) (raw_of_Z b) with
           | S754_infinity _ => Raise OverflowError
           | q => Ok (PyFloat q)
           end
  | _, _ =>
      a ← to_float x;
      b ← to_float y;
      if is_zero b then Raise ZeroDivisionError
      else Ok (PyFloat (SFdiv prec emax a b))
  end.

(** [int(f)] on a float: truncation toward zero. *)
Definition float_trunc (f : spec_float) : result Z :=
  match f with
  | S754_zero _ => Ok 0
  | S754_infinity _ => Raise OverflowError
  | S754_nan => Raise ValueError
  | S754_finite s m e =>
      let a := if 0 <=? e then Z.pos m * 2 ^ e else Z.pos m / 2 ^ (- e) in
      Ok (if s then - a else a)
  end.

(** [int(x)] *)
Definition py_int (x : pynum) : result Z :=
  match x with
  | PyInt z => Ok z
  | PyFloat f => float_trunc f
  end.

(** The exact rational value of a finite float (0 for the others). *)
Definition float_to_Q (f : spec_float) : Q :=
  match f with
  | S754_finite s m e =>
      let n := if s then Z.neg m else Z.pos m in
      if 0 <=? e then inject_Z (n * 2 ^ e)
      else Qmake n (Z.to_pos (2 ^ (- e)))
  | _ => 0%Q
  end.

Definition Qltb (a b : Q) : bool :=
  Qnum a * Z.pos (Qden b) <? Qnum b * Z.pos (Qden a).

(** [z > f] for an int and a float: Python compares the exact values. *)
Definition int_gt_float (z : Z) (f : spec_float) : bool :=
  match f with
  | S754_nan => false
  | S754_infinity s => s
  | _ => Qltb (float_to_Q f) (inject_Z z)
  end.

(** [x > y] *)
Definition py_gt (x y : pynum) : bool :=
  match x, y with
  | PyInt a, PyInt b => b <? a
  | PyInt a, PyFloat f => int_gt_float a f
  | PyFloat f, PyInt b =>
      match f with
      | S754_nan => false
      | S754_infinity s => negb s
      | _ => Qltb (inject_Z b) (float_to_Q f)
      end
  | PyFloat f, PyFloat g => SFltb g f
  end.

(** [round(f)] with one argument: nearest integer, ties to even. *)
Definition float_round (f : spec_float) : result Z :=
  match f with
  | S754_zero _ => Ok 0
  | S754_infinity _ => Raise OverflowError
  | S754_nan => Raise ValueError
  | S754_finite s m e =>
      let a :=
        if 0 <=? e then Z.pos m * 2 ^ e
        else
          let d := 2 ^ (- e) in
          let q := Z.pos m / d in
          let r := Z.pos m mod d in
          match 2 * r ?= d with
          | Lt => q
          | Gt => q + 1
          | Eq => if Z.even q then q else q + 1
          end in
      Ok (if s then - a else a)
  end.

Definition py_round (x : pynum) : result Z :=
  match x with
  | PyInt z => Ok z
  | PyFloat f => float_round f
  end.

(** [l[i:j]] for any sequence: negative indices count from the end and
    both ends are clamped. *)
Definition py_slice {A} (l : list A) (i j : Z) : list A :=
  let n := Z.of_nat (length l) in
  let clamp k := if k <? 0 then Z.max 0 (k + n) else Z.min k n in
  take (Z.to_nat (clamp j - clamp i)) (drop (Z.to_nat (clamp i)) l).

(** [dict(items)]: a later item replaces an earlier one with its key. *)
Definition py_dict (items : list (string * Z)) : gmap string Z :=
  fold_left (fun m kv => <[kv.1 := kv.2]> m) items ∅.

(** Bytes *)
Definition Z_of_byte (b : Byte.byte) : Z := Z.of_N (Byte.to_N b).

Definition byte_of_int (z : Z) : option Byte.byte :=
  if (0 <=? z) && (z <? 256) then Byte.of_N (Z.to_N z) else None.

(** [int.from_bytes(bs, "little")] *)
Definition from_bytes (bs : list Byte.byte) : Z :=
  fold_right (fun b acc => Z_of_byte b + 256 * acc) 0 bs.

(** [int.bit_length()] *)
Definition bit_length (z : Z) : Z :=
  if z =? 0 then 0 else Z.log2 (Z.abs z) + 1.

Fixpoint le_digits (n : nat) (z : Z) : list Z :=
  match n with
  | O => []
  | S k => z mod 256 :: le_digits k (z / 256)
  end.

(** [list(num.to_bytes(length, "little"))] *)
Definition int_to_bytes (num length : Z) : result (list Z) :=
  if length <? 0 then Raise ValueError
  else if num <? 0 then Raise OverflowError
  else if 256 ^ length <=? num then Raise OverflowError
  else Ok (le_digits (Z.to_nat length) num).

End Py.
Export Py.

(** ** packet_builder.py *)
Module PacketBuilder.

(** [tobytes(number)]: [int(number / 8)] *)
Definition tobytes (number : Z) : result Z :=
  q ← py_truediv (PyInt number) (PyInt 8);
  py_int q.

(** [to_bytearray(num, bitlength=8)] *)
Definition to_bytearray (num : Z) (bitlength : Z) : result (list Z) :=
  if bitlength =? 0 then Raise ZeroDivisionError
  else int_to_bytes num ((bit_length num + bitlength - 1) / bitlength).

(** The inner function [append] of [packbytes]: a negative shift count
    raises [ValueError]. *)
Definition append (prev : Z) (new : Z * Z) : result Z :=
  let '(val, length) := new in
  if length <? 0 then Raise ValueError
  else Ok (Z.lor (Z.shiftl prev length) val).

(** [functools.reduce(function, iterable, initial)] for a function that may
    raise. *)
Fixpoint reduce {A B} (f : A -> B -> result A) (l : list B) (acc : A)
  : result A :=
  match l with
  | [] => Ok acc
  | x :: rest => acc' ← f acc x; reduce f rest acc'
  end.

(** [packbytes] of its pieces: [reduce(append, pieces, pieces[0][0])].  A bool
    among the values is passed as 0 or 1. *)
Definition packbytes (pieces : list (Z * Z)) : result Z :=
  match pieces with
  | [] => Raise IndexError
  | (val0, _) :: _ => reduce append pieces val0
  end.

(** The binary digits of a positive number, most significant first. *)
Fixpoint bin_digits_pos (p : positive) : list ascii :=
  match p with
  | xH => ["1"%char]
  | xO q => bin_digits_pos q ++ ["0"%char]
  | xI q => bin_digits_pos q ++ ["1"%char]
  end.

Definition bin_digits (n : Z) : list ascii :=
  match n with
  | Z0 => ["0"%char]
  | Zpos p => bin_digits_pos p
  | Zneg p => bin_digits_pos p
  end.

(** [f"{piece:0{size}b}"]: the binary digits, zero-padded after the sign to
    at least [size] characters.  A negative [size] is not a format
    specifier. *)
Definition format_bin (piece size : Z) : result (list ascii) :=
  if size <? 0 then Raise ValueError
  else
    let sign := if piece <? 0 then ["-"%char] else [] in
    let digits := bin_digits piece in
    let pad := Z.to_nat (size - Z.of_nat (length sign) - Z.of_nat (length digits)) in
    Ok (sign ++ replicate pad "0"%char ++ digits).

Fixpoint bin_value (acc : Z) (s : list ascii) : result Z :=
  match s with
  | [] => Ok acc
  | c :: rest =>
      if Ascii.eqb c "0" then bin_value (2 * acc) rest
      else if Ascii.eqb c "1" then bin_value (2 * acc + 1) rest
      else Raise ValueError
  end.

(** [int(part, 2)] on a slice of such a rendering: an optional sign and at
    least one binary digit; the empty string raises [ValueError]. *)
Definition int_base2 (part : list ascii) : result Z :=
  match part with
  | [] => Raise ValueError
  | c :: rest =>
      if Ascii.eqb c "-" then
        match rest with
        | [] => Raise ValueError
        | _ => v ← bin_value 0 rest; Ok (- v)
        end
      else bin_value 0 part
  end.

(** A width of a decode map: a number of bits, or a dict of named
    sub-widths (in insertion order). *)
Inductive size_t : Type :=
| SInt (size : Z)
| SDict (subsizes : list (string * Z)).

(** The inner loop of [deconstruct] over the sub-widths of one piece. *)
Fixpoint deconstruct_sub (piece size subindex : Z) (subsizes : list (string * Z))
  : result (list (string * Z)) :=
  match subsizes with
  | [] => Ok []
  | (k, subsize) :: rest =>
      text ← format_bin piece size;
      let part := py_slice text subindex (subindex + subsize) in
      v ← int_base2 part;
      items ← deconstruct_sub piece size (subindex + subsize) rest;
      Ok ((k, v) :: items)
  end.

Definition sum_values (d : list (string * Z)) : Z :=
  fold_left (fun acc kv => acc + kv.2) d 0.

(** [deconstruct(packet, sizes)], from byte offset [index] on.  The
    generator is consumed whole by its caller, so the items come as a list
    and an exception replaces them all. *)
Fixpoint deconstruct_from (packet : list Byte.byte) (index : Z)
    (sizes : list (string * size_t)) : result (list (string * Z)) :=
  match sizes with
  | [] => Ok []
  | (key, size) :: rest =>
      let '(subsizes, size) :=
        match size with
        | SDict d => (d, sum_values d)
        | SInt n => ([], n)
        end in
      let piece := from_bytes (py_slice packet index (index + size / 8)) in
      let index := index + size / 8 in
      items ←
        match subsizes with
        | [] => Ok [(key, piece)]
        | _ => deconstruct_sub piece size 0 subsizes
        end;
      more ← deconstruct_from packet index rest;
      Ok (items ++ more)
  end.

Definition deconstruct (packet : list Byte.byte) (sizes : list (string * size_t))
  : result (list (string * Z)) :=
  deconstruct_from packet 0 sizes.

Definition MSGHEADER : list (string * size_t) :=
  [ ("size", SInt 16);
    ("protocol", SDict [("origin", 2); ("tagged", 1); ("addressable", 1);
                        ("protocol", 12)]);
    ("source", SInt 32);
    ("target", SInt 64);
    ("reserved", SInt 48);
    ("resp", SDict [("reserved", 6); ("ack_required", 1); ("res_required", 1)]);
    ("sequence", SInt 8);
    ("reserved", SInt 64);
    ("type", SInt 16);
    ("reserved", SInt 16) ].


(** *** class Packet.Part.Parameter(bytearray); [Parameter] is a reserved
    word of Rocq, the type is [Param]. *)
Record Param : Type := { name : string; data : list Byte.byte }.

(** The [values] argument of [Parameter]: an [int] or a [list] of ints. *)
Inductive values_t : Type :=
| VInt (z : Z)
| VList (l : list Z).

Definition truthy (values : values_t) : bool :=
  match values with
  | VInt z => negb (z =? 0)
  | VList l => negb (bool_decide (l = []))
  end.

(** [for i, value in enumerate(values): self[i] = value], from index [i]
    on.  A value outside [range(256)] raises [ValueError], an index past
    the end of the bytearray raises [IndexError]. *)
Fixpoint setitems (self : list Byte.byte) (i : nat) (values : list Z)
  : result (list Byte.byte) :=
  match values with
  | [] => Ok self
  | value :: rest =>
      match byte_of_int value with
      | None => Raise ValueError
      | Some b =>
          if (i <? length self)%nat then setitems (<[i := b]> self) (S i) rest
          else Raise IndexError
      end
  end.

(** [Parameter.__init__(name, values, length, reverse)].  [bytearray(length)]
    is [length] zero bytes; the closing [self.zfill(length)] returns a copy
    and leaves [self] as it is. *)
Definition Parameter_init (name : string) (values : values_t) (length : Z)
    (reverse : bool) : result Param :=
  if length <? 0 then Raise ValueError
  else
    let self := replicate (Z.to_nat length) Byte.x00 in
    if truthy values then
      values ←
        match values with
        | VList l => Ok l
        | VInt z =>
            val ← to_bytearray z 8;
            let values :=
              val ++ replicate (Z.to_nat (length - Z.of_nat (List.length val))) 0 in
            Ok (if reverse then rev values else values)
        end;
      self ← setitems self 0 values;
      Ok {| name := name; data := self |}
    else Ok {| name := name; data := self |}.

(** *** class Packet.Part *)
Record Part : Type := { parameters : list Param }.

(** [Parameter()] *)
Definition Parameter_default : Param := {| name := ""; data := [] |}.

(** [Part(size)]: [size] zero-filled parameters. *)
Definition Part_init (size : Z) : Part :=
  {| parameters := replicate (Z.to_nat size) Parameter_default |}.

(** [Part.__len__] *)
Definition Part_len (self : Part) : Z :=
  fold_right (fun p acc => Z.of_nat (length (data p)) + acc) 0 (parameters self).

(** [Part.__setitem__]: only non-negative indices are used. *)
Definition Part_setitem (self : Part) (index : nat) (value : Param)
  : result Part :=
  if (index <? length (parameters self))%nat
  then Ok {| parameters := <[index := value]> (parameters self) |}
  else Raise IndexError.

Definition prepend_param (self : Part) (name : string) (value : values_t)
    (length : Z) : result Part :=
  par ← Parameter_init name value length false;
  Ok {| parameters := par :: parameters self |}.

Definition append_param (self : Part) (name : string) (values : values_t)
    (length : Z) (reverse : bool) : result Part :=
  par ← Parameter_init name values length reverse;
  Ok {| parameters := parameters self ++ [par] |}.

(** *** class Packet *)
Record Packet : Type := {
  frame : Part;
  frame_address : Part;
  protocol_header : Part;
  payload : Part
}.

Definition Packet_init : Packet :=
  {| frame := Part_init 0; frame_address := Part_init 0;
     protocol_header := Part_init 0; payload := Part_init 0 |}.

Definition with_frame (self : Packet) (part : Part) : Packet :=
  {| frame := part; frame_address := frame_address self;
     protocol_header := protocol_header self; payload := payload self |}.

Definition with_frame_address (self : Packet) (part : Part) : Packet :=
  {| frame := frame self; frame_address := part;
     protocol_header := protocol_header self; payload := payload self |}.

Definition with_protocol_header (self : Packet) (part : Part) : Packet :=
  {| frame := frame self; frame_address := frame_address self;
     protocol_header := part; payload := payload self |}.

Definition with_payload (self : Packet) (part : Part) : Packet :=
  {| frame := frame self; frame_address := frame_address self;
     protocol_header := protocol_header self; payload := part |}.

Definition get_parts (self : Packet) : list Part :=
  [frame self; frame_address self; protocol_header self; payload self].

(** [Packet.__len__] *)
Definition Packet_len (self : Packet) : Z :=
  fold_right (fun l acc => Part_len l + acc) 0 (get_parts self).

(** [Packet.set_size(length=2)] *)
Definition set_size (self : Packet) (length : Z) : result Packet :=
  fr ← prepend_param (frame self) "size" (VInt 0) length;
  let self := with_frame self fr in
  size ← Parameter_init "size" (VInt (Packet_len self)) 2 false;
  fr ← Part_setitem (frame self) 0 size;
  Ok (with_frame self fr).

(** [Packet.bytearray()] *)
Definition bytearray (self : Packet) : list Byte.byte :=
  concat (map (fun part => concat (map data (parameters part))) (get_parts self)).

(** [Packet.get_bytes()]: the same bytes as a list of ints. *)
Definition get_bytes (self : Packet) : list Z :=
  concat (map (fun part => concat (map (fun param => map Z_of_byte (data param))
                                       (parameters part)))
              (get_parts self)).

(** [Packet.msgtype]: [next(filter(...))] over the protocol header. *)
Definition msgtype (self : Packet) : result Z :=
  match List.find (fun par => String.eqb (name par) "message type")
                  (parameters (protocol_header self)) with
  | Some par => Ok (from_bytes (data par))
  | None => Raise StopIteration
  end.

(** [Packet.set_headers(msgtype, tagged, source, res_required, ack_required,
    sequence)] *)
Definition set_headers (self : Packet) (msgtype : Z) (tagged : bool)
    (source : Z) (res_required ack_required : bool) (sequence : Z)
  : result Packet :=
  protocol ← packbytes [(0, 2); (Z.b2z tagged, 1); (Z.b2z true, 1); (1024, 12)];
  n ← tobytes 16;
  fr ← append_param (frame self) "protocol" (VInt protocol) n false;
  n ← tobytes 32;
  fr ← append_param fr "source" (VInt source) n false;
  n ← tobytes 64;
  fa ← append_param (frame_address self) "target" (VInt 0) n false;
  n ← tobytes 48;
  fa ← append_param fa "reserved" (VInt 0) n false;
  resp ← packbytes [(0, 6); (Z.b2z ack_required, 1); (Z.b2z res_required, 1)];
  n ← tobytes 8;
  fa ← append_param fa "resp" (VInt resp) n false;
  n ← tobytes 8;
  fa ← append_param fa "sequence" (VInt sequence) n false;
  n ← tobytes 64;
  ph ← append_param (protocol_header self) "reserved" (VInt 0) n false;
  n ← tobytes 16;
  ph ← append_param ph "message type" (VInt msgtype) n false;
  n ← tobytes 16;
  ph ← append_param ph "reserved" (VInt 0) n false;
  Ok {| frame := fr; frame_address := fa; protocol_header := ph;
        payload := payload self |}.

(** The defaults of [set_headers]. *)
Definition set_headers_default (self : Packet) (msgtype : Z) : result Packet :=
  set_headers self msgtype false 123 true false 0.

(** [Packet.get_state()] *)
Definition get_state : result Packet :=
  packet ← set_headers Packet_init 101 false 123 true false 0;
  set_size packet 2.

(** [Packet.state(hue, saturation, brightness, kelvin, duration)] *)
Definition state (hue saturation brightness kelvin duration : pynum)
  : result Packet :=
  packet ← set_headers_default Packet_init 102;
  pl ← append_param (payload packet) "reserved" (VInt 0) 1 false;
  v ← py_int hue; n ← tobytes 16;
  pl ← append_param pl "hue" (VInt v) n false;
  v ← py_int saturation; n ← tobytes 16;
  pl ← append_param pl "saturation" (VInt v) n false;
  v ← py_int brightness; n ← tobytes 16;
  pl ← append_param pl "brightness" (VInt v) n false;
  v ← py_int kelvin; n ← tobytes 16;
  pl ← append_param pl "kelvin" (VInt v) n false;
  ms ← py_mul duration (PyInt 1000); v ← py_int ms; n ← tobytes 32;
  pl ← append_param pl "duration" (VInt v) n false;
  set_size (with_payload packet pl) 2.

(** [Packet.power(power, duration)] *)
Definition power (power : bool) (duration : pynum) : result Packet :=
  packet ← set_headers_default Packet_init 117;
  v ← py_int (PyInt (65535 * Z.b2z power)); n ← tobytes 16;
  pl ← append_param (payload packet) "level" (VInt v) n false;
  ms ← py_mul duration (PyInt 1000); v ← py_int ms; n ← tobytes 32;
  pl ← append_param pl "duration" (VInt v) n false;
  set_size (with_payload packet pl) 2.

(** [Packet.fastpwr(power)] *)
Definition fastpwr (power : bool) : result Packet :=
  packet ← set_headers_default Packet_init 21;
  v ← py_int (PyInt (65535 * Z.b2z power)); n ← tobytes 16;
  pl ← append_param (payload packet) "level" (VInt v) n false;
  set_size (with_payload packet pl) 2.

End PacketBuilder.

(** ** lifx.py *)
Module Lifx.
Import PacketBuilder.

(** *** Devices and transport *)
Inductive Device : Set := Taklampa | LIFXZ.

Definition Device_value (d : Device) : string * Z :=
  match d with
  | Taklampa => ("192.168.1.99", 56700)
  | LIFXZ => ("192.168.1.45", 56700)
  end.

(** The network as the program sees it: the datagrams sent so far, and what
    each coming [sock.recv] will meet, a datagram or [None] for the
    5-second timeout (an exhausted script times out too).  [uncaught]
    collects the exceptions that ended a callback thread. *)
Record World : Type := {
  sent : list (Device * list Byte.byte);
  replies : list (option (list Byte.byte));
  uncaught : list exn
}.

(** *** threading.Timer *)
Inductive TimerStatus : Type :=
| Initial
| Running (remaining : Q)
| Cancelled
| Finished.

Record Timer : Type := { interval : pynum; status : TimerStatus }.

Definition Timer_init (interval : pynum) : Timer :=
  {| interval := interval; status := Initial |}.

Definition is_alive (t : Timer) : bool :=
  match status t with Running _ => true | _ => false end.

Definition cancel (t : Timer) : Timer :=
  {| interval := interval t;
     status := match status t with Finished => Finished | _ => Cancelled end |}.

Definition seconds (x : pynum) : Q :=
  match x with
  | PyInt z => inject_Z z
  | PyFloat f => float_to_Q f
  end.

Definition start (t : Timer) : Timer :=
  {| interval := interval t; status := Running (seconds (interval t)) |}.

(** [timedelta.total_seconds()] of a timedelta held as its microseconds. *)
Definition total_seconds (td : Z) : result pynum :=
  py_truediv (PyInt td) (PyInt 1000000).

(** *** class MotionHandler *)
Record MotionHandler : Type := {
  delay : Z;
  fadetime : Z;
  last_state : gmap string Z;
  is_active : bool;
  fading_timer : Timer;
  is_fading : bool;
  timer : Timer
}.

(** [MotionHandler.dark = 0.01] *)
Definition dark : pynum := PyFloat (S754_finite false 0x147ae147ae147b (-59)).

(** The default [duration=0.1] of [brightness]. *)
Definition duration_default : pynum :=
  PyFloat (S754_finite false 0x1999999999999a (-56)).

Definition set_last_state (v : gmap string Z) (h : MotionHandler) : MotionHandler :=
  {| delay := delay h; fadetime := fadetime h; last_state := v;
     is_active := is_active h; fading_timer := fading_timer h;
     is_fading := is_fading h; timer := timer h |}.

Definition set_is_active (v : bool) (h : MotionHandler) : MotionHandler :=
  {| delay := delay h; fadetime := fadetime h; last_state := last_state h;
     is_active := v; fading_timer := fading_timer h;
     is_fading := is_fading h; timer := timer h |}.

Definition set_fading_timer (v : Timer) (h : MotionHandler) : MotionHandler :=
  {| delay := delay h; fadetime := fadetime h; last_state := last_state h;
     is_active := is_active h; fading_timer := v;
     is_fading := is_fading h; timer := timer h |}.

Definition set_is_fading (v : bool) (h : MotionHandler) : MotionHandler :=
  {| delay := delay h; fadetime := fadetime h; last_state := last_state h;
     is_active := is_active h; fading_timer := fading_timer h;
     is_fading := v; timer := timer h |}.

Definition set_timer (v : Timer) (h : MotionHandler) : MotionHandler :=
  {| delay := delay h; fadetime := fadetime h; last_state := last_state h;
     is_active := is_active h; fading_timer := fading_timer h;
     is_fading := is_fading h; timer := v |}.

(** [MotionHandler.__init__(pir, delay, fadetime)] *)
Definition MotionHandler_init (delay fadetime : Z) : result MotionHandler :=
  fade ← total_seconds fadetime;
  wait ← total_seconds delay;
  Ok {| delay := delay; fadetime := fadetime; last_state := ∅;
        is_active := true; fading_timer := Timer_init fade;
        is_fading := false; timer := Timer_init wait |}.

(** *** The program state and its monad: the handler object and the
    network, with exceptions. *)
Record Sys : Type := { handler : MotionHandler; world : World }.

Definition M (A : Type) : Type := Sys -> result A * Sys.

#[global] Instance M_ret : MRet M := fun _ a s => (Ok a, s).
#[global] Instance M_bind : MBind M := fun _ _ f m s =>
  match m s with
  | (Ok a, s') => f a s'
  | (Raise e, s') => (Raise e, s')
  end.

Definition lift {A} (r : result A) : M A := fun s => (r, s).

Definition self : M MotionHandler := fun s => (Ok (handler s), s).

Definition update (f : MotionHandler -> MotionHandler) : M unit :=
  fun s => (Ok tt, {| handler := f (handler s); world := world s |}).

(** [sock.send(data)] *)
Definition sock_send (device : Device) (data : list Byte.byte) : M Z :=
  fun s =>
    (Ok (Z.of_nat (length data)),
     {| handler := handler s;
        world := {| sent := sent (world s) ++ [(device, data)];
                    replies := replies (world s);
                    uncaught := uncaught (world s) |} |}).

(** [sock.recv(bufsize)] under [settimeout(5)]; a longer datagram is cut
    to [bufsize] bytes. *)
Definition sock_recv (bufsize : nat) : M (list Byte.byte) :=
  fun s =>
    match replies (world s) with
    | [] => (Raise SocketTimeout, s)
    | r :: rest =>
        let s' := {| handler := handler s;
                     world := {| sent := sent (world s); replies := rest;
                                 uncaught := uncaught (world s) |} |} in
        match r with
        | Some d => (Ok (take bufsize d), s')
        | None => (Raise SocketTimeout, s')
        end
    end.

(** [send_packet(device, bytestring, silent)]; the log line reads
    [bytestring.msgtype]. *)
Definition send_packet (device : Device) (bytestring : Packet) (silent : bool)
  : M Z :=
  (if silent then mret 0 else lift (msgtype bytestring));;
  sock_send device (bytearray bytestring).

(** [send_recieve_packet(device, bytestring, silent)] *)
Definition send_recieve_packet (device : Device) (bytestring : Packet)
    (silent : bool) : M (list Byte.byte) :=
  (if silent then mret 0 else lift (msgtype bytestring));;
  sock_send device (bytearray bytestring);;
  sock_recv 255.

Definition decodemap : list (string * size_t) :=
  MSGHEADER ++
  [ ("hue", SInt 16);
    ("saturation", SInt 16);
    ("brightness", SInt 16);
    ("kelvin", SInt 16);
    ("reserved", SInt 16);
    ("power", SInt 16);
    ("label", SInt 32);
    ("reserved", SInt 64) ].

(** [get_state(device, silent)] *)
Definition get_state (device : Device) (silent : bool) : M (gmap string Z) :=
  packet ← lift PacketBuilder.get_state;
  response ← send_recieve_packet device packet silent;
  items ← lift (deconstruct response decodemap);
  mret (py_dict items).

(** [dict.get(key, default)] *)
Definition dict_get (d : gmap string Z) (key : string) (dflt : Z) : Z :=
  default dflt (d !! key).

(** [MotionHandler.brightness(level, duration)] *)
Definition brightness (level duration : pynum) : M unit :=
  h ← self;
  state ← (if bool_decide (last_state h = ∅) then get_state Taklampa false
           else mret (last_state h));
  b ← lift (py_mul level (PyInt 65535));
  packet ← lift (PacketBuilder.state
                   (PyInt (dict_get state "hue" 0))
                   (PyInt (dict_get state "saturation" 0))
                   b
                   (PyInt (dict_get state "kelvin" 3500))
                   duration);
  send_packet Taklampa packet false;;
  mret tt.

(** [MotionHandler.fading_false()] *)
Definition fading_false : M unit := update (set_is_fading false).

(** [MotionHandler.timeout()]; the handler of [BaseException] logs and
    raises again. *)
Definition timeout : M unit :=
  update (set_is_active false);;
  h ← self;
  fade ← lift (total_seconds (fadetime h));
  brightness dark fade;;
  h ← self;
  (if is_alive (fading_timer h)
   then update (set_fading_timer (cancel (fading_timer h)))
   else mret tt);;
  h ← self;
  fade ← lift (total_seconds (fadetime h));
  update (set_fading_timer (Timer_init fade));;
  h ← self;
  update (set_fading_timer (start (fading_timer h)));;
  update (set_is_fading true).

(** [MotionHandler.motion()] *)
Definition motion : M unit :=
  h ← self;
  (if is_alive (fading_timer h)
   then update (set_fading_timer (cancel (fading_timer h)))
   else mret tt);;
  h ← self;
  (if is_alive (timer h)
   then update (set_timer (cancel (timer h)))
   else mret tt);;
  h ← self;
  (if negb (is_active h) then
     let last_brightness := last_state h !! "brightness" in
     level ← match last_brightness with
             | Some lb => lift (py_truediv (PyInt lb) (PyInt 65535))
             | None => mret (PyInt 1)
             end;
     brightness level duration_default
   else mret tt);;
  update (set_is_active true).

(** [MotionHandler.no_motion()] *)
Definition no_motion : M unit :=
  h ← self;
  (if is_alive (timer h)
   then update (set_timer (cancel (timer h)))
   else mret tt);;
  h ← self;
  wait ← lift (total_seconds (delay h));
  update (set_timer (Timer_init wait));;
  h ← self;
  update (set_timer (start (timer h))).

(** The [try] block of the main loop; [None >= 0xFF00] is a [TypeError]. *)
Definition poll_try : M unit :=
  h ← self;
  if is_active h || (negb (is_active h) && negb (is_fading h)) then
    new_state ← get_state Taklampa true;
    h ← self;
    floor ← lift (x ← py_mul dark (PyInt 10); py_mul x (PyInt 65535));
    if py_gt (PyInt (dict_get new_state "brightness" 0)) floor then
      match new_state !! "power" with
      | None => lift (Raise TypeError)
      | Some p =>
          if 65280 <=? p then
            if bool_decide (new_state !! "brightness" <> last_state h !! "brightness")
            then update (set_last_state new_state)
            else mret tt
          else mret tt
      end
    else mret tt
  else mret tt.

(** One turn of the main loop, without the closing [time.sleep(5)]:
    [socket.timeout] is logged, anything else leaves the loop. *)
Definition poll : M unit :=
  fun s =>
    match poll_try s with
    | (Raise SocketTimeout, s') => (Ok tt, s')
    | r => r
    end.

(** *** Sequential execution of the callbacks

    The sensor callbacks, the two timer callbacks and the main loop run
    one at a time.  A callback runs in a thread of its own: an exception
    ends that thread and is recorded, the changes made so far stay. *)
Definition run_thread (m : M unit) (s : Sys) : Sys :=
  match m s with
  | (Ok _, s') => s'
  | (Raise e, s') =>
      {| handler := handler s';
         world := {| sent := sent (world s'); replies := replies (world s');
                     uncaught := uncaught (world s') ++ [e] |} |}
  end.

Definition advance (dt : Q) (t : Timer) : Timer :=
  match status t with
  | Running r => {| interval := interval t; status := Running (r - dt)%Q |}
  | _ => t
  end.

Definition finish (t : Timer) : Timer :=
  match status t with
  | Running _ => {| interval := interval t; status := Finished |}
  | _ => t
  end.

(** Time passes on both timers. *)
Definition pass_time (dt : Q) (s : Sys) : Sys :=
  {| handler := set_timer (advance dt (timer (handler s)))
                  (set_fading_timer (advance dt (fading_timer (handler s)))
                     (handler s));
     world := world s |}.

Inductive slot : Set := InactivityTimer | FadingTimer.

Definition due (dt : Q) (t : Timer) : option Q :=
  match status t with
  | Running r => if Qle_bool r dt then Some r else None
  | _ => None
  end.

(** The running timer that expires first within [dt], the inactivity timer
    before the fading timer when both expire together. *)
Definition next_due (dt : Q) (h : MotionHandler) : option (slot * Q) :=
  match due dt (timer h), due dt (fading_timer h) with
  | Some r1, Some r2 =>
      if Qle_bool r1 r2 then Some (InactivityTimer, r1) else Some (FadingTimer, r2)
  | Some r1, None => Some (InactivityTimer, r1)
  | None, Some r2 => Some (FadingTimer, r2)
  | None, None => None
  end.

(** A timer expires: its function runs in the timer's thread, which is
    alive until the function returns. *)
Definition fire (sl : slot) (s : Sys) : Sys :=
  match sl with
  | InactivityTimer =>
      let s' := run_thread timeout s in
      {| handler := set_timer (finish (timer (handler s'))) (handler s');
         world := world s' |}
  | FadingTimer =>
      let s' := run_thread fading_false s in
      {| handler := set_fading_timer (finish (fading_timer (handler s'))) (handler s');
         world := world s' |}
  end.

(** [dt] seconds pass; at most [n] timers expire on the way. *)
Fixpoint elapse_n (n : nat) (dt : Q) (s : Sys) : Sys :=
  match n with
  | O => pass_time dt s
  | S k =>
      match next_due dt (handler s) with
      | None => pass_time dt s
      | Some (sl, r) => elapse_n k (dt - r)%Q (fire sl (pass_time r s))
      end
  end.

(** The inactivity timer expires at most once and the fading timer at most
    twice (the running one, and the one [timeout] starts) while no other
    event comes in. *)
Definition elapse (dt : Q) (s : Sys) : Sys := elapse_n 3 dt s.

Inductive event : Type :=
| MotionDetected
| MotionCleared
| Elapse (dt : Q)
| Poll.

Definition step (s : Sys) (ev : event) : Sys :=
  match ev with
  | MotionDetected => run_thread motion s
  | MotionCleared => run_thread no_motion s
  | Elapse dt => elapse dt s
  | Poll => run_thread poll s
  end.

Definition run (evs : list event) (s : Sys) : Sys := fold_left step evs s.

End Lifx.

Import PacketBuilder Lifx.

(** * Definitions used to state the properties *)

(** The byte of an int already known to lie in [range(256)]. *)
Definition byte_of_Z (z : Z) : Byte.byte := default Byte.x00 (byte_of_int z).

(** [length] little-endian bytes of [z]. *)
Definition le_bytes (length : nat) (z : Z) : list Byte.byte :=
  map byte_of_Z (le_digits length z).

(** What [Parameter] does with an int for [length] bytes. *)
Definition encode (length z : Z) : result (list Byte.byte) :=
  if z <? 0 then Raise OverflowError
  else if 256 ^ length <=? z then Raise IndexError
  else Ok (le_bytes (Z.to_nat length) z).

(** The number of bytes [to_bytearray] asks of [to_bytes]. *)
Definition byte_count (z : Z) : Z := (bit_length z + 8 - 1) / 8.

(** The first two bytes of the datagram, as a little-endian integer. *)
Definition size_field (datagram : list Byte.byte) : Z :=
  from_bytes (take 2 datagram).

(** The packet [set_headers] leaves with the default arguments. *)
Definition headers (msgtype : Z) : Packet :=
  match set_headers_default Packet_init msgtype with
  | Ok p => p
  | Raise _ => Packet_init
  end.

(** The payload and the packet [Packet.state] builds from values that
    fit. *)
Definition state_payload (h s b k ms : Z) : Part :=
  {| parameters :=
       [ {| name := "reserved"; data := le_bytes 1 0 |};
         {| name := "hue"; data := le_bytes 2 h |};
         {| name := "saturation"; data := le_bytes 2 s |};
         {| name := "brightness"; data := le_bytes 2 b |};
         {| name := "kelvin"; data := le_bytes 2 k |};
         {| name := "duration"; data := le_bytes 4 ms |} ] |}.

Definition state_packet (h s b k ms : Z) : Packet :=
  let packet := with_payload (headers 102) (state_payload h s b k ms) in
  with_frame packet
    {| parameters := {| name := "size"; data := le_bytes 2 49 |}
                       :: parameters (frame packet) |}.

(** The value of the first parameter of a part with a given name, read as
    [msgtype] reads the message type. *)
Definition field (part : Part) (key : string) : option Z :=
  match List.find (fun par => String.eqb (name par) key) (parameters part) with
  | Some par => Some (from_bytes (data par))
  | None => None
  end.

(** The packets the four builders return. *)
Inductive built : Packet -> Prop :=
| built_get_state p : PacketBuilder.get_state = Ok p -> built p
| built_state hue saturation brightness kelvin duration p :
    state hue saturation brightness kelvin duration = Ok p -> built p
| built_power on duration p : power on duration = Ok p -> built p
| built_fastpwr on p : fastpwr on = Ok p -> built p.

(** A value fits a field of [length] bytes. *)
Definition fits (length z : Z) : Prop := 0 <= z < 256 ^ length.

Definition bit_char (b : bool) : ascii := if b then "1"%char else "0"%char.

(** The [n] low bits of [v], most significant first. *)
Fixpoint bits (n : nat) (v : Z) : list ascii :=
  match n with
  | O => []
  | S k => bits k (v / 2) ++ [bit_char (Z.odd v)]
  end.

(** The sub-field of [subsize] bits that starts [subindex] bits below the
    top of a [size]-bit piece. *)
Definition bitfield (piece size subindex subsize : Z) : Z :=
  (piece / 2 ^ (size - subindex - subsize)) mod 2 ^ subsize.

Fixpoint sub_values (piece size subindex : Z) (subsizes : list (string * Z))
  : list (string * Z) :=
  match subsizes with
  | [] => []
  | (k, subsize) :: rest =>
      (k, bitfield piece size subindex subsize)
        :: sub_values piece size (subindex + subsize) rest
  end.

(** What [deconstruct] yields from byte offset [index] on. *)
Fixpoint decoded_from (packet : list Byte.byte) (index : Z)
    (sizes : list (string * size_t)) : list (string * Z) :=
  match sizes with
  | [] => []
  | (key, SInt n) :: rest =>
      (key, from_bytes (py_slice packet index (index + n / 8)))
        :: decoded_from packet (index + n / 8) rest
  | (key, SDict d) :: rest =>
      let n := sum_values d in
      let piece := from_bytes (py_slice packet index (index + n / 8)) in
      match d with
      | [] => [(key, piece)]
      | _ => sub_values piece n 0 d
      end ++ decoded_from packet (index + n / 8) rest
  end.

(** A decode map with widths that are not negative and sub-widths that are
    positive, as [MSGHEADER] and the state payload map. *)
Definition sizes_ok (sizes : list (string * size_t)) : Prop :=
  Forall (fun ks => match ks.2 with
                    | SInt n => 0 <= n
                    | SDict d => Forall (fun kw => 0 < kw.2) d
                    end) sizes.

(** [dict.get(key)] on [dict(items)]: the last item with that key. *)
Fixpoint lookup_last (key : string) (items : list (string * Z)) : option Z :=
  match items with
  | [] => None
  | (k, v) :: rest =>
      match lookup_last key rest with
      | Some v' => Some v'
      | None => if String.eqb k key then Some v else None
      end
  end.

(** The decoding done by [get_state] on a response. *)
Definition decode_state (response : list Byte.byte) : result (gmap string Z) :=
  items ← deconstruct response decodemap; Ok (py_dict items).

Definition cancel_if_alive (t : Timer) : Timer := if is_alive t then cancel t else t.

(** The exact value of a Python number, when it has one. *)
Definition num_value (d : pynum) : option Q :=
  match d with
  | PyInt z => Some (inject_Z z)
  | PyFloat (S754_zero _) => Some 0%Q
  | PyFloat (S754_finite s m e) => Some (float_to_Q (S754_finite s m e))
  | PyFloat _ => None
  end.

(** [0 <= duration <= 4294967] *)
Definition duration_in_range (duration : pynum) : Prop :=
  exists q, num_value duration = Some q /\ (0 <= q)%Q /\ (q <= 4294967)%Q.

(** The query [Packet.get_state()] builds. *)
Definition query_packet : Packet :=
  match PacketBuilder.get_state with
  | Ok p => p
  | Raise _ => Packet_init
  end.

Definition send (device : Device) (datagram : list Byte.byte) (w : World) : World :=
  {| sent := sent w ++ [(device, datagram)]; replies := replies w;
     uncaught := uncaught w |}.

Definition next_reply (w : World) : World :=
  {| sent := sent w; replies := tail (replies w); uncaught := uncaught w |}.

(** The reading [get_state] returns for a response. *)
Definition reading (response : list Byte.byte) : gmap string Z :=
  py_dict (decoded_from (take 255 response) 0 decodemap).

(** Both timers after the two cancellations at the head of [motion]. *)
Definition cancel_timers (h : MotionHandler) : MotionHandler :=
  set_timer (cancel_if_alive (timer h))
    (set_fading_timer (cancel_if_alive (fading_timer h)) h).

(** A full state response: hue 120, saturation 0, brightness 40000,
    kelvin 3500, power 0xFFFF. *)
Definition bright_response : list Byte.byte :=
  bytearray query_packet
  ++ le_bytes 2 120 ++ le_bytes 2 0 ++ le_bytes 2 40000 ++ le_bytes 2 3500
  ++ le_bytes 2 0 ++ le_bytes 2 65535 ++ replicate 12 Byte.x00.

(** A dimmed controller that has this reading in its cache. *)
Definition dimmed_example : Sys :=
  {| handler :=
       {| delay := 300000000; fadetime := 300000000;
          last_state := reading bright_response;
          is_active := false;
          fading_timer := Timer_init (PyInt 300);
          is_fading := false;
          timer := Timer_init (PyInt 300) |};
     world := {| sent := []; replies := []; uncaught := [] |} |}.

(** A full state response with brightness 30000 and the given power. *)
Definition steady_response (power : Z) : list Byte.byte :=
  bytearray query_packet
  ++ le_bytes 2 120 ++ le_bytes 2 0 ++ le_bytes 2 30000 ++ le_bytes 2 3500
  ++ le_bytes 2 0 ++ le_bytes 2 power ++ replicate 12 Byte.x00.

(** A controller fresh from the constructor, with delays of five minutes,
    whose device answers the next two queries with the given datagrams. *)
Definition fresh_example (d1 d2 : list Byte.byte) : Sys :=
  {| handler :=
       match MotionHandler_init 300000000 300000000 with
       | Ok h => h
       | Raise _ => handler dimmed_example
       end;
     world := {| sent := []; replies := [Some d1; Some d2]; uncaught := [] |} |}.

(** The test the main loop makes before it caches a reading. *)
Definition accepts (h : MotionHandler) (new_state : gmap string Z) : bool :=
  (6553 <? dict_get new_state "brightness" 0)
  && (65280 <=? dict_get new_state "power" 0)
  && negb (bool_decide (new_state !! "brightness" = last_state h !! "brightness")).

Definition poll_guard (h : MotionHandler) : bool :=
  is_active h || (negb (is_active h) && negb (is_fading h)).

(** What the cache may hold: nothing, or a reading that was on and
    brighter than ten times the dark floor. *)
Definition cache_ok (last_state : gmap string Z) : Prop :=
  last_state = ∅
  \/ exists d b p,
       last_state = reading d
       /\ last_state !! "brightness" = Some b /\ 65535 < 10 * b
       /\ last_state !! "power" = Some p /\ 65280 <= p.


(** The spec's value of the duration field: [round(duration * 1000)]. *)
Definition spec_duration_ms (duration : pynum) : result Z :=
  x ← py_mul duration (PyInt 1000); py_round x.

(** The float 0.015625, one 64th of a second. *)
Definition one_64th : pynum := PyFloat (S754_finite false 4503599627370496 (-58)).

(** The spec's fold: [result = (result << bit_width) | value], from zero. *)
Definition pack_bits (pairs : list (Z * Z)) : Z :=
  fold_left (fun result pair => Z.lor (Z.shiftl result pair.2) pair.1) pairs 0.

Definition total_width (pieces : list (Z * Z)) : Z :=
  fold_right (fun pair acc => pair.2 + acc) 0 pieces.

(** The value [set_headers] packs into the protocol field: origin 0, the
    tagged bit, addressable 1 and protocol 1024. *)
Definition protocol_bits (tagged : bool) : Z := 8192 * Z.b2z tagged + 5120.

(** The value [set_headers] packs into the resp field. *)
Definition resp_bits (ack_required res_required : bool) : Z :=
  2 * Z.b2z ack_required + Z.b2z res_required.

(** The packet [set_headers] makes of a fresh [Packet()]. *)
Definition header_packet (msgtype : Z) (tagged : bool) (source : Z)
    (res_required ack_required : bool) (sequence : Z) : Packet :=
  {| frame :=
       {| parameters :=
            [ {| name := "protocol"; data := le_bytes 2 (protocol_bits tagged) |};
              {| name := "source"; data := le_bytes 4 source |} ] |};
     frame_address :=
       {| parameters :=
            [ {| name := "target"; data := le_bytes 8 0 |};
              {| name := "reserved"; data := le_bytes 6 0 |};
              {| name := "resp";
                 data := le_bytes 1 (resp_bits ack_required res_required) |};
              {| name := "sequence"; data := le_bytes 1 sequence |} ] |};
     protocol_header :=
       {| parameters :=
            [ {| name := "reserved"; data := le_bytes 8 0 |};
              {| name := "message type"; data := le_bytes 2 msgtype |};
              {| name := "reserved"; data := le_bytes 2 0 |} ] |};
     payload := Part_init 0 |}.

(** The payload and the packet [Packet.power] builds. *)
Definition power_packet (level ms : Z) : Packet :=
  let packet :=
    with_payload (headers 117)
      {| parameters := [ {| name := "level"; data := le_bytes 2 level |};
                         {| name := "duration"; data := le_bytes 4 ms |} ] |} in
  with_frame packet
    {| parameters := {| name := "size"; data := le_bytes 2 42 |}
                       :: parameters (frame packet) |}.

(** What [sock.recv] returns for the next scripted reply. *)
Definition received (w : World) : result (list Byte.byte) :=
  match replies w with
  | Some d :: _ => Ok (take 255 d)
  | _ => Raise SocketTimeout
  end.

(** A state response: any 36 bytes of header, then hue, saturation,
    brightness, kelvin, two reserved bytes and the power, each of 16 bits
    little-endian, then whatever follows. *)
Definition state_response (header : list Byte.byte) (h s b k r p : Z)
    (rest : list Byte.byte) : list Byte.byte :=
  header ++ le_bytes 2 h ++ le_bytes 2 s ++ le_bytes 2 b ++ le_bytes 2 k
  ++ le_bytes 2 r ++ le_bytes 2 p ++ rest.

(** A dimmed controller whose device is about to answer with brightness
    30000 and the power on. *)
Definition answering_example : Sys :=
  {| handler := handler dimmed_example;
     world := {| sent := [];
                 replies := [Some (state_response (bytearray query_packet)
                                     120 0 30000 3500 0 65535 [])];
                 uncaught := [] |} |}.

(** The brightness [motion] sends for a cached brightness [lb]:
    [int((lb / 0xFFFF) * 0xFFFF)]. *)
Definition restored (lb : Z) : result Z :=
  level ← py_truediv (PyInt lb) (PyInt 65535);
  b ← py_mul level (PyInt 65535);
  py_int b.

Definition restored_same (lb : Z) : bool :=
  match restored lb with
  | Ok b => b =? lb
  | Raise _ => false
  end.

(** A test on [n] consecutive integers from [from] on. *)
Fixpoint all_from (test : Z -> bool) (n : nat) (from : Z) : bool :=
  match n with
  | O => true
  | S k => test from && all_from test k (from + 1)
  end.

(** The float 300.0, the five minutes of the default delays. *)
Definition five_minutes : pynum := PyFloat (S754_finite false 5277655813324800 (-44)).






(** The 36 bytes of the frame, the frame address and the protocol header
    as [set_headers] writes them with its default arguments and [set_size]
    completes them: the size of the datagram, the protocol field
    (addressable, protocol 1024), source 123, a target of 8 zero bytes,
    6 reserved bytes, the response flags (res_required), sequence 0,
    8 reserved bytes, the message type and 2 reserved bytes. *)
Definition header_bytes (size msgtype : Z) : list Byte.byte :=
  le_bytes 2 size ++ le_bytes 2 5120 ++ le_bytes 4 123
  ++ le_bytes 8 0 ++ le_bytes 6 0 ++ le_bytes 1 1 ++ le_bytes 1 0
  ++ le_bytes 8 0 ++ le_bytes 2 msgtype ++ le_bytes 2 0.

(** A set-color datagram, byte by byte: the header with size 49 and
    message type 102 (bytes 32 and 33), then the payload in the order in
    which [Packet.state] appends it: a reserved byte (offset 36), hue
    (37), saturation (39), brightness (41) and kelvin (43) of two bytes
    each, and the duration in milliseconds (45) of four, little-endian. *)
Definition set_color_datagram (h s b k ms : Z) : list Byte.byte :=
  header_bytes 49 102
  ++ le_bytes 1 0 ++ le_bytes 2 h ++ le_bytes 2 s ++ le_bytes 2 b ++ le_bytes 2 k
  ++ le_bytes 4 ms.

(** The float 65535.5, more than a field of 16 bits holds. *)
Definition above_16_bits : pynum := PyFloat (S754_finite false 9007130535264256 (-37)).

(** The float -0.5. *)
Definition minus_half : pynum := PyFloat (S754_finite true 4503599627370496 (-53)).

(** * Properties *)

Lemma Z_of_byte_range b : 0 <= Z_of_byte b < 256.
Proof.
  unfold Z_of_byte. pose proof (Byte.to_N_bounded b). lia.
Qed.

Lemma byte_of_int_Some z b : byte_of_int z = Some b -> Z_of_byte b = z.
Proof.
  unfold byte_of_int, Z_of_byte.
  destruct (0 <=? z) eqn:H0; [|discriminate].
  destruct (z <? 256) eqn:H1; [|discriminate]. cbn.
  intros H. apply Byte.to_of_N in H. rewrite H. lia.
Qed.

Lemma byte_of_int_range z :
  0 <= z < 256 -> exists b, byte_of_int z = Some b /\ Z_of_byte b = z.
Proof.
  intros Hz. unfold byte_of_int.
  replace (0 <=? z) with true by lia. replace (z <? 256) with true by lia. cbn.
  destruct (Byte.of_N (Z.to_N z)) as [b|] eqn:E.
  - exists b. split; [done|]. apply Byte.to_of_N in E. unfold Z_of_byte. lia.
  - apply Byte.of_N_None_iff in E. lia.
Qed.

Lemma byte_of_Z_range z : 0 <= z < 256 -> byte_of_int z = Some (byte_of_Z z).
Proof.
  intros Hz. destruct (byte_of_int_range z Hz) as (b & Hb & _).
  unfold byte_of_Z. by rewrite Hb.
Qed.

Lemma Z_of_byte_of_Z z : 0 <= z < 256 -> Z_of_byte (byte_of_Z z) = z.
Proof. intros Hz. apply byte_of_int_Some, byte_of_Z_range, Hz. Qed.


Lemma from_bytes_bound l : 0 <= from_bytes l < 256 ^ Z.of_nat (length l).
Proof.
  induction l as [|x l IH]; cbn [from_bytes fold_right length].
  - lia.
  - fold (from_bytes l). pose proof (Z_of_byte_range x).
    rewrite Nat2Z.inj_succ, Z.pow_succ_r by lia. lia.
Qed.


Lemma le_digits_length n z : length (le_digits n z) = n.
Proof. revert z; induction n as [|n IH]; intros z; cbn; [done|]. by rewrite IH. Qed.

Lemma le_digits_range n z : Forall (fun d => 0 <= d < 256) (le_digits n z).
Proof.
  revert z; induction n as [|n IH]; intros z; cbn; constructor; [|apply IH].
  apply Z.mod_pos_bound. lia.
Qed.

Lemma le_bytes_length n z : length (le_bytes n z) = n.
Proof. unfold le_bytes. by rewrite length_map, le_digits_length. Qed.

Lemma from_bytes_le_bytes n z : from_bytes (le_bytes n z) = z mod 256 ^ Z.of_nat n.
Proof.
  unfold le_bytes. revert z; induction n as [|n IH]; intros z.
  - cbn. by rewrite Z.mod_1_r.
  - cbn [le_digits map from_bytes fold_right].
    fold (from_bytes (map byte_of_Z (le_digits n (z / 256)))). rewrite IH.
    rewrite Z_of_byte_of_Z by (apply Z.mod_pos_bound; lia).
    rewrite Nat2Z.inj_succ, Z.pow_succ_r by lia.
    rewrite Z.rem_mul_r by lia. done.
Qed.

Lemma map_replicate {A B} (f : A -> B) n x : map f (replicate n x) = replicate n (f x).
Proof. induction n as [|n IH]; cbn; [done|]. by rewrite IH. Qed.

Lemma le_digits_zero m : le_digits m 0 = replicate m 0.
Proof.
  induction m as [|m IH]; [done|].
  cbn [le_digits replicate]. by rewrite Zmod_0_l, Zdiv_0_l, IH.
Qed.

Lemma le_digits_small k m z :
  0 <= z < 256 ^ Z.of_nat k ->
  le_digits (k + m) z = le_digits k z ++ replicate m 0.
Proof.
  revert z; induction k as [|k IH]; intros z Hz.
  - cbn in Hz. assert (z = 0) by lia. subst. apply le_digits_zero.
  - cbn [Nat.add le_digits app]. f_equal. apply IH.
    rewrite Nat2Z.inj_succ, Z.pow_succ_r in Hz by lia.
    split; [apply Z.div_pos; lia|]. apply Z.div_lt_upper_bound; lia.
Qed.

Lemma setitems_ok vals : forall self i,
  Forall (fun d => 0 <= d < 256) vals ->
  (i + length vals <= length self)%nat ->
  setitems self i vals =
    Ok (take i self ++ map byte_of_Z vals ++ drop (i + length vals) self).
Proof.
  induction vals as [|v vals IH]; intros self i Hr Hlen.
  - cbn. rewrite Nat.add_0_r. by rewrite take_drop.
  - inversion Hr as [|? ? Hv Hvals]; subst. cbn [setitems length] in *.
    rewrite (byte_of_Z_range v Hv).
    replace (i <? length self)%nat with true by (symmetry; apply Nat.ltb_lt; lia).
    rewrite IH by (rewrite ?length_insert; done || lia).
    f_equal. cbn [map].
    rewrite (take_S_r (<[i:=byte_of_Z v]> self) i (byte_of_Z v))
      by (apply list_lookup_insert_eq; lia).
    rewrite take_insert_ge by lia.
    rewrite drop_insert_lt by lia.
    rewrite <- app_assoc. cbn [app].
    replace (S i + length vals)%nat with (i + S (length vals))%nat by lia. done.
Qed.

Lemma setitems_IndexError vals : forall self i,
  Forall (fun d => 0 <= d < 256) vals ->
  (i <= length self < i + length vals)%nat ->
  setitems self i vals = Raise IndexError.
Proof.
  induction vals as [|v vals IH]; intros self i Hr Hlen.
  - cbn in Hlen. lia.
  - inversion Hr as [|? ? Hv Hvals]; subst. cbn [setitems length] in *.
    rewrite (byte_of_Z_range v Hv).
    destruct (i <? length self)%nat eqn:E; [|done].
    apply Nat.ltb_lt in E. apply IH; [done|]. rewrite length_insert. lia.
Qed.

Lemma bit_length_bounds z :
  0 < z -> 2 ^ (bit_length z - 1) <= z < 2 ^ bit_length z.
Proof.
  intros Hz. unfold bit_length.
  replace (z =? 0) with false by lia.
  rewrite Z.abs_eq by lia.
  pose proof (Z.log2_spec z Hz) as H.
  replace (Z.log2 z + 1 - 1) with (Z.log2 z) by lia.
  replace (Z.log2 z + 1) with (Z.succ (Z.log2 z)) by lia. exact H.
Qed.

Lemma byte_count_bounds z :
  0 < z -> 0 < byte_count z /\ 256 ^ (byte_count z - 1) <= z < 256 ^ byte_count z.
Proof.
  intros Hz. pose proof (bit_length_bounds z Hz) as [Hlo Hhi].
  assert (HL : 0 < bit_length z).
  { unfold bit_length. replace (z =? 0) with false by lia.
    pose proof (Z.log2_nonneg (Z.abs z)). lia. }
  unfold byte_count.
  set (L := bit_length z) in *. set (k := (L + 8 - 1) / 8).
  assert (Hk : 8 * k <= L + 7 < 8 * k + 8).
  { unfold k. pose proof (Z.div_mod (L + 8 - 1) 8 ltac:(lia)).
    pose proof (Z.mod_pos_bound (L + 8 - 1) 8 ltac:(lia)). lia. }
  assert (0 < k) by lia.
  split; [done|].
  change 256 with (2 ^ 8). rewrite <- !Z.pow_mul_r by lia.
  split.
  - eapply Z.le_trans; [|exact Hlo]. apply Z.pow_le_mono_r; lia.
  - eapply Z.lt_le_trans; [exact Hhi|]. apply Z.pow_le_mono_r; lia.
Qed.

Lemma to_bytearray_pos z :
  0 < z -> to_bytearray z 8 = Ok (le_digits (Z.to_nat (byte_count z)) z).
Proof.
  intros Hz. destruct (byte_count_bounds z Hz) as (Hk & Hlo & Hhi).
  unfold to_bytearray, int_to_bytes. fold (byte_count z).
  change (8 =? 0) with false. cbv iota.
  replace (byte_count z <? 0) with false by lia.
  replace (z <? 0) with false by lia.
  replace (256 ^ byte_count z <=? z) with false by lia. done.
Qed.

Lemma to_bytearray_neg z : z < 0 -> to_bytearray z 8 = Raise OverflowError.
Proof.
  intros Hz. unfold to_bytearray, int_to_bytes.
  change (8 =? 0) with false. cbv iota.
  assert (0 <= (bit_length z + 8 - 1) / 8).
  { apply Z.div_pos; [|lia]. unfold bit_length.
    replace (z =? 0) with false by lia. pose proof (Z.log2_nonneg (Z.abs z)). lia. }
  replace ((bit_length z + 8 - 1) / 8 <? 0) with false by lia.
  by replace (z <? 0) with true by lia.
Qed.

(** [Parameter(name, z, length)] for an int [z]: the value is stored in
    [length] little-endian bytes, or the constructor raises. *)
Lemma Parameter_init_int name z length :
  0 <= length ->
  Parameter_init name (VInt z) length false =
    data ← encode length z; Ok {| name := name; data := data |}.
Proof.
  intros Hlen. unfold Parameter_init, encode.
  replace (length <? 0) with false by lia.
  destruct (Z.lt_trichotomy z 0) as [Hz|[->|Hz]].
  - cbn [truthy]. replace (z =? 0) with false by lia. cbn [negb].
    rewrite to_bytearray_neg by done.
    by replace (z <? 0) with true by lia.
  - cbn [truthy Z.eqb negb]. change (0 <? 0) with false. cbv iota.
    replace (256 ^ length <=? 0) with false
      by (pose proof (Z.pow_pos_nonneg 256 length); lia).
    cbn. do 2 f_equal. unfold le_bytes. rewrite le_digits_zero.
    rewrite map_replicate. done.
  - cbn [truthy]. replace (z =? 0) with false by lia. cbn [negb].
    replace (z <? 0) with false by lia.
    rewrite to_bytearray_pos by done.
    destruct (byte_count_bounds z Hz) as (Hk & Hlo & Hhi).
    cbn [mbind result_bind]. rewrite le_digits_length.
    destruct (256 ^ length <=? z) eqn:E.
    + apply Z.leb_le in E.
      assert (length < byte_count z).
      { apply Z.nle_gt. intros Hc.
        assert (256 ^ byte_count z <= 256 ^ length) by (apply Z.pow_le_mono_r; lia). lia. }
      replace (Z.to_nat (length - Z.of_nat (Z.to_nat (byte_count z)))) with 0%nat by lia.
      cbn [replicate]. rewrite app_nil_r.
      rewrite setitems_IndexError; [done|apply le_digits_range|].
      rewrite length_replicate, le_digits_length. lia.
    + apply Z.leb_gt in E.
      assert (byte_count z <= length).
      { apply Z.nlt_ge. intros Hc.
        assert (256 ^ length <= 256 ^ (byte_count z - 1)) by (apply Z.pow_le_mono_r; lia). lia. }
      rewrite <- le_digits_small by (rewrite Z2Nat.id by lia; lia).
      replace (Z.to_nat (byte_count z) + Z.to_nat (length - Z.of_nat (Z.to_nat (byte_count z))))%nat
        with (Z.to_nat length) by lia.
      rewrite setitems_ok; [|apply le_digits_range|].
      2:{ rewrite length_replicate, le_digits_length. lia. }
      cbn [take app]. rewrite drop_ge.
      2:{ rewrite length_replicate, le_digits_length. lia. }
      rewrite app_nil_r. done.
Qed.

Lemma encode_Ok length z d :
  encode length z = Ok d ->
  0 <= z < 256 ^ length /\ d = le_bytes (Z.to_nat length) z.
Proof.
  unfold encode. destruct (z <? 0) eqn:E1; [discriminate|].
  destruct (256 ^ length <=? z) eqn:E2; [discriminate|].
  intros [= <-]. split; [lia|done].
Qed.

Lemma encode_fits length z :
  0 <= z < 256 ^ length -> encode length z = Ok (le_bytes (Z.to_nat length) z).
Proof.
  intros Hz. unfold encode.
  replace (z <? 0) with false by lia.
  by replace (256 ^ length <=? z) with false by lia.
Qed.

Lemma encode_Raise length z e :
  encode length z = Raise e ->
  (z < 0 /\ e = OverflowError) \/ (256 ^ length <= z /\ e = IndexError).
Proof.
  unfold encode. destruct (z <? 0) eqn:E1.
  - intros [= <-]. left. split; [lia|done].
  - destruct (256 ^ length <=? z) eqn:E2; [|discriminate].
    intros [= <-]. right. split; [lia|done].
Qed.

Lemma bind_Ok {A B} (m : result A) (f : A -> result B) b :
  m ≫= f = Ok b -> exists a, m = Ok a /\ f a = Ok b.
Proof. destruct m as [a|e]; cbn; [eauto|discriminate]. Qed.

Lemma Part_len_bytes part :
  Part_len part = Z.of_nat (length (concat (map data (parameters part)))).
Proof.
  unfold Part_len. induction (parameters part) as [|p ps IH]; cbn; [done|].
  rewrite IH, length_app. lia.
Qed.

Lemma Packet_len_bytes self : Packet_len self = Z.of_nat (length (bytearray self)).
Proof.
  unfold Packet_len, bytearray, get_parts. cbn [fold_right map concat].
  rewrite !length_app, !Part_len_bytes. cbn [length]. lia.
Qed.

Lemma get_bytes_bytearray self : get_bytes self = map Z_of_byte (bytearray self).
Proof.
  unfold get_bytes, bytearray.
  induction (get_parts self) as [|part parts IH]; cbn [map concat]; [done|].
  rewrite map_app, IH. f_equal.
  induction (parameters part) as [|p ps IHp]; cbn [map concat]; [done|].
  by rewrite map_app, IHp.
Qed.

(** [set_size] writes the length counted after the size field itself has
    been put in front. *)
Lemma set_size_spec self length :
  0 <= length ->
  set_size self length =
    data ← encode 2 (Packet_len self + length);
    Ok (with_frame self
          {| parameters := {| name := "size"; data := data |}
                             :: parameters (frame self) |}).
Proof.
  intros Hlen. unfold set_size, prepend_param.
  rewrite Parameter_init_int by lia.
  rewrite (encode_fits length 0)
    by (pose proof (Z.pow_pos_nonneg 256 length); lia).
  cbn [mbind result_bind].
  rewrite Parameter_init_int by lia.
  replace (Packet_len (with_frame self _)) with (Packet_len self + length).
  2:{ rewrite !Packet_len_bytes. unfold bytearray, get_parts, with_frame.
      cbn [map concat frame frame_address protocol_header payload parameters data].
      rewrite !length_app, le_bytes_length. lia. }
  destruct (encode 2 (Packet_len self + length)) as [d|e]; reflexivity.
Qed.

Lemma set_size_size_field self p :
  set_size self 2 = Ok p ->
  size_field (bytearray p) = Z.of_nat (length (bytearray p))
  /\ Z.of_nat (length (bytearray p)) = Packet_len self + 2.
Proof.
  rewrite set_size_spec by lia. intros H.
  apply bind_Ok in H as (d & Hd & [= <-]).
  apply encode_Ok in Hd as [Hr ->].
  rewrite <- Packet_len_bytes.
  assert (Hb : bytearray (with_frame self
            {| parameters := {| name := "size"; data := le_bytes (Z.to_nat 2) (Packet_len self + 2) |}
                             :: parameters (frame self) |})
          = le_bytes 2 (Packet_len self + 2) ++ bytearray self).
  { unfold bytearray, get_parts, with_frame. cbn [map concat frame frame_address protocol_header payload parameters data].
    by rewrite <- !app_assoc. }
  assert (Hl : Packet_len (with_frame self
            {| parameters := {| name := "size"; data := le_bytes (Z.to_nat 2) (Packet_len self + 2) |}
                             :: parameters (frame self) |}) = Packet_len self + 2).
  { rewrite (Packet_len_bytes (with_frame _ _)), Hb, length_app, le_bytes_length.
    rewrite (Packet_len_bytes self). lia. }
  split; [|done].
  unfold size_field. rewrite Hb, Hl.
  rewrite take_app_length' by (by rewrite le_bytes_length).
  rewrite from_bytes_le_bytes. apply Z.mod_small. exact Hr.
Qed.

Lemma headers_102 : set_headers_default Packet_init 102 = Ok (headers 102).
Proof. vm_compute. reflexivity. Qed.

Lemma tobytes_16 : tobytes 16 = Ok 2.
Proof. vm_compute. reflexivity. Qed.

Lemma tobytes_32 : tobytes 32 = Ok 4.
Proof. vm_compute. reflexivity. Qed.

Ltac step_bind := cbn [mbind result_bind].
Ltac step_bind_in H := cbn [mbind result_bind] in H.

Ltac step_param :=
  unfold append_param;
  lazymatch goal with
  | |- context [Parameter_init ?n (VInt ?z) ?l false] =>
      rewrite (Parameter_init_int n z l) by lia
  end;
  lazymatch goal with
  | |- context [encode ?n ?z] =>
      let E := fresh "E" in
      destruct (encode n z) as [?|?] eqn:E; step_bind;
      [apply encode_Ok in E as [_ ->] | reflexivity]
  end.

(** [Packet.state] checks its five values in order and then assembles a
    49-byte packet. *)
Lemma state_spec hue saturation brightness kelvin duration :
  state hue saturation brightness kelvin duration =
    h ← py_int hue; encode 2 h;;
    s ← py_int saturation; encode 2 s;;
    b ← py_int brightness; encode 2 b;;
    k ← py_int kelvin; encode 2 k;;
    x ← py_mul duration (PyInt 1000); ms ← py_int x; encode 4 ms;;
    Ok (state_packet h s b k ms).
Proof.
  unfold state. rewrite headers_102, tobytes_16, tobytes_32. step_bind.
  unfold append_param. rewrite (Parameter_init_int "reserved" 0 1) by lia.
  rewrite (encode_fits 1 0) by lia. step_bind.
  destruct (py_int hue) as [h|?]; step_bind; [|reflexivity].
  step_param.
  destruct (py_int saturation) as [s|?]; step_bind; [|reflexivity].
  step_param.
  destruct (py_int brightness) as [b|?]; step_bind; [|reflexivity].
  step_param.
  destruct (py_int kelvin) as [k|?]; step_bind; [|reflexivity].
  step_param.
  destruct (py_mul duration (PyInt 1000)) as [x|?]; step_bind; [|reflexivity].
  destruct (py_int x) as [ms|?]; step_bind; [|reflexivity].
  step_param.
  rewrite set_size_spec by lia.
  match goal with |- context [Packet_len ?p] =>
    replace (Packet_len p) with 47 by (vm_compute; reflexivity) end.
  rewrite (encode_fits 2 (47 + 2)) by lia. reflexivity.
Qed.

Ltac inv_binds H :=
  repeat match type of H with
         | mbind _ ?m = Ok _ =>
             destruct m; [cbn [mbind result_bind] in H | discriminate H]
         end.

Lemma built_set_size p : built p -> exists q, set_size q 2 = Ok p.
Proof.
  intros [p' H|? ? ? ? ? p' H|? ? p' H|? p' H].
  - unfold PacketBuilder.get_state in H. inv_binds H. eauto.
  - unfold state in H. inv_binds H. eauto.
  - unfold power in H. inv_binds H. eauto.
  - unfold fastpwr in H. inv_binds H. eauto.
Qed.

(** C2.  In every packet one of the builders ([get_state], [state],
    [power], [fastpwr]) returns, the first two bytes of the serialized
    packet, read as a little-endian integer, are the number of bytes of the
    whole serialized packet, the size field included. *)
Theorem size_field_is_packet_length p :
  built p ->
  size_field (bytearray p) = Z.of_nat (length (bytearray p))
  /\ length (get_bytes p) = length (bytearray p).
Proof.
  intros Hb. destruct (built_set_size p Hb) as [q Hq].
  split.
  - apply (set_size_size_field q p Hq).
  - by rewrite get_bytes_bytearray, length_map.
Qed.

Lemma size_field_is_packet_length_witness :
  built (state_packet 120 0 40000 3500 100)
  /\ size_field (bytearray (state_packet 120 0 40000 3500 100)) = 49.
Proof.
  assert (H : built (state_packet 120 0 40000 3500 100)).
  { apply (built_state (PyInt 120) (PyInt 0) (PyInt 40000) (PyInt 3500)
             (PyFloat (S754_finite false 0x1999999999999a (-56)))).
    vm_compute. reflexivity. }
  split; [exact H|].
  rewrite (proj1 (size_field_is_packet_length _ H)). vm_compute. reflexivity.
Defined.

(** C3, as stated, fails: before [set_size] the query packet is 34 bytes
    long, and the size field written is 36. *)
Lemma set_size_counts_the_size_field :
  Packet_len (headers 101) = 34
  /\ (p ← set_size (headers 101) 2; Ok (size_field (bytearray p))) = Ok 36.
Proof. split; vm_compute; reflexivity. Qed.

(** C3, amended.  [set_size] puts a 2-byte parameter named size in front of
    the frame and stores in it the packet's length counted with these two
    bytes: a packet of [N] bytes gets the size field [N + 2], its own final
    length. *)
Theorem set_size_stores_final_length self :
  Packet_len self + 2 < 65536 ->
  exists p,
    set_size self 2 = Ok p
    /\ parameters (frame p) =
         {| name := "size"; data := le_bytes 2 (Packet_len self + 2) |}
           :: parameters (frame self)
    /\ size_field (bytearray p) = Packet_len self + 2
    /\ Packet_len p = Packet_len self + 2.
Proof.
  intros Hlt.
  assert (0 <= Packet_len self) by (rewrite Packet_len_bytes; lia).
  pose proof (set_size_spec self 2 ltac:(lia)) as Hs.
  rewrite (encode_fits 2 (Packet_len self + 2)) in Hs by lia.
  cbn [mbind result_bind] in Hs.
  eexists. split; [exact Hs|]. split; [reflexivity|].
  destruct (set_size_size_field _ _ Hs) as [H1 H2].
  split; [by rewrite H1|]. rewrite Packet_len_bytes. exact H2.
Qed.

Lemma set_size_stores_final_length_witness :
  exists p,
    set_size (headers 101) 2 = Ok p
    /\ parameters (frame p) =
         {| name := "size"; data := le_bytes 2 (Packet_len (headers 101) + 2) |}
           :: parameters (frame (headers 101))
    /\ size_field (bytearray p) = Packet_len (headers 101) + 2
    /\ Packet_len p = Packet_len (headers 101) + 2.
Proof.
  apply (set_size_stores_final_length (headers 101)). vm_compute. reflexivity.
Defined.

(** C10.  [msgtype] raises [StopIteration] on a packet whose protocol
    header has no parameter named "message type", as on a fresh [Packet()];
    it returns an integer exactly when there is such a parameter. *)
Theorem msgtype_needs_message_type :
  msgtype Packet_init = Raise StopIteration
  /\ (forall p,
        (forall par, In par (parameters (protocol_header p)) ->
                     name par <> "message type") ->
        msgtype p = Raise StopIteration)
  /\ (forall p,
        (exists z, msgtype p = Ok z) <->
        (exists par, In par (parameters (protocol_header p))
                     /\ name par = "message type")).
Proof.
  split; [reflexivity|]. split.
  - intros p Hno. unfold msgtype.
    destruct (find _ _) as [par|] eqn:E; [|done].
    apply find_some in E as [Hin Heq].
    apply String.eqb_eq in Heq. by destruct (Hno par Hin).
  - intros p. unfold msgtype. split.
    + intros [z Hz]. destruct (find _ _) as [par|] eqn:E; [|discriminate].
      apply find_some in E as [Hin Heq]. apply String.eqb_eq in Heq. eauto.
    + intros (par & Hin & Hname).
      destruct (find _ _) as [par'|] eqn:E; [eauto|].
      eapply find_none in E; [|exact Hin]. cbn in E.
      rewrite Hname in E. discriminate.
Qed.

Lemma state_packet_fields h s b k ms :
  fits 2 h -> fits 2 s -> fits 2 b -> fits 2 k -> fits 4 ms ->
  let p := state_packet h s b k ms in
  msgtype p = Ok 102
  /\ field (payload p) "hue" = Some h
  /\ field (payload p) "saturation" = Some s
  /\ field (payload p) "brightness" = Some b
  /\ field (payload p) "kelvin" = Some k
  /\ field (payload p) "duration" = Some ms
  /\ length (bytearray p) = 49%nat.
Proof.
  unfold fits. intros Hh Hs Hb Hk Hms. cbv zeta.
  split; [reflexivity|].
  unfold state_packet, field. cbn [payload with_frame with_payload state_payload parameters find name String.eqb Ascii.eqb Bool.eqb data].
  rewrite !from_bytes_le_bytes.
  change (256 ^ Z.of_nat 2) with (256 ^ 2). change (256 ^ Z.of_nat 4) with (256 ^ 4).
  rewrite !Z.mod_small by assumption.
  repeat split; reflexivity.
Qed.

Lemma state_Ok hue saturation brightness kelvin duration p :
  state hue saturation brightness kelvin duration = Ok p ->
  exists h s b k ms,
    py_int hue = Ok h /\ py_int saturation = Ok s
    /\ py_int brightness = Ok b /\ py_int kelvin = Ok k
    /\ (x ← py_mul duration (PyInt 1000); py_int x) = Ok ms
    /\ fits 2 h /\ fits 2 s /\ fits 2 b /\ fits 2 k /\ fits 4 ms
    /\ p = state_packet h s b k ms.
Proof.
  rewrite state_spec. intros H.
  destruct (py_int hue) as [h|]; [step_bind_in H|discriminate].
  destruct (encode 2 h) eqn:Eh; [step_bind_in H|discriminate].
  destruct (py_int saturation) as [s|]; [step_bind_in H|discriminate].
  destruct (encode 2 s) eqn:Es; [step_bind_in H|discriminate].
  destruct (py_int brightness) as [b|]; [step_bind_in H|discriminate].
  destruct (encode 2 b) eqn:Eb; [step_bind_in H|discriminate].
  destruct (py_int kelvin) as [k|]; [step_bind_in H|discriminate].
  destruct (encode 2 k) eqn:Ek; [step_bind_in H|discriminate].
  destruct (py_mul duration (PyInt 1000)) as [x|]; [step_bind_in H|discriminate].
  destruct (py_int x) as [ms|] eqn:Ex; [step_bind_in H|discriminate].
  destruct (encode 4 ms) eqn:Ems; [step_bind_in H|discriminate].
  injection H as <-.
  apply encode_Ok in Eh as [? _], Es as [? _], Eb as [? _], Ek as [? _], Ems as [? _].
  exists h, s, b, k, ms. step_bind. rewrite Ex. done.
Qed.

Lemma state_fits hue saturation brightness kelvin duration h s b k ms :
  py_int hue = Ok h -> py_int saturation = Ok s ->
  py_int brightness = Ok b -> py_int kelvin = Ok k ->
  (x ← py_mul duration (PyInt 1000); py_int x) = Ok ms ->
  fits 2 h -> fits 2 s -> fits 2 b -> fits 2 k -> fits 4 ms ->
  state hue saturation brightness kelvin duration = Ok (state_packet h s b k ms).
Proof.
  intros Hh Hs Hb Hk Hms Fh Fs Fb Fk Fms. rewrite state_spec.
  rewrite Hh, Hs, Hb, Hk. step_bind.
  rewrite !encode_fits by assumption. step_bind.
  destruct (py_mul duration (PyInt 1000)) as [x|]; [|discriminate].
  step_bind. step_bind_in Hms. rewrite Hms. step_bind.
  rewrite encode_fits by assumption. reflexivity.
Qed.

Lemma encode_unfit length z :
  ~ fits length z ->
  exists e, encode length z = Raise e /\ (e = IndexError \/ e = OverflowError).
Proof.
  unfold fits, encode. intros Hn.
  destruct (z <? 0) eqn:E1; [eauto|].
  destruct (256 ^ length <=? z) eqn:E2; [eauto|]. lia.
Qed.

Lemma from_bytes_le_bytes_fits n z :
  fits (Z.of_nat n) z -> from_bytes (le_bytes n z) = z.
Proof. intros H. rewrite from_bytes_le_bytes. by apply Z.mod_small. Qed.

(** The bytes of the query [Packet.get_state()] builds. *)
Lemma bytearray_query : bytearray query_packet = header_bytes 36 101.
Proof. vm_compute. reflexivity. Qed.

(** The bytes of the packet [Packet.state] builds from values that fit. *)
Lemma bytearray_state_packet h s b k ms :
  bytearray (state_packet h s b k ms) = set_color_datagram h s b k ms.
Proof. reflexivity. Qed.

(** The fields of a set-color datagram, read at their offsets. *)
Lemma set_color_datagram_fields h s b k ms :
  fits 2 h -> fits 2 s -> fits 2 b -> fits 2 k -> fits 4 ms ->
  let datagram := set_color_datagram h s b k ms in
  length datagram = 49%nat
  /\ size_field datagram = 49
  /\ from_bytes (py_slice datagram 32 34) = 102
  /\ from_bytes (py_slice datagram 37 39) = h
  /\ from_bytes (py_slice datagram 39 41) = s
  /\ from_bytes (py_slice datagram 41 43) = b
  /\ from_bytes (py_slice datagram 43 45) = k
  /\ from_bytes (py_slice datagram 45 49) = ms.
Proof.
  intros Fh Fs Fb Fk Fms. cbv zeta.
  split; [reflexivity|]. split; [reflexivity|]. split; [reflexivity|].
  assert (S1 : py_slice (set_color_datagram h s b k ms) 37 39 = le_bytes 2 h) by reflexivity.
  assert (S2 : py_slice (set_color_datagram h s b k ms) 39 41 = le_bytes 2 s) by reflexivity.
  assert (S3 : py_slice (set_color_datagram h s b k ms) 41 43 = le_bytes 2 b) by reflexivity.
  assert (S4 : py_slice (set_color_datagram h s b k ms) 43 45 = le_bytes 2 k) by reflexivity.
  assert (S5 : py_slice (set_color_datagram h s b k ms) 45 49 = le_bytes 4 ms) by reflexivity.
  rewrite S1, S2, S3, S4, S5.
  rewrite !from_bytes_le_bytes_fits by assumption. done.
Qed.

(** [int] of a float is the float truncated toward zero. *)
Lemma float_trunc_toward_zero f q z :
  num_value (PyFloat f) = Some q -> float_trunc f = Ok z ->
  ((0 <= z /\ (inject_Z z <= q)%Q /\ (q < inject_Z (z + 1))%Q)
   \/ (z <= 0 /\ (inject_Z (z - 1) < q)%Q /\ (q <= inject_Z z)%Q)).
Proof.
  destruct f as [s|s| |s m e]; cbn [num_value float_trunc]; try done.
  - intros [= <-] [= <-]. left. split; [lia|]. split; done.
  - intros [= <-] [= <-]. unfold float_to_Q.
    destruct (0 <=? e) eqn:E.
    + apply Z.leb_le in E.
      assert (Hp : 0 < 2 ^ e) by (apply Z.pow_pos_nonneg; lia).
      destruct s; [right|left]; unfold Qle, Qlt; cbn [Qnum Qden inject_Z]; nia.
    + apply Z.leb_gt in E.
      assert (Hp : 0 < 2 ^ (- e)) by (apply Z.pow_pos_nonneg; lia).
      pose proof (Z.div_mod (Z.pos m) (2 ^ (- e)) ltac:(lia)) as Hdm.
      pose proof (Z.mod_pos_bound (Z.pos m) (2 ^ (- e)) Hp) as Hr.
      assert (Hq : 0 <= Z.pos m / 2 ^ (- e)) by (apply Z.div_pos; lia).
      destruct s; [right|left]; unfold Qle, Qlt; cbn [Qnum Qden inject_Z];
        rewrite Z2Pos.id by lia; change (Z.neg m) with (- Z.pos m); nia.
Qed.

(** [int] of a float fits a field of two bytes exactly when the float
    lies strictly between -1 and 65536. *)
Lemma float_trunc_fits f q z :
  num_value (PyFloat f) = Some q -> float_trunc f = Ok z ->
  (fits 2 z <-> (inject_Z (-1) < q)%Q /\ (q < inject_Z 65536)%Q).
Proof.
  intros Hq Hz.
  destruct q as [N D].
  destruct (float_trunc_toward_zero f _ z Hq Hz) as [(H0 & H1 & H2)|(H0 & H1 & H2)];
    unfold fits; change (256 ^ 2) with 65536;
    unfold Qle, Qlt in *; cbn [Qnum Qden inject_Z] in *;
    pose proof (Pos2Z.is_pos D); nia.
Qed.

(** C4, as stated, fails: [Packet.state] accepts the hue 65535.5 and the
    brightness -0.5, neither of which a 16-bit field can hold, and sends
    them truncated, as 65535 and 0 (bytes 37-38 and 41-42 of the
    datagram).  The two failures the claim names are Python's
    [IndexError] and [OverflowError]. *)
Lemma state_truncates_float_arguments :
  (float_to_Q (S754_finite false 9007130535264256 (-37)) == 131071 # 2)%Q
  /\ (float_to_Q (S754_finite true 4503599627370496 (-53)) == - (1 # 2))%Q
  /\ (p ← state above_16_bits (PyInt 0) minus_half (PyInt 3500) (PyInt 0);
      Ok (bytearray p)) = Ok (set_color_datagram 65535 0 0 3500 0)
  /\ from_bytes (py_slice (set_color_datagram 65535 0 0 3500 0) 37 39) = 65535
  /\ from_bytes (py_slice (set_color_datagram 65535 0 0 3500 0) 41 43) = 0
  /\ state (PyInt 65536) (PyInt 0) (PyInt 0) (PyInt 3500) (PyInt 0) = Raise IndexError
  /\ state (PyInt 0) (PyInt 0) (PyInt (-1)) (PyInt 3500) (PyInt 0) = Raise OverflowError.
Proof. repeat split; vm_compute; reflexivity. Qed.

(** C4, amended.  [Packet.state] converts every argument with [int]
    (the duration as [int(duration * 1000)]) and then raises whenever a
    converted value does not fit its field: [IndexError] when it needs
    more bytes than the field has ([hue=65536]), [OverflowError] when it
    is negative ([brightness=-1]).  A packet that is returned holds
    exactly the converted values, at their offsets in the datagram.
    [int] leaves an int as it is, so an int argument is never truncated;
    it truncates a float toward zero, so a float is accepted for a field
    of two bytes exactly when it lies strictly between -1 and 65536. *)
Theorem state_checks_the_converted_int :
  (forall saturation brightness kelvin duration,
      state (PyInt 65536) saturation brightness kelvin duration = Raise IndexError)
  /\ (forall h s kelvin duration,
        fits 2 h -> fits 2 s ->
        state (PyInt h) (PyInt s) (PyInt (-1)) kelvin duration = Raise OverflowError)
  /\ (forall hue saturation brightness kelvin duration h s b k ms,
        py_int hue = Ok h -> py_int saturation = Ok s ->
        py_int brightness = Ok b -> py_int kelvin = Ok k ->
        (x ← py_mul duration (PyInt 1000); py_int x) = Ok ms ->
        ~ (fits 2 h /\ fits 2 s /\ fits 2 b /\ fits 2 k /\ fits 4 ms) ->
        exists e,
          state hue saturation brightness kelvin duration = Raise e
          /\ (e = IndexError \/ e = OverflowError))
  /\ (forall hue saturation brightness kelvin duration p,
        state hue saturation brightness kelvin duration = Ok p ->
        exists h s b k ms,
          py_int hue = Ok h /\ py_int saturation = Ok s
          /\ py_int brightness = Ok b /\ py_int kelvin = Ok k
          /\ (x ← py_mul duration (PyInt 1000); py_int x) = Ok ms
          /\ fits 2 h /\ fits 2 s /\ fits 2 b /\ fits 2 k /\ fits 4 ms
          /\ bytearray p = set_color_datagram h s b k ms)
  /\ (forall z, py_int (PyInt z) = Ok z)
  /\ (forall f q z,
        num_value (PyFloat f) = Some q -> py_int (PyFloat f) = Ok z ->
        ((0 <= z /\ (inject_Z z <= q)%Q /\ (q < inject_Z (z + 1))%Q)
         \/ (z <= 0 /\ (inject_Z (z - 1) < q)%Q /\ (q <= inject_Z z)%Q))
        /\ (fits 2 z <-> (inject_Z (-1) < q)%Q /\ (q < inject_Z 65536)%Q)).
Proof.
  split; [|split; [|split; [|split; [|split]]]].
  - intros. rewrite state_spec. reflexivity.
  - intros h s kelvin duration Fh Fs. rewrite state_spec.
    cbn [py_int]. step_bind.
    rewrite (encode_fits 2 h Fh), (encode_fits 2 s Fs). reflexivity.
  - intros hue saturation brightness kelvin duration h s b k ms
      Hh Hs Hb Hk Hms Hn.
    rewrite state_spec, Hh. step_bind.
    destruct (encode 2 h) eqn:Eh;
      [apply encode_Ok in Eh as [Fh _]; step_bind
      |apply encode_Raise in Eh; step_bind; eexists; split; [reflexivity|tauto]].
    rewrite Hs. step_bind.
    destruct (encode 2 s) eqn:Es;
      [apply encode_Ok in Es as [Fs _]; step_bind
      |apply encode_Raise in Es; step_bind; eexists; split; [reflexivity|tauto]].
    rewrite Hb. step_bind.
    destruct (encode 2 b) eqn:Eb;
      [apply encode_Ok in Eb as [Fb _]; step_bind
      |apply encode_Raise in Eb; step_bind; eexists; split; [reflexivity|tauto]].
    rewrite Hk. step_bind.
    destruct (encode 2 k) eqn:Ek;
      [apply encode_Ok in Ek as [Fk _]; step_bind
      |apply encode_Raise in Ek; step_bind; eexists; split; [reflexivity|tauto]].
    destruct (py_mul duration (PyInt 1000)) as [x|]; [|discriminate].
    step_bind. step_bind_in Hms. rewrite Hms. step_bind.
    destruct (encode 4 ms) eqn:Ems;
      [apply encode_Ok in Ems as [Fms _]; step_bind
      |apply encode_Raise in Ems; step_bind; eexists; split; [reflexivity|tauto]].
    destruct Hn. unfold fits. tauto.
  - intros hue saturation brightness kelvin duration p H.
    apply state_Ok in H
      as (h & s & b & k & ms & Hh & Hs & Hb & Hk & Hms & Fh & Fs & Fb & Fk & Fms & ->).
    exists h, s, b, k, ms. rewrite bytearray_state_packet. tauto.
  - reflexivity.
  - intros f q z Hq Hz. cbn [py_int] in Hz. split.
    + exact (float_trunc_toward_zero f q z Hq Hz).
    + exact (float_trunc_fits f q z Hq Hz).
Qed.

Lemma bits_length n v : length (bits n v) = n.
Proof.
  revert v; induction n as [|n IH]; intros v; cbn [bits]; [done|].
  rewrite length_app, IH. cbn. lia.
Qed.

Lemma replicate_snoc {A} n (x : A) : replicate n x ++ [x] = replicate (S n) x.
Proof. induction n as [|n IH]; cbn; [done|]. by rewrite IH. Qed.

Lemma bits_zero n : bits n 0 = replicate n "0"%char.
Proof.
  induction n as [|n IH]; [done|].
  cbn [bits]. rewrite Zdiv_0_l, IH. apply replicate_snoc.
Qed.

Lemma bits_pad k d v :
  0 <= v < 2 ^ Z.of_nat d ->
  bits (k + d) v = replicate k "0"%char ++ bits d v.
Proof.
  revert v; induction d as [|d IH]; intros v Hv.
  - cbn in Hv. assert (v = 0) by lia. subst.
    rewrite Nat.add_0_r, bits_zero. cbn. by rewrite app_nil_r.
  - rewrite Nat.add_succ_r. cbn [bits]. rewrite IH, app_assoc; [done|].
    rewrite Nat2Z.inj_succ, Z.pow_succ_r in Hv by lia.
    split; [apply Z.div_pos; lia|apply Z.div_lt_upper_bound; lia].
Qed.

Lemma bin_digits_pos_bits p :
  bin_digits_pos p = bits (Pos.to_nat (Pos.size p)) (Z.pos p).
Proof.
  induction p as [p IH|p IH|]; cbn [bin_digits_pos Pos.size].
  - rewrite Pos2Nat.inj_succ. cbn [bits]. rewrite IH.
    replace (Z.pos p~1 / 2) with (Z.pos p); [done|].
    rewrite Pos2Z.inj_xI. apply Z.div_unique with 1; lia.
  - rewrite Pos2Nat.inj_succ. cbn [bits]. rewrite IH.
    replace (Z.pos p~0 / 2) with (Z.pos p); [done|].
    rewrite Pos2Z.inj_xO. apply Z.div_unique with 0; lia.
  - reflexivity.
Qed.

Lemma format_bin_bits piece size :
  0 < size -> 0 <= piece < 2 ^ size ->
  format_bin piece size = Ok (bits (Z.to_nat size) piece).
Proof.
  intros Hs Hp. unfold format_bin.
  replace (size <? 0) with false by lia.
  replace (piece <? 0) with false by lia. cbn [app length].
  f_equal. destruct piece as [|p|p]; [| |lia].
  - cbn [bin_digits]. rewrite bits_zero, replicate_snoc.
    f_equal. cbn [length]. lia.
  - cbn [bin_digits]. rewrite bin_digits_pos_bits, bits_length.
    assert (Hsz : Z.pos (Pos.size p) <= size).
    { apply Z.nlt_ge. intros Hc.
      pose proof (Pos.size_le p) as Hle.
      assert (2 ^ Z.pos (Pos.size p) <= 2 * Z.pos p).
      { change (2 * Z.pos p) with (Z.pos p~0). rewrite <- Pos2Z.inj_pow. lia. }
      assert (2 * 2 ^ size <= 2 ^ Z.pos (Pos.size p)).
      { rewrite <- Z.pow_succ_r by lia. apply Z.pow_le_mono_r; lia. }
      lia. }
    cbn [length].
    replace (Z.to_nat size)
      with (Z.to_nat (size - Z.of_nat 0 - Z.of_nat (Pos.to_nat (Pos.size p)))
            + Pos.to_nat (Pos.size p))%nat by lia.
    symmetry. apply bits_pad. rewrite positive_nat_Z.
    split; [lia|]. pose proof (Pos.size_gt p). rewrite <- Pos2Z.inj_pow. lia.
Qed.

Lemma bits_app a b v : bits (a + b) v = bits a (v / 2 ^ Z.of_nat b) ++ bits b v.
Proof.
  revert v; induction b as [|b IH]; intros v.
  - rewrite Nat.add_0_r. cbn. by rewrite Z.div_1_r, app_nil_r.
  - rewrite Nat.add_succ_r. cbn [bits]. rewrite IH, app_assoc. do 3 f_equal.
    rewrite Nat2Z.inj_succ, Z.pow_succ_r, Z.div_div by lia. done.
Qed.

Lemma bits_slice n i w v :
  (i + w <= n)%nat ->
  take w (drop i (bits n v)) = bits w (v / 2 ^ Z.of_nat (n - i - w)).
Proof.
  intros Hle.
  replace n with (i + (w + (n - i - w)))%nat at 1 by lia.
  rewrite bits_app, drop_app_length' by (by rewrite bits_length).
  rewrite bits_app, take_app_length' by (by rewrite bits_length). done.
Qed.

Lemma bin_value_app l1 l2 acc :
  bin_value acc (l1 ++ l2) = a ← bin_value acc l1; bin_value a l2.
Proof.
  revert acc; induction l1 as [|c l1 IH]; intros acc; cbn [app bin_value]; [done|].
  destruct (Ascii.eqb c "0"); [apply IH|].
  destruct (Ascii.eqb c "1"); [apply IH|done].
Qed.

Lemma bin_value_bits w u acc :
  bin_value acc (bits w u) = Ok (acc * 2 ^ Z.of_nat w + u mod 2 ^ Z.of_nat w).
Proof.
  revert u acc; induction w as [|w IH]; intros u acc.
  - cbn. rewrite Z.mod_1_r. f_equal. lia.
  - cbn [bits]. rewrite bin_value_app, IH. step_bind.
    rewrite Nat2Z.inj_succ, Z.pow_succ_r by lia.
    rewrite (Z.rem_mul_r u 2 (2 ^ Z.of_nat w)) by lia.
    rewrite Zmod_odd.
    destruct (Z.odd u); cbn; f_equal; lia.
Qed.

Lemma bits_chars n v c : In c (bits n v) -> c = "0"%char \/ c = "1"%char.
Proof.
  revert v; induction n as [|n IH]; intros v; cbn [bits]; [done|].
  rewrite in_app_iff. intros [H|H]; [eauto|].
  destruct H as [<-|[]]. destruct (Z.odd v); cbn; tauto.
Qed.

Lemma int_base2_bits w u :
  (0 < w)%nat -> int_base2 (bits w u) = Ok (u mod 2 ^ Z.of_nat w).
Proof.
  intros Hw. unfold int_base2.
  destruct (bits w u) as [|c rest] eqn:E.
  - apply (f_equal length) in E. rewrite bits_length in E. cbn in E. lia.
  - assert (Hc : c = "0"%char \/ c = "1"%char)
      by (apply (bits_chars w u); rewrite E; by left).
    replace (Ascii.eqb c "-") with false by (by destruct Hc as [-> | ->]).
    rewrite <- E, bin_value_bits. f_equal; lia.
Qed.

Lemma py_slice_inner {A} (l : list A) i j :
  0 <= i <= j -> j <= Z.of_nat (length l) ->
  py_slice l i j = take (Z.to_nat (j - i)) (drop (Z.to_nat i) l).
Proof.
  intros Hij Hj. unfold py_slice.
  replace (i <? 0) with false by lia. replace (j <? 0) with false by lia.
  rewrite !Z.min_l by lia. done.
Qed.

Lemma sum_values_acc (d : list (string * Z)) acc :
  fold_left (fun acc kv => acc + kv.2) d acc = acc + sum_values d.
Proof.
  unfold sum_values. revert acc.
  induction d as [|[k w] d IH]; intros acc; cbn [fold_left snd]; [lia|].
  rewrite IH, (IH (0 + w)). lia.
Qed.

Lemma sum_values_cons k w rest : sum_values ((k, w) :: rest) = w + sum_values rest.
Proof. unfold sum_values at 1. cbn [fold_left snd]. by rewrite sum_values_acc. Qed.

(** The inner loop of [deconstruct] on a piece that fits its width: every
    sub-field is the slice of bits at its place. *)
Lemma deconstruct_sub_spec piece size subsizes : forall subindex,
  0 < size -> 0 <= piece < 2 ^ size ->
  0 <= subindex ->
  Forall (fun kw => 0 < kw.2) subsizes ->
  subindex + sum_values subsizes <= size ->
  deconstruct_sub piece size subindex subsizes =
    Ok (sub_values piece size subindex subsizes).
Proof.
  induction subsizes as [|[k w] rest IH]; intros subindex Hs Hp Hi Hw Hsum;
    cbn [deconstruct_sub sub_values]; [done|].
  inversion Hw as [|? ? Hw1 Hw2]; subst. cbn [snd] in Hw1.
  rewrite sum_values_cons in Hsum.
  assert (0 <= sum_values rest).
  { clear -Hw2. induction Hw2 as [|[k' w'] l H _ IH]; [done|].
    rewrite sum_values_cons. cbn in H. lia. }
  rewrite format_bin_bits by assumption. step_bind.
  rewrite py_slice_inner by (rewrite ?bits_length; lia).
  replace (Z.to_nat (subindex + w - subindex)) with (Z.to_nat w) by lia.
  rewrite bits_slice by lia.
  rewrite int_base2_bits by lia. step_bind.
  rewrite IH by (assumption || lia). step_bind.
  unfold bitfield.
  replace (Z.of_nat (Z.to_nat size - Z.to_nat subindex - Z.to_nat w))
    with (size - subindex - w) by lia.
  by rewrite Z2Nat.id by lia.
Qed.

Lemma from_bytes_cons x l : from_bytes (x :: l) = Z_of_byte x + 256 * from_bytes l.
Proof. reflexivity. Qed.

Lemma from_bytes_drop n l : from_bytes (drop n l) = from_bytes l / 256 ^ Z.of_nat n.
Proof.
  revert l; induction n as [|n IH]; intros l.
  - cbn. by rewrite Z.div_1_r.
  - destruct l as [|x l]; [by rewrite Zdiv_0_l|].
    cbn [drop]. rewrite IH, from_bytes_cons.
    rewrite Nat2Z.inj_succ, Z.pow_succ_r, <- Z.div_div by lia.
    f_equal. pose proof (Z_of_byte_range x).
    apply Z.div_unique with (Z_of_byte x); lia.
Qed.

Lemma from_bytes_take n l : from_bytes (take n l) = from_bytes l mod 256 ^ Z.of_nat n.
Proof.
  revert l; induction n as [|n IH]; intros l.
  - cbn. by rewrite Z.mod_1_r.
  - destruct l as [|x l]; [by rewrite Zmod_0_l|].
    cbn [take]. rewrite !from_bytes_cons, IH.
    rewrite Nat2Z.inj_succ, Z.pow_succ_r, Z.rem_mul_r by lia.
    pose proof (Z_of_byte_range x).
    replace ((Z_of_byte x + 256 * from_bytes l) mod 256) with (Z_of_byte x)
      by (apply Z.mod_unique with (from_bytes l); lia).
    replace ((Z_of_byte x + 256 * from_bytes l) / 256) with (from_bytes l)
      by (apply Z.div_unique with (Z_of_byte x); lia).
    done.
Qed.

(** A slice of a byte string read little-endian: the digits [i] to [j] of
    the whole string in base 256; bytes past the end count as zero. *)
Lemma from_bytes_slice l i j :
  0 <= i <= j ->
  from_bytes (py_slice l i j) = (from_bytes l / 256 ^ i) mod 256 ^ (j - i).
Proof.
  intros Hij. unfold py_slice.
  replace (i <? 0) with false by lia. replace (j <? 0) with false by lia.
  set (n := Z.of_nat (length l)).
  rewrite from_bytes_take, from_bytes_drop.
  pose proof (from_bytes_bound l) as Hb. fold n in Hb.
  assert (Hn : 0 <= n) by lia.
  destruct (Z.le_gt_cases j n) as [Hj|Hj].
  - rewrite !Z.min_l by lia. by rewrite !Z2Nat.id by lia.
  - rewrite (Z.min_r j n) by lia.
    destruct (Z.le_gt_cases i n) as [Hi|Hi].
    + rewrite Z.min_l by lia. rewrite !Z2Nat.id by lia.
      assert (Hq : 0 <= from_bytes l / 256 ^ i < 256 ^ (n - i)).
      { split; [apply Z.div_pos; lia|].
        apply Z.div_lt_upper_bound; [lia|].
        rewrite <- Z.pow_add_r by lia.
        replace (i + (n - i)) with n by lia. lia. }
      assert (256 ^ (n - i) <= 256 ^ (j - i)) by (apply Z.pow_le_mono_r; lia).
      rewrite !Z.mod_small by lia. done.
    + rewrite Z.min_r by lia. rewrite Z.sub_diag. cbn [Z.to_nat Z.of_nat].
      rewrite Z.mod_1_r.
      assert (256 ^ n <= 256 ^ i) by (apply Z.pow_le_mono_r; lia).
      rewrite (Z.div_small (from_bytes l) (256 ^ i)) by lia.
      by rewrite Zmod_0_l.
Qed.

Lemma from_bytes_slice_bound l i j :
  0 <= i <= j -> 0 <= from_bytes (py_slice l i j) < 256 ^ (j - i).
Proof.
  intros Hij. rewrite from_bytes_slice by done.
  apply Z.mod_pos_bound. apply Z.pow_pos_nonneg; lia.
Qed.


Lemma sum_values_nonneg d : Forall (fun kw : string * Z => 0 < kw.2) d -> 0 <= sum_values d.
Proof.
  induction 1 as [|[k w] l H _ IH]; [done|].
  rewrite sum_values_cons. cbn in H. lia.
Qed.

(** [deconstruct] never raises on such a map, whatever the length of the
    packet. *)
Lemma deconstruct_from_total packet sizes : forall index,
  sizes_ok sizes -> 0 <= index ->
  deconstruct_from packet index sizes = Ok (decoded_from packet index sizes).
Proof.
  induction sizes as [|[key size] rest IH]; intros index Hok Hi; [done|].
  inversion Hok as [|? ? Hsize Hrest]; subst. cbn [snd] in Hsize.
  cbn [deconstruct_from decoded_from].
  destruct size as [n|d].
  - assert (0 <= n / 8) by (apply Z.div_pos; lia).
    step_bind. rewrite IH by (done || lia). done.
  - pose proof (sum_values_nonneg d Hsize) as Hn.
    assert (Hn8 : 0 <= sum_values d / 8) by (apply Z.div_pos; lia).
    destruct d as [|kw d'] eqn:Ed.
    + step_bind. rewrite IH by (done || lia). done.
    + rewrite <- Ed in *.
      rewrite deconstruct_sub_spec; [| | |lia|exact Hsize|lia].
      * step_bind. rewrite IH by (done || lia). step_bind.
        rewrite Ed. reflexivity.
      * rewrite Ed in *. destruct kw as [k w].
        rewrite sum_values_cons in *.
        inversion Hsize as [|? ? Hw Hd']; subst. cbn in Hw.
        pose proof (sum_values_nonneg d' Hd'). lia.
      * pose proof (from_bytes_slice_bound packet index (index + sum_values d / 8)
                      ltac:(lia)) as Hb.
        replace (index + sum_values d / 8 - index) with (sum_values d / 8) in Hb by lia.
        change 256 with (2 ^ 8) in Hb. rewrite <- Z.pow_mul_r in Hb by lia.
        assert (2 ^ (8 * (sum_values d / 8)) <= 2 ^ sum_values d).
        { apply Z.pow_le_mono_r; [lia|].
          pose proof (Z.mul_div_le (sum_values d) 8 ltac:(lia)). lia. }
        lia.
Qed.

Lemma py_dict_lookup items key : py_dict items !! key = lookup_last key items.
Proof.
  unfold py_dict.
  assert (H : forall m : gmap string Z,
             fold_left (fun m kv => <[kv.1 := kv.2]> m) items m !! key =
               match lookup_last key items with
               | Some v => Some v
               | None => m !! key
               end).
  { induction items as [|[k v] items IH]; intros m; cbn [fold_left lookup_last]; [done|].
    rewrite IH. destruct (lookup_last key items); [done|].
    cbn [fst snd]. destruct (String.eqb_spec k key) as [->|Hne].
    - by rewrite lookup_insert_eq.
    - by rewrite lookup_insert_ne. }
  rewrite H. by destruct (lookup_last key items).
Qed.

Lemma decodemap_ok : sizes_ok decodemap.
Proof. unfold sizes_ok, decodemap, MSGHEADER. cbn. repeat constructor; cbn; lia. Qed.

Lemma decode_state_total response :
  decode_state response = Ok (py_dict (decoded_from response 0 decodemap)).
Proof.
  unfold decode_state, deconstruct.
  by rewrite deconstruct_from_total by (apply decodemap_ok || lia).
Qed.

Lemma motion_active s :
  is_active (handler s) = true ->
  motion s =
    (Ok tt,
     {| handler :=
          set_is_active true
            (set_timer (cancel_if_alive (timer (handler s)))
               (set_fading_timer (cancel_if_alive (fading_timer (handler s)))
                  (handler s)));
        world := world s |}).
Proof.
  intros Ha. destruct s as [[d f ls act [fi fst] fad [ti tst]] w]. cbn in Ha. subst act.
  unfold motion, cancel_if_alive.
  destruct fst, tst; reflexivity.
Qed.

Lemma Qle_bool_false r dt : (dt < r)%Q -> Qle_bool r dt = false.
Proof.
  intros Hlt. destruct (Qle_bool r dt) eqn:E; [|done].
  apply Qle_bool_iff in E. exfalso. exact (Qlt_not_le _ _ Hlt E).
Qed.

Ltac unfold_M :=
  cbv [mbind M_bind self update lift mret M_ret];
  cbn [handler world].

Lemma no_motion_spec s w :
  total_seconds (delay (handler s)) = Ok w ->
  no_motion s =
    (Ok tt,
     {| handler := set_timer {| interval := w; status := Running (seconds w) |}
                     (handler s);
        world := world s |}).
Proof.
  intros Hw. destruct s as [[d f ls act ft fad [ti tst]] wd].
  cbn [handler delay] in Hw.
  unfold no_motion. unfold_M.
  destruct tst; cbn [is_alive status timer handler world delay set_timer cancel];
    rewrite Hw; reflexivity.
Qed.

Lemma run_thread_Ok m s s' : m s = (Ok tt, s') -> run_thread m s = s'.
Proof. unfold run_thread. by intros ->. Qed.

Lemma due_not_alive dt t : is_alive t = false -> due dt t = None.
Proof. unfold is_alive, due. by destruct (status t). Qed.

Lemma is_alive_cancel_if_alive t : is_alive (cancel_if_alive t) = false.
Proof. destruct t as [i []]; reflexivity. Qed.

Lemma elapse_nothing_due dt s :
  due dt (timer (handler s)) = None ->
  due dt (fading_timer (handler s)) = None ->
  elapse dt s = pass_time dt s.
Proof.
  intros H1 H2. unfold elapse. cbn [elapse_n]. unfold next_due.
  by rewrite H1, H2.
Qed.

(** C7.  From a controller that is Active, motion detected, then cleared,
    then detected again [dt] seconds later with [dt] below the configured
    delay: [no_motion] started the inactivity timer with the whole delay,
    the second [motion] finds it alive and cancels it, so [timeout] never
    runs; the controller is Active, nothing has been sent and nothing else
    of the state has changed. *)
Theorem motion_cleared_then_detected_cancels_timer s w dt :
  is_active (handler s) = true ->
  total_seconds (delay (handler s)) = Ok w ->
  (dt < seconds w)%Q ->
  let s2 := run [MotionDetected; MotionCleared] s in
  let s4 := run [MotionDetected; MotionCleared; Elapse dt; MotionDetected] s in
  status (timer (handler s2)) = Running (seconds w)
  /\ is_active (handler s4) = true
  /\ status (timer (handler s4)) = Cancelled
  /\ is_alive (fading_timer (handler s4)) = false
  /\ is_fading (handler s4) = is_fading (handler s)
  /\ last_state (handler s4) = last_state (handler s)
  /\ world s4 = world s.
Proof.
  intros Ha Hw Hdt. cbv zeta.
  unfold run. cbn [fold_left step].
  rewrite (run_thread_Ok _ _ _ (motion_active s Ha)).
  set (s1 := {| handler := _; world := world s |}).
  assert (Hw1 : total_seconds (delay (handler s1)) = Ok w) by exact Hw.
  rewrite (run_thread_Ok _ _ _ (no_motion_spec s1 w Hw1)).
  set (s2 := {| handler := _; world := world s1 |}).
  split; [reflexivity|].
  rewrite elapse_nothing_due.
  2:{ unfold due. cbn [s2 handler timer set_timer status].
      by rewrite (Qle_bool_false _ _ Hdt). }
  2:{ apply due_not_alive. cbn [s2 s1 handler fading_timer set_timer set_is_active set_fading_timer].
      apply is_alive_cancel_if_alive. }
  assert (Ha3 : is_active (handler (pass_time dt s2)) = true) by reflexivity.
  rewrite (run_thread_Ok _ _ _ (motion_active _ Ha3)).
  cbn [handler world is_active timer fading_timer is_fading last_state
       set_is_active set_timer set_fading_timer pass_time s2 s1].
  split; [reflexivity|]. split; [reflexivity|].
  split.
  { unfold advance. destruct (fading_timer (handler s)) as [i []]; reflexivity. }
  repeat split; reflexivity.
Qed.

Lemma motion_cleared_then_detected_cancels_timer_witness :
  exists h,
    MotionHandler_init 300000000 300000000 = Ok h
    /\ status (timer (handler (run [MotionDetected; MotionCleared; Elapse 299; MotionDetected]
                                 {| handler := h;
                                    world := {| sent := []; replies := []; uncaught := [] |} |})))
       = Cancelled.
Proof.
  eexists. split; [vm_compute; reflexivity|].
  refine (proj1 (proj2 (proj2
    (motion_cleared_then_detected_cancels_timer _
       (PyFloat (S754_finite false 5277655813324800 (-44))) 299 _ _ _)))).
  - reflexivity.
  - vm_compute. reflexivity.
  - vm_compute. reflexivity.
Defined.

Lemma digits2_pos_size p : digits2_pos p = Pos.size p.
Proof. induction p as [p IH|p IH|]; cbn; by rewrite ?IH. Qed.

Lemma digits2_pos_bounds p :
  2 ^ (Z.pos (digits2_pos p) - 1) <= Z.pos p < 2 ^ Z.pos (digits2_pos p).
Proof.
  rewrite digits2_pos_size. split.
  - pose proof (Pos.size_le p) as H.
    assert (H2 : 2 ^ Z.pos (Pos.size p) <= 2 * Z.pos p).
    { change (2 * Z.pos p) with (Z.pos p~0). rewrite <- Pos2Z.inj_pow. lia. }
    replace (Z.pos (Pos.size p)) with (Z.succ (Z.pos (Pos.size p) - 1)) in H2 by lia.
    rewrite Z.pow_succ_r in H2 by lia. lia.
  - pose proof (Pos.size_gt p) as H. rewrite <- Pos2Z.inj_pow. lia.
Qed.

Lemma iter_pos_nat {A} (f : A -> A) p x :
  SpecFloat.iter_pos f p x = Nat.iter (Pos.to_nat p) f x.
Proof.
  revert x. induction p as [p IH|p IH|]; intros x; cbn [SpecFloat.iter_pos].
  - rewrite !IH, Pos2Nat.inj_xI, Nat.iter_succ_r.
    replace (2 * Pos.to_nat p)%nat with (Pos.to_nat p + Pos.to_nat p)%nat by lia.
    by rewrite Nat.iter_add.
  - rewrite !IH, Pos2Nat.inj_xO.
    replace (2 * Pos.to_nat p)%nat with (Pos.to_nat p + Pos.to_nat p)%nat by lia.
    by rewrite Nat.iter_add.
  - reflexivity.
Qed.

Lemma shr_1_nonneg m r s :
  0 <= m ->
  shr_1 {| shr_m := m; shr_r := r; shr_s := s |} =
    {| shr_m := m / 2; shr_r := Z.odd m; shr_s := r || s |}.
Proof.
  intros Hm. destruct m as [|[p|p|]|p]; try lia; cbn [shr_1].
  - reflexivity.
  - f_equal. rewrite Pos2Z.inj_xI.
    apply Z.div_unique with 1; lia.
  - f_equal. rewrite Pos2Z.inj_xO.
    apply Z.div_unique with 0; lia.
  - reflexivity.
Qed.

(** Shifting an exact mantissa right by [k] bits: the quotient, and the
    round and sticky bits are both clear exactly when nothing was cut
    off. *)
Lemma shr_iter m k :
  0 <= m ->
  let rec := Nat.iter k shr_1 {| shr_m := m; shr_r := false; shr_s := false |} in
  shr_m rec = m / 2 ^ Z.of_nat k
  /\ (shr_r rec || shr_s rec = false <-> m mod 2 ^ Z.of_nat k = 0).
Proof.
  intros Hm. induction k as [|k IH]; cbv zeta in *.
  - cbn. rewrite Z.div_1_r, Z.mod_1_r. tauto.
  - rewrite Nat.iter_succ.
    destruct (Nat.iter k shr_1 _) as [mk rk sk]. cbn [shr_m shr_r shr_s] in IH.
    destruct IH as [-> IHrs].
    assert (Hq : 0 <= m / 2 ^ Z.of_nat k) by (apply Z.div_pos; lia).
    rewrite shr_1_nonneg by exact Hq. cbn [shr_m shr_r shr_s].
    rewrite Nat2Z.inj_succ, Z.pow_succ_r by lia.
    assert (Hp : 0 < 2 ^ Z.of_nat k) by lia.
    split.
    + rewrite Z.mul_comm, <- Z.div_div by lia. reflexivity.
    + rewrite (Z.mul_comm 2), Z.rem_mul_r by lia.
      rewrite orb_false_iff, IHrs.
      pose proof (Z.mod_pos_bound m (2 ^ Z.of_nat k) Hp).
      rewrite <- Z.negb_even, negb_false_iff, Z.even_spec.
      rewrite Zmod_even.
      split.
      * intros [He H0]. rewrite H0.
        destruct (Z.even (m / 2 ^ Z.of_nat k)) eqn:E.
        -- lia.
        -- exfalso. destruct He as [c Hc]. rewrite Hc in E.
           rewrite Z.even_mul in E. cbn in E. discriminate.
      * intros H0.
        destruct (Z.even (m / 2 ^ Z.of_nat k)) eqn:E.
        -- split; [apply Z.even_spec; exact E|nia].
        -- nia.
Qed.

Lemma round_nearest_even_bounds m l :
  m <= round_nearest_even m l <= m + 1
  /\ (l = loc_Exact -> round_nearest_even m l = m).
Proof.
  destruct l as [|[| |]]; cbn; try destruct (Z.even m); split; (lia || done).
Qed.

Lemma loc_of_shr_record_Exact rec :
  shr_r rec || shr_s rec = false -> loc_of_shr_record rec = loc_Exact.
Proof. destruct rec as [m [|] [|]]; cbn; done. Qed.

(** One [shr_fexp] on an exact mantissa: the mantissa is divided by a power
    of two, the exponent grows by as much, and the location is exact when
    nothing was cut off. *)
Lemma shr_fexp_Exact m e :
  0 <= m ->
  exists n,
    0 <= n
    /\ n = Z.max 0 (fexp prec emax (Zdigits2 m + e) - e)
    /\ snd (shr_fexp prec emax m e loc_Exact) = e + n
    /\ shr_m (fst (shr_fexp prec emax m e loc_Exact)) = m / 2 ^ n
    /\ (m mod 2 ^ n = 0 ->
        loc_of_shr_record (fst (shr_fexp prec emax m e loc_Exact)) = loc_Exact).
Proof.
  intros Hm. unfold shr_fexp, shr. cbn [shr_record_of_loc].
  destruct (fexp prec emax (Zdigits2 m + e) - e) as [|p|p] eqn:En.
  - exists 0. cbn [fst snd shr_m]. rewrite Z.div_1_r.
    repeat split; (lia || done).
  - exists (Z.pos p). cbn [fst snd]. rewrite iter_pos_nat.
    destruct (shr_iter m (Pos.to_nat p) Hm) as [H1 H2].
    rewrite positive_nat_Z in H1, H2.
    split; [lia|]. split; [lia|]. split; [lia|]. split; [exact H1|].
    intros H0. apply loc_of_shr_record_Exact, H2, H0.
  - exists 0. cbn [fst snd shr_m]. rewrite Z.div_1_r.
    repeat split; (lia || done).
Qed.

Lemma Zdigits2_le m k : 0 <= m < 2 ^ k -> 0 <= k -> Zdigits2 m <= k.
Proof.
  intros [Hm Hlt] Hk. destruct m as [|p|p]; cbn [Zdigits2]; try lia.
  pose proof (digits2_pos_bounds p) as [Hlo _].
  apply Z.nlt_ge. intros Hc.
  assert (2 ^ k <= 2 ^ (Z.pos (digits2_pos p) - 1)) by (apply Z.pow_le_mono_r; lia).
  lia.
Qed.

Lemma Zdigits2_ge p k : 2 ^ k <= Z.pos p -> 0 <= k -> k < Zdigits2 (Z.pos p).
Proof.
  intros Hle Hk. cbn [Zdigits2].
  pose proof (digits2_pos_bounds p) as [_ Hhi].
  apply Z.nle_gt. intros Hc.
  assert (2 ^ Z.pos (digits2_pos p) <= 2 ^ k) by (apply Z.pow_le_mono_r; lia).
  lia.
Qed.

Lemma fexp_53 e : fexp prec emax e = Z.max (e - 53) (-1074).
Proof. reflexivity. Qed.

(** Rounding to nearest never crosses a bound that is itself an integer
    below [2 ^ 32]: when the exact value [M * 2 ^ E] is at most [B], the
    rounded float truncates to at most [B]. *)
Lemma binary_round_aux_le B M E :
  0 <= B < 2 ^ 32 ->
  2 ^ 52 <= Z.pos M ->
  E < 0 ->
  Z.pos M <= B * 2 ^ (- E) ->
  exists ms,
    float_trunc (binary_round_aux prec emax false (Z.pos M) E loc_Exact) = Ok ms
    /\ 0 <= ms <= B.
Proof.
  intros HB HM HE Hle.
  unfold binary_round_aux.
  destruct (shr_fexp_Exact (Z.pos M) E ltac:(lia))
    as (n & Hn0 & Hn & He1 & Hm1 & Hloc1).
  destruct (shr_fexp prec emax (Z.pos M) E loc_Exact) as [mrs' e'].
  cbn [fst snd] in He1, Hm1, Hloc1.
  set (m1 := round_nearest_even (shr_m mrs') (loc_of_shr_record mrs')).
  remember (- E) as t eqn:Ht.
  assert (Hd52 : 52 < Zdigits2 (Z.pos M)) by (apply Zdigits2_ge; lia).
  assert (Hpt : 0 < 2 ^ t) by (apply Z.pow_pos_nonneg; lia).
  assert (HdE : Zdigits2 (Z.pos M) <= 32 + t).
  { apply Zdigits2_le; [|lia]. rewrite Z.pow_add_r by lia. nia. }
  rewrite fexp_53 in Hn.
  (* after the first shift *)
  remember (- e') as t' eqn:Ht'.
  assert (Hn21 : n <= t - 21) by lia.
  assert (Hpn : 0 < 2 ^ n) by (apply Z.pow_pos_nonneg; lia).
  assert (Hpt' : 0 < 2 ^ t') by (apply Z.pow_pos_nonneg; lia).
  assert (Hsplit : 2 ^ t = 2 ^ t' * 2 ^ n).
  { rewrite <- Z.pow_add_r by lia. f_equal. lia. }
  assert (Hm1le : 0 <= m1 <= B * 2 ^ t').
  { destruct (round_nearest_even_bounds (shr_m mrs') (loc_of_shr_record mrs'))
      as [[Hlo Hhi] Hex]. fold m1 in Hlo, Hhi, Hex.
    rewrite Hm1 in Hlo, Hhi.
    assert (0 <= Z.pos M / 2 ^ n) by (apply Z.div_pos; lia).
    split; [lia|].
    pose proof (Z.div_mod (Z.pos M) (2 ^ n) ltac:(lia)) as Hdm.
    pose proof (Z.mod_pos_bound (Z.pos M) (2 ^ n) Hpn) as Hr.
    destruct (Z.eq_dec (Z.pos M mod 2 ^ n) 0) as [H0|H0].
    - rewrite (Hex (Hloc1 H0)), Hm1.
      apply Z.div_le_upper_bound; [lia|]. nia.
    - assert (Z.pos M / 2 ^ n < B * 2 ^ t') by nia. lia. }
  (* the second shift *)
  destruct (shr_fexp_Exact m1 e' ltac:(lia))
    as (n2 & Hn20 & Hn2 & He2 & Hm2 & _).
  destruct (shr_fexp prec emax m1 e' loc_Exact) as [mrs'' e''].
  cbn [fst snd] in He2, Hm2.
  rewrite fexp_53 in Hn2.
  assert (Hdm1 : Zdigits2 m1 <= 32 + t').
  { apply Zdigits2_le; [|lia]. rewrite Z.pow_add_r by lia. nia. }
  remember (- e'') as t'' eqn:Ht''.
  assert (Hn221 : n2 <= t' - 21) by lia.
  assert (Hpn2 : 0 < 2 ^ n2) by (apply Z.pow_pos_nonneg; lia).
  assert (Hpt'' : 0 < 2 ^ t'') by (apply Z.pow_pos_nonneg; lia).
  assert (Hsplit2 : 2 ^ t' = 2 ^ t'' * 2 ^ n2).
  { rewrite <- Z.pow_add_r by lia. f_equal. lia. }
  assert (Hm2le : 0 <= shr_m mrs'' <= B * 2 ^ t'').
  { rewrite Hm2. split; [apply Z.div_pos; lia|].
    apply Z.div_le_upper_bound; [lia|]. nia. }
  destruct (shr_m mrs'') as [|p|p]; [| |lia].
  - exists 0. split; [reflexivity|lia].
  - replace (e'' <=? emax - prec) with true by (unfold emax, prec; lia).
    cbn [float_trunc]. replace (0 <=? e'') with false by lia.
    eexists. split; [reflexivity|]. rewrite <- Ht''.
    split; [apply Z.div_pos; lia|].
    apply Z.div_le_upper_bound; [lia|]. nia.
Qed.

Lemma to_float_1000 :
  to_float (PyInt 1000) = Ok (S754_finite false 8796093022208000 (-43)).
Proof. vm_compute. reflexivity. Qed.

Lemma binary_round_aux_sign m e l :
  match binary_round_aux prec emax false m e l with
  | S754_finite true _ _ | S754_zero true => False
  | _ => True
  end.
Proof.
  unfold binary_round_aux.
  destruct (shr_fexp prec emax m e l) as [mrs' e'].
  destruct (shr_fexp prec emax _ e' loc_Exact) as [mrs'' e''].
  destruct (shr_m mrs''); [done| |done].
  by destruct (e'' <=? emax - prec).
Qed.

(** [int] of a float that is not negative is its floor. *)
Lemma float_trunc_floor f ms :
  float_trunc f = Ok ms ->
  match f with S754_finite true _ _ => False | _ => True end ->
  exists q, num_value (PyFloat f) = Some q
            /\ (inject_Z ms <= q)%Q /\ (q < inject_Z (ms + 1))%Q.
Proof.
  destruct f as [s|s| |[|] m e]; cbn [float_trunc]; try done.
  - intros [= <-] _. exists 0%Q. cbn. split; [done|]. split; done.
  - intros [= <-] _. eexists. split; [reflexivity|].
    unfold float_to_Q. destruct (0 <=? e) eqn:E.
    + unfold Qle, Qlt. cbn. lia.
    + assert (Hp : 0 < 2 ^ (- e)) by (apply Z.pow_pos_nonneg; lia).
      pose proof (Z.div_mod (Z.pos m) (2 ^ (- e)) ltac:(lia)) as Hdm.
      pose proof (Z.mod_pos_bound (Z.pos m) (2 ^ (- e)) Hp) as Hr.
      unfold Qle, Qlt. cbn [Qnum Qden inject_Z].
      rewrite Z2Pos.id by lia. nia.
Qed.

(** The milliseconds [int(duration * 1000)] of a duration in range. *)
Lemma duration_ms_in_range duration :
  duration_in_range duration ->
  exists x ms,
    py_mul duration (PyInt 1000) = Ok x
    /\ py_int x = Ok ms
    /\ 0 <= ms <= 4294967000
    /\ (forall z, duration = PyInt z -> x = PyInt (1000 * z) /\ ms = 1000 * z)
    /\ (exists q, num_value x = Some q
                  /\ (inject_Z ms <= q)%Q /\ (q < inject_Z (ms + 1))%Q).
Proof.
  intros (q & Hq & Hq0 & Hq1).
  destruct duration as [z|[s|s| |s m e]]; cbn [num_value] in Hq; try done;
    injection Hq as <-.
  - exists (PyInt (z * 1000)), (z * 1000). cbn [py_mul py_int].
    unfold Qle in Hq0, Hq1. cbn in Hq0, Hq1.
    split; [done|]. split; [done|]. split; [lia|]. split.
    + intros z' [= <-]. split; [f_equal|]; lia.
    + exists (inject_Z (z * 1000)). split; [done|].
      unfold Qle, Qlt. cbn. lia.
  - exists (PyFloat (S754_zero (xorb s false))), 0.
    unfold py_mul. rewrite to_float_1000. cbn.
    split; [done|]. split; [done|]. split; [lia|]. split; [done|].
    exists 0%Q. split; [done|]. split; done.
  - destruct s.
    { exfalso. unfold float_to_Q, Qle in Hq0. destruct (0 <=? e) eqn:E.
      - cbn in Hq0. assert (0 < 2 ^ e) by (apply Z.pow_pos_nonneg; lia). nia.
      - cbn in Hq0. lia. }
    assert (HE : e + -43 < 0 /\
                 Z.pos (m * 8796093022208000) <= 4294967000 * 2 ^ (- (e + -43))).
    { unfold float_to_Q, Qle in Hq1. destruct (0 <=? e) eqn:E.
      - cbn in Hq1. apply Z.leb_le in E.
        assert (Hpe : 0 < 2 ^ e) by (apply Z.pow_pos_nonneg; lia).
        assert (He : e < 23).
        { apply Z.nle_gt. intros Hc.
          assert (2 ^ 23 <= 2 ^ e) by (apply Z.pow_le_mono_r; lia). lia. }
        split; [lia|].
        replace (- (e + -43)) with (43 - e) by lia.
        assert (Hs : 2 ^ 43 = 2 ^ e * 2 ^ (43 - e)).
        { rewrite <- Z.pow_add_r by lia. f_equal. lia. }
        assert (0 < 2 ^ (43 - e)) by (apply Z.pow_pos_nonneg; lia).
        rewrite Pos2Z.inj_mul.
        change (Z.pos 8796093022208000) with (1000 * 2 ^ 43). rewrite Hs. nia.
      - cbn [Qnum Qden inject_Z] in Hq1. apply Z.leb_gt in E.
        assert (Hpe : 0 < 2 ^ (- e)) by (apply Z.pow_pos_nonneg; lia).
        rewrite Z2Pos.id in Hq1 by lia.
        split; [lia|].
        replace (- (e + -43)) with (43 + - e) by lia.
        rewrite Z.pow_add_r by lia.
        rewrite Pos2Z.inj_mul.
        change (Z.pos 8796093022208000) with (1000 * 2 ^ 43). nia. }
    destruct HE as [HE Hle].
    destruct (binary_round_aux_le 4294967000 (m * 8796093022208000) (e + -43))
      as (ms & Hms & Hr); [lia| |exact HE|exact Hle|].
    { rewrite Pos2Z.inj_mul. lia. }
    exists (PyFloat (binary_round_aux prec emax false
                       (Z.pos (m * 8796093022208000)) (e + -43) loc_Exact)), ms.
    unfold py_mul. rewrite to_float_1000. cbn [to_float mbind result_bind SFmul xorb py_int].
    split; [done|]. split; [exact Hms|]. split; [exact Hr|]. split; [done|].
    apply float_trunc_floor; [exact Hms|].
    pose proof (binary_round_aux_sign (Z.pos (m * 8796093022208000)) (e + -43) loc_Exact) as Hs.
    destruct (binary_round_aux _ _ _ _ _ _) as [[|]|[|]| |[|] ? ?]; done.
Qed.

Lemma get_state_query : PacketBuilder.get_state = Ok query_packet.
Proof. vm_compute. reflexivity. Qed.

Lemma msgtype_query : msgtype query_packet = Ok 101.
Proof. vm_compute. reflexivity. Qed.

Lemma deconstruct_total response :
  deconstruct response decodemap = Ok (decoded_from response 0 decodemap).
Proof. apply deconstruct_from_total; [apply decodemap_ok|lia]. Qed.

(** [get_state]: the query goes out; a reply is decoded, whatever its
    length, and no reply is a [socket.timeout]. *)
Lemma get_state_spec device silent s :
  Lifx.get_state device silent s =
    (match replies (world s) with
     | Some d :: _ => Ok (py_dict (decoded_from (take 255 d) 0 decodemap))
     | _ => Raise SocketTimeout
     end,
     {| handler := handler s;
        world := next_reply (send device (bytearray query_packet) (world s)) |}).
Proof.
  destruct s as [h [snt rep unc]].
  unfold Lifx.get_state. rewrite get_state_query.
  unfold send_recieve_packet, sock_send, sock_recv, send, next_reply.
  unfold_M. cbn [sent replies uncaught].
  destruct silent; unfold_M; rewrite ?msgtype_query; cbv beta iota;
    destruct rep as [|[d|] rest]; cbn [replies sent uncaught tail handler world];
    rewrite ?deconstruct_total; reflexivity.
Qed.

Lemma reading_fields response :
  let r := take 255 response in
  reading response !! "hue" = Some (from_bytes (py_slice r 36 38))
  /\ reading response !! "saturation" = Some (from_bytes (py_slice r 38 40))
  /\ reading response !! "brightness" = Some (from_bytes (py_slice r 40 42))
  /\ reading response !! "kelvin" = Some (from_bytes (py_slice r 42 44))
  /\ reading response !! "power" = Some (from_bytes (py_slice r 46 48)).
Proof.
  cbv zeta. unfold reading. rewrite !py_dict_lookup.
  repeat split; reflexivity.
Qed.

Lemma reading_nonempty response : reading response <> ∅.
Proof.
  intros H. pose proof (reading_fields response) as [Hh _].
  cbv zeta in Hh. rewrite H, lookup_empty in Hh. discriminate.
Qed.

Lemma reading_fits response key :
  key = "hue" \/ key = "saturation" \/ key = "brightness" \/ key = "kelvin"
  \/ key = "power" ->
  exists v, reading response !! key = Some v /\ fits 2 v.
Proof.
  pose proof (reading_fields response) as (Hh & Hs & Hb & Hk & Hp). cbv zeta in *.
  intros [->|[->|[->|[->| ->]]]]; eexists; (split; [eassumption|]);
    unfold fits;
    match goal with |- context [py_slice ?r ?i ?j] =>
      pose proof (from_bytes_slice_bound r i j ltac:(lia)) as Hb'
    end; cbn in Hb'; lia.
Qed.

Lemma msgtype_state_packet h s b k ms : msgtype (state_packet h s b k ms) = Ok 102.
Proof. reflexivity. Qed.

(** [brightness] with a cached state: one set-color packet goes out, with
    the cached hue, saturation and kelvin. *)
Lemma brightness_cached s level duration bz ms :
  last_state (handler s) <> ∅ ->
  (b ← py_mul level (PyInt 65535); py_int b) = Ok bz ->
  (x ← py_mul duration (PyInt 1000); py_int x) = Ok ms ->
  fits 2 (dict_get (last_state (handler s)) "hue" 0) ->
  fits 2 (dict_get (last_state (handler s)) "saturation" 0) ->
  fits 2 bz ->
  fits 2 (dict_get (last_state (handler s)) "kelvin" 3500) ->
  fits 4 ms ->
  brightness level duration s =
    (Ok tt,
     {| handler := handler s;
        world := send Taklampa
                   (bytearray
                      (state_packet
                         (dict_get (last_state (handler s)) "hue" 0)
                         (dict_get (last_state (handler s)) "saturation" 0)
                         bz
                         (dict_get (last_state (handler s)) "kelvin" 3500)
                         ms))
                   (world s) |}).
Proof.
  intros Hne Hb Hms Fh Fs Fb Fk Fms.
  destruct s as [h w]. cbn [handler world] in *.
  unfold brightness. unfold_M.
  rewrite bool_decide_eq_false_2 by exact Hne. cbv beta iota.
  destruct (py_mul level (PyInt 65535)) as [b|] eqn:Eb; [|discriminate].
  cbn [mbind result_bind] in Hb.
  rewrite (state_fits (PyInt _) (PyInt _) b (PyInt _) duration _ _ bz _ ms
             eq_refl eq_refl Hb eq_refl Hms Fh Fs Fb Fk Fms).
  unfold send_packet. unfold_M. rewrite msgtype_state_packet.
  reflexivity.
Qed.

(** [brightness] without a cached state: the device is asked first. *)
Lemma brightness_live s level duration bz ms :
  last_state (handler s) = ∅ ->
  (b ← py_mul level (PyInt 65535); py_int b) = Ok bz ->
  (x ← py_mul duration (PyInt 1000); py_int x) = Ok ms ->
  fits 2 bz -> fits 4 ms ->
  brightness level duration s =
    match replies (world s) with
    | Some d :: _ =>
        (Ok tt,
         {| handler := handler s;
            world := send Taklampa
                       (bytearray
                          (state_packet
                             (dict_get (reading d) "hue" 0)
                             (dict_get (reading d) "saturation" 0)
                             bz
                             (dict_get (reading d) "kelvin" 3500)
                             ms))
                       (next_reply
                          (send Taklampa (bytearray query_packet) (world s))) |})
    | _ =>
        (Raise SocketTimeout,
         {| handler := handler s;
            world := next_reply
                       (send Taklampa (bytearray query_packet) (world s)) |})
    end.
Proof.
  intros He Hb Hms Fb Fms.
  unfold brightness. unfold_M.
  rewrite bool_decide_eq_true_2 by exact He. cbv beta iota.
  rewrite get_state_spec.
  destruct (replies (world s)) as [|[d|] rest]; try reflexivity.
  cbn [handler world]. fold (reading d).
  destruct (py_mul level (PyInt 65535)) as [b|] eqn:Eb; [|discriminate].
  cbn [mbind result_bind] in Hb.
  destruct (reading_fits d "hue" ltac:(tauto)) as (vh & Hvh & Fh).
  destruct (reading_fits d "saturation" ltac:(tauto)) as (vs & Hvs & Fs).
  destruct (reading_fits d "kelvin" ltac:(tauto)) as (vk & Hvk & Fk).
  assert (Fh' : fits 2 (dict_get (reading d) "hue" 0))
    by (unfold dict_get; by rewrite Hvh).
  assert (Fs' : fits 2 (dict_get (reading d) "saturation" 0))
    by (unfold dict_get; by rewrite Hvs).
  assert (Fk' : fits 2 (dict_get (reading d) "kelvin" 3500))
    by (unfold dict_get; by rewrite Hvk).
  rewrite (state_fits (PyInt _) (PyInt _) b (PyInt _) duration _ _ bz _ ms
             eq_refl eq_refl Hb eq_refl Hms Fh' Fs' Fb Fk' Fms).
  unfold send_packet. unfold_M. rewrite msgtype_state_packet.
  reflexivity.
Qed.

(** [motion] on a dimmed controller: the timers are cancelled, the level is
    computed from the cache, [brightness] sends, and only then is the
    controller Active again. *)
Lemma motion_inactive s :
  is_active (handler s) = false ->
  motion s =
    let s1 := {| handler := cancel_timers (handler s); world := world s |} in
    match
      match last_state (handler s) !! "brightness" with
      | Some lb => py_truediv (PyInt lb) (PyInt 65535)
      | None => Ok (PyInt 1)
      end
    with
    | Ok level =>
        match brightness level duration_default s1 with
        | (Ok _, s2) =>
            (Ok tt, {| handler := set_is_active true (handler s2);
                       world := world s2 |})
        | (Raise e, s2) => (Raise e, s2)
        end
    | Raise e => (Raise e, s1)
    end.
Proof.
  intros Ha. destruct s as [[d f ls act [fi fst] fad [ti tst]] w].
  cbn in Ha. subst act. cbv zeta.
  unfold motion, cancel_timers, cancel_if_alive. unfold_M.
  destruct fst, tst;
    cbn [is_alive status fading_timer timer set_fading_timer set_timer cancel
         is_active negb last_state handler world interval];
    (destruct (ls !! "brightness") as [lb|];
     [destruct (py_truediv (PyInt lb) (PyInt 65535)) as [level|]|]);
    reflexivity.
Qed.

Lemma level_40000 :
  py_truediv (PyInt 40000) (PyInt 65535)
  = Ok (PyFloat (S754_finite false 5497642026240020 (-53))).
Proof. vm_compute. reflexivity. Qed.

Lemma restore_40000 :
  (b ← py_mul (PyFloat (S754_finite false 5497642026240020 (-53))) (PyInt 65535);
   py_int b) = Ok 40000.
Proof. vm_compute. reflexivity. Qed.

Lemma restore_full : (b ← py_mul (PyInt 1) (PyInt 65535); py_int b) = Ok 65535.
Proof. reflexivity. Qed.

Lemma ramp_default :
  (x ← py_mul duration_default (PyInt 1000); py_int x) = Ok 100.
Proof. vm_compute. reflexivity. Qed.

Lemma lookup_nonempty (m : gmap string Z) key v : m !! key = Some v -> m <> ∅.
Proof. intros H ->. by rewrite lookup_empty in H. Qed.

(** C6.  On a dimmed controller ([is_active] false), [motion] with a cached
    state of brightness 40000 sends exactly one datagram: the set-color
    datagram (type 102) with the cached hue, saturation and kelvin, the
    brightness 40000 in bytes 41-42 and the duration 100 ms, the 0.1 s
    ramp, in bytes 45-48; the device is not queried and the controller is
    Active again.  With no cached state the device is asked first: when
    it answers, the set-color datagram that follows the query carries the
    brightness 0xFFFF and the same ramp; when it does not,
    [socket.timeout] ends [motion] after the query, no set-color datagram
    is sent and the controller stays dimmed. *)
Theorem motion_restores_cached_brightness s :
  is_active (handler s) = false ->
  (forall d,
      last_state (handler s) = reading d ->
      reading d !! "brightness" = Some 40000 ->
      exists h sat k datagram s',
        reading d !! "hue" = Some h
        /\ reading d !! "saturation" = Some sat
        /\ reading d !! "kelvin" = Some k
        /\ datagram = set_color_datagram h sat 40000 k 100
        /\ motion s = (Ok tt, s')
        /\ sent (world s') = sent (world s) ++ [(Taklampa, datagram)]
        /\ replies (world s') = replies (world s)
        /\ from_bytes (py_slice datagram 32 34) = 102
        /\ from_bytes (py_slice datagram 41 43) = 40000
        /\ from_bytes (py_slice datagram 45 49) = 100
        /\ is_active (handler s') = true)
  /\ (last_state (handler s) = ∅ ->
      (forall d rest,
          replies (world s) = Some d :: rest ->
          exists h sat k datagram s',
            reading d !! "hue" = Some h
            /\ reading d !! "saturation" = Some sat
            /\ reading d !! "kelvin" = Some k
            /\ datagram = set_color_datagram h sat 65535 k 100
            /\ motion s = (Ok tt, s')
            /\ sent (world s')
               = sent (world s) ++ [(Taklampa, header_bytes 36 101);
                                    (Taklampa, datagram)]
            /\ from_bytes (py_slice datagram 32 34) = 102
            /\ from_bytes (py_slice datagram 41 43) = 65535
            /\ from_bytes (py_slice datagram 45 49) = 100
            /\ is_active (handler s') = true)
      /\ ((forall d rest, replies (world s) <> Some d :: rest) ->
          exists s',
            motion s = (Raise SocketTimeout, s')
            /\ sent (world s')
               = sent (world s) ++ [(Taklampa, header_bytes 36 101)]
            /\ is_active (handler s') = false)).
Proof.
  intros Ha. rewrite (motion_inactive s Ha). cbv zeta. split.
  - intros d Hd Hb. rewrite Hd, Hb, level_40000.
    destruct (reading_fits d "hue" ltac:(tauto)) as (vh & Hvh & Fh).
    destruct (reading_fits d "saturation" ltac:(tauto)) as (vs & Hvs & Fs).
    destruct (reading_fits d "kelvin" ltac:(tauto)) as (vk & Hvk & Fk).
    assert (Hls : last_state (cancel_timers (handler s)) = reading d) by exact Hd.
    rewrite (brightness_cached _ _ _ 40000 100); cbn [handler world];
      rewrite ?Hls; unfold dict_get; rewrite ?Hvh, ?Hvs, ?Hvk; cbn [default];
      [|exact (lookup_nonempty _ _ _ Hb)|exact restore_40000|exact ramp_default
       |exact Fh|exact Fs|unfold fits; lia|exact Fk|unfold fits; lia].
    rewrite bytearray_state_packet.
    destruct (set_color_datagram_fields vh vs 40000 vk 100
                Fh Fs ltac:(unfold fits; lia) Fk ltac:(unfold fits; lia))
      as (_ & _ & Hm & _ & _ & Hfb & _ & Hfd).
    exists vh, vs, vk. eexists. eexists.
    split; [reflexivity|]. split; [reflexivity|]. split; [reflexivity|].
    split; [reflexivity|]. split; [reflexivity|].
    cbn [handler world send sent replies is_active set_is_active].
    repeat split; assumption || reflexivity.
  - intros He. rewrite He, lookup_empty.
    split.
    + intros d rest Hr.
      rewrite (brightness_live _ _ _ 65535 100);
        [|exact He|exact restore_full|exact ramp_default
         |unfold fits; lia|unfold fits; lia].
      cbn [handler world]. rewrite Hr.
      destruct (reading_fits d "hue" ltac:(tauto)) as (vh & Hvh & Fh).
      destruct (reading_fits d "saturation" ltac:(tauto)) as (vs & Hvs & Fs).
      destruct (reading_fits d "kelvin" ltac:(tauto)) as (vk & Hvk & Fk).
      unfold dict_get. rewrite Hvh, Hvs, Hvk. cbn [default].
      rewrite bytearray_state_packet, bytearray_query.
      destruct (set_color_datagram_fields vh vs 65535 vk 100
                  Fh Fs ltac:(unfold fits; lia) Fk ltac:(unfold fits; lia))
        as (_ & _ & Hm & _ & _ & Hfb & _ & Hfd).
      exists vh, vs, vk. eexists. eexists.
      split; [reflexivity|]. split; [reflexivity|]. split; [reflexivity|].
      split; [reflexivity|]. split; [reflexivity|].
      cbn [handler world send next_reply sent replies is_active set_is_active].
      rewrite <- app_assoc.
      repeat split; assumption || reflexivity.
    + intros Hnone.
      rewrite (brightness_live _ _ _ 65535 100);
        [|exact He|exact restore_full|exact ramp_default
         |unfold fits; lia|unfold fits; lia].
      cbn [handler world]. rewrite bytearray_query.
      destruct (replies (world s)) as [|[d|] rest] eqn:Er.
      * eexists. split; [reflexivity|]. cbn. by rewrite Ha.
      * by destruct (Hnone d rest).
      * eexists. split; [reflexivity|]. cbn. by rewrite Ha.
Qed.

Lemma motion_restores_cached_brightness_witness :
  exists s',
    motion dimmed_example = (Ok tt, s')
    /\ sent (world s') = [(Taklampa, set_color_datagram 120 0 40000 3500 100)]
    /\ from_bytes (py_slice (set_color_datagram 120 0 40000 3500 100) 41 43) = 40000
    /\ from_bytes (py_slice (set_color_datagram 120 0 40000 3500 100) 45 49) = 100
    /\ is_active (handler s') = true.
Proof.
  destruct (proj1 (motion_restores_cached_brightness dimmed_example eq_refl)
              bright_response eq_refl)
    as (h & sat & k & datagram & s' & Hh & Hs & Hk & Hd & H1 & H2 & _ & _ & H5 & H6 & H7).
  - vm_compute. reflexivity.
  - assert (Eh : h = 120) by (vm_compute in Hh; congruence).
    assert (Es : sat = 0) by (vm_compute in Hs; congruence).
    assert (Ek : k = 3500) by (vm_compute in Hk; congruence).
    subst h sat k datagram.
    exists s'. repeat split; assumption.
Defined.

Lemma dark_floor :
  (x ← py_mul dark (PyInt 10); py_mul x (PyInt 65535))
  = Ok (PyFloat (S754_finite false 7205649452630016 (-40))).
Proof. vm_compute. reflexivity. Qed.

(** [brightness > (dark * 10) * 0xFFFF]: the float is 6553.5. *)
Lemma gt_dark_floor b :
  py_gt (PyInt b) (PyFloat (S754_finite false 7205649452630016 (-40)))
  = (6553 <? b).
Proof.
  unfold py_gt, int_gt_float, Qltb. cbn.
  change (Z.pos (Z.to_pos (2 ^ (- (-40))))) with 1099511627776.
  destruct (Z.ltb_spec (7205649452630016 * 1) (b * 1099511627776)),
           (Z.ltb_spec 6553 b); (reflexivity || lia).
Qed.

(** One turn of the main loop. *)
Lemma poll_spec s :
  poll s =
    (Ok tt,
     if poll_guard (handler s) then
       {| handler :=
            match replies (world s) with
            | Some d :: _ =>
                if accepts (handler s) (reading d)
                then set_last_state (reading d) (handler s)
                else handler s
            | _ => handler s
            end;
          world := next_reply (send Taklampa (bytearray query_packet) (world s)) |}
     else s).
Proof.
  unfold poll, poll_try, poll_guard. rewrite dark_floor. unfold_M.
  destruct (is_active (handler s) || negb (is_active (handler s)) && negb (is_fading (handler s)));
    [|by destruct s].
  rewrite get_state_spec.
  destruct (replies (world s)) as [|[d|] rest]; try reflexivity.
  fold (reading d). cbn [handler world].
  rewrite gt_dark_floor.
  unfold accepts.
  destruct (reading_fits d "power" ltac:(tauto)) as (p & Hp & _).
  replace (dict_get (reading d) "power" 0) with p
    by (unfold dict_get; by rewrite Hp).
  rewrite Hp.
  destruct (6553 <? dict_get (reading d) "brightness" 0); [|reflexivity].
  destruct (65280 <=? p); [|reflexivity].
  cbn [andb].
  destruct (decide (reading d !! "brightness" = last_state (handler s) !! "brightness"))
    as [Heq|Hne].
  - rewrite (bool_decide_eq_false_2 _ (fun H => H Heq)).
    rewrite (bool_decide_eq_true_2 _ Heq). reflexivity.
  - rewrite (bool_decide_eq_true_2 _ Hne).
    rewrite (bool_decide_eq_false_2 _ Hne). reflexivity.
Qed.

Lemma brightness_handler level duration s :
  handler (brightness level duration s).2 = handler s.
Proof.
  unfold brightness. unfold_M.
  destruct (bool_decide (last_state (handler s) = ∅));
    [rewrite get_state_spec; destruct (replies (world s)) as [|[d|] rest]|];
    cbn [handler world snd]; try reflexivity.
  all: destruct (py_mul level (PyInt 65535)); try reflexivity.
  all: destruct (PacketBuilder.state _ _ _ _ _); try reflexivity.
  all: unfold send_packet, sock_send; unfold_M; destruct (msgtype _); reflexivity.
Qed.

Lemma motion_last_state s :
  last_state (handler (run_thread motion s)) = last_state (handler s).
Proof.
  unfold run_thread.
  destruct (is_active (handler s)) eqn:Ha.
  - by rewrite (motion_active s Ha).
  - rewrite (motion_inactive s Ha). cbv zeta.
    destruct (match last_state (handler s) !! "brightness" with
              | Some lb => py_truediv (PyInt lb) (PyInt 65535)
              | None => Ok (PyInt 1)
              end) as [level|e]; [|reflexivity].
    pose proof (brightness_handler level duration_default
                  {| handler := cancel_timers (handler s); world := world s |}) as Hh.
    destruct (brightness level duration_default _) as [[[]|e] s2];
      cbn [snd handler] in *; by rewrite Hh.
Qed.

Lemma no_motion_last_state s :
  last_state (handler (run_thread no_motion s)) = last_state (handler s).
Proof.
  unfold run_thread, no_motion. unfold_M.
  destruct (is_alive (timer (handler s)));
    cbn [handler world delay set_timer];
    destruct (total_seconds (delay (handler s))); reflexivity.
Qed.

Lemma timeout_last_state s :
  last_state (handler (run_thread timeout s)) = last_state (handler s).
Proof.
  unfold run_thread, timeout. unfold_M.
  cbn [fadetime set_is_active].
  destruct (total_seconds (fadetime (handler s))) as [fade|e]; [|reflexivity].
  pose proof (brightness_handler dark fade
                {| handler := set_is_active false (handler s); world := world s |}) as Hh.
  destruct (brightness dark fade _) as [[[]|e] [h2 w2]];
    cbn [snd handler world] in *; subst h2; [|reflexivity].
  cbn [fading_timer set_is_active fadetime].
  destruct (is_alive (fading_timer (handler s)));
    cbn [handler world fadetime set_fading_timer set_is_active];
    destruct (total_seconds (fadetime (handler s))); reflexivity.
Qed.

Lemma fire_last_state sl s : last_state (handler (fire sl s)) = last_state (handler s).
Proof.
  destruct sl; unfold fire; cbn [handler last_state set_timer set_fading_timer].
  - apply timeout_last_state.
  - reflexivity.
Qed.

Lemma elapse_n_last_state n : forall dt s,
  last_state (handler (elapse_n n dt s)) = last_state (handler s).
Proof.
  induction n as [|n IH]; intros dt s; cbn [elapse_n]; [reflexivity|].
  destruct (next_due dt (handler s)) as [[sl r]|]; [|reflexivity].
  by rewrite IH, fire_last_state.
Qed.

Lemma accepts_cache_ok h d : accepts h (reading d) = true -> cache_ok (reading d).
Proof.
  unfold accepts. intros H.
  apply andb_true_iff in H as [H _]. apply andb_true_iff in H as [Hb Hp].
  destruct (reading_fits d "brightness" ltac:(tauto)) as (b & Hvb & _).
  destruct (reading_fits d "power" ltac:(tauto)) as (p & Hvp & _).
  unfold dict_get in Hb, Hp. rewrite Hvb in Hb. rewrite Hvp in Hp.
  cbn in Hb, Hp. apply Z.ltb_lt in Hb. apply Z.leb_le in Hp.
  right. exists d, b, p. repeat split; (done || lia).
Qed.

Lemma step_cache_ok s ev :
  cache_ok (last_state (handler s)) -> cache_ok (last_state (handler (step s ev))).
Proof.
  intros Hok. destruct ev as [| |dt|]; cbn [step].
  - by rewrite motion_last_state.
  - by rewrite no_motion_last_state.
  - unfold elapse. by rewrite elapse_n_last_state.
  - unfold run_thread. rewrite poll_spec.
    destruct (poll_guard (handler s)); [|done]. cbn [handler].
    destruct (replies (world s)) as [|[d|] rest]; try done.
    destruct (accepts (handler s) (reading d)) eqn:Ea; [|done].
    cbn [last_state set_last_state]. by apply (accepts_cache_ok (handler s)).
Qed.

Lemma run_cache_ok evs : forall s,
  cache_ok (last_state (handler s)) -> cache_ok (last_state (handler (run evs s))).
Proof.
  unfold run. induction evs as [|ev evs IH]; intros s Hok; cbn [fold_left]; [done|].
  apply IH, step_cache_ok, Hok.
Qed.

Lemma MotionHandler_init_last_state d f h :
  MotionHandler_init d f = Ok h -> last_state h = ∅ /\ is_active h = true.
Proof.
  unfold MotionHandler_init. intros H.
  apply bind_Ok in H as (fade & _ & H). apply bind_Ok in H as (wait & _ & H).
  injection H as <-. done.
Qed.

(** C8.  The cache [last_state] is empty or holds a reading whose power is
    at least 0xFF00 and whose brightness is above [0.1 * 0xFFFF]: every
    event of the controller keeps it so, from the constructor on.  A turn
    of the main loop that reads a power below 0xFF00 leaves the cache as it
    was; a turn on an Active controller that reads brightness 30000 with
    power 0xFFFF leaves the cached brightness at 30000 (the reading itself
    is the new cache when the cached brightness was another), and so does
    a second turn with the same reading.  On a controller fresh from the
    constructor, such a reading followed by one with power 0 leaves the
    first in the cache, and a reading with power 0 alone leaves the cache
    empty. *)
Theorem poll_caches_only_bright_on_readings :
  (forall evs s,
      cache_ok (last_state (handler s)) ->
      cache_ok (last_state (handler (run evs s))))
  /\ (forall delay fadetime h w evs,
        MotionHandler_init delay fadetime = Ok h ->
        cache_ok (last_state (handler (run evs {| handler := h; world := w |}))))
  /\ (forall s d rest p,
        replies (world s) = Some d :: rest ->
        reading d !! "power" = Some p -> p < 65280 ->
        last_state (handler (step s Poll)) = last_state (handler s))
  /\ (forall s d rest,
        is_active (handler s) = true ->
        replies (world s) = Some d :: rest ->
        reading d !! "brightness" = Some 30000 ->
        reading d !! "power" = Some 65535 ->
        last_state (handler (step s Poll)) !! "brightness" = Some 30000
        /\ (last_state (handler s) !! "brightness" <> Some 30000 ->
            last_state (handler (step s Poll)) = reading d))
  /\ (forall s d rest,
        is_active (handler s) = true ->
        replies (world s) = Some d :: Some d :: rest ->
        reading d !! "brightness" = Some 30000 ->
        reading d !! "power" = Some 65535 ->
        last_state (handler (run [Poll; Poll] s)) !! "brightness" = Some 30000
        /\ (last_state (handler s) !! "brightness" <> Some 30000 ->
            last_state (handler (run [Poll; Poll] s)) = reading d))
  /\ (MotionHandler_init 300000000 300000000
        = Ok (handler (fresh_example (steady_response 65535) (steady_response 0)))
      /\ reading (steady_response 65535) !! "brightness" = Some 30000
      /\ reading (steady_response 65535) !! "power" = Some 65535
      /\ reading (steady_response 0) !! "power" = Some 0
      /\ last_state (handler (run [Poll]
            (fresh_example (steady_response 65535) (steady_response 0))))
         = reading (steady_response 65535)
      /\ last_state (handler (run [Poll; Poll]
            (fresh_example (steady_response 65535) (steady_response 0))))
         = reading (steady_response 65535)
      /\ last_state (handler (run [Poll]
            (fresh_example (steady_response 0) (steady_response 65535)))) = ∅).
Proof.
  assert (Hone : forall s d rest,
             is_active (handler s) = true ->
             replies (world s) = Some d :: rest ->
             reading d !! "brightness" = Some 30000 ->
             reading d !! "power" = Some 65535 ->
             step s Poll =
               {| handler :=
                    if bool_decide (last_state (handler s) !! "brightness" = Some 30000)
                    then handler s else set_last_state (reading d) (handler s);
                  world := next_reply
                             (send Taklampa (bytearray query_packet) (world s)) |}).
  { intros s d rest Ha Hr Hb Hp. cbn [step]. unfold run_thread.
    rewrite poll_spec. unfold poll_guard. rewrite Ha, Hr. cbn [orb].
    unfold accepts.
    replace (dict_get (reading d) "brightness" 0) with 30000
      by (unfold dict_get; by rewrite Hb).
    replace (dict_get (reading d) "power" 0) with 65535
      by (unfold dict_get; by rewrite Hp).
    rewrite Hb.
    change (6553 <? 30000) with true. change (65280 <=? 65535) with true.
    cbn [andb].
    destruct (decide (last_state (handler s) !! "brightness" = Some 30000)) as [He|Hne].
    - rewrite (bool_decide_eq_true_2 _ He).
      by rewrite bool_decide_eq_true_2 by done.
    - rewrite (bool_decide_eq_false_2 _ Hne).
      by rewrite bool_decide_eq_false_2 by (intros H; by apply Hne). }
  split; [exact run_cache_ok|]. split; [|split; [|split; [|split]]];
    [| | | |repeat split; vm_compute; reflexivity].
  - intros delay fadetime h w evs Hi. apply run_cache_ok.
    left. apply (MotionHandler_init_last_state _ _ _ Hi).
  - intros s d rest p Hr Hp Hlt. cbn [step]. unfold run_thread.
    rewrite poll_spec. destruct (poll_guard (handler s)); [|done].
    rewrite Hr. cbn [handler].
    replace (accepts (handler s) (reading d)) with false; [done|].
    unfold accepts.
    replace (dict_get (reading d) "power" 0) with p
      by (unfold dict_get; by rewrite Hp).
    replace (65280 <=? p) with false by lia. by rewrite andb_false_r.
  - intros s d rest Ha Hr Hb Hp. rewrite (Hone s d rest Ha Hr Hb Hp).
    cbn [handler]. split.
    + by destruct (decide (last_state (handler s) !! "brightness" = Some 30000));
        [rewrite bool_decide_eq_true_2|rewrite bool_decide_eq_false_2].
    + intros Hne. by rewrite bool_decide_eq_false_2.
  - intros s d rest Ha Hr Hb Hp. unfold run. cbn [fold_left].
    rewrite (Hone s d (Some d :: rest) Ha Hr Hb Hp).
    set (s1 := {| handler := _; world := _ |}).
    assert (Ha1 : is_active (handler s1) = true).
    { cbn [s1 handler]. by destruct (bool_decide _). }
    assert (Hr1 : replies (world s1) = Some d :: rest).
    { cbn [s1 world next_reply send replies]. by rewrite Hr. }
    assert (Hb1 : last_state (handler s1) !! "brightness" = Some 30000).
    { cbn [s1 handler].
      by destruct (decide (last_state (handler s) !! "brightness" = Some 30000));
        [rewrite bool_decide_eq_true_2|rewrite bool_decide_eq_false_2]. }
    rewrite (Hone s1 d rest Ha1 Hr1 Hb Hp). cbn [handler].
    rewrite (bool_decide_eq_true_2 _ Hb1). split; [exact Hb1|].
    intros Hne. cbn [s1 handler]. by rewrite bool_decide_eq_false_2.
Qed.




(** C9, as stated, fails: for a duration of 1/64 s the product is 15.625,
    the field holds 15 and [round] gives 16. *)
Lemma duration_is_not_rounded :
  (float_to_Q (S754_finite false 4503599627370496 (-58)) == 1 # 64)%Q
  /\ (x ← py_mul one_64th (PyInt 1000); Ok (num_value x))
     = Ok (Some (float_to_Q (S754_finite false 8796093022208000 (-49))))
  /\ (float_to_Q (S754_finite false 8796093022208000 (-49)) == 15625 # 1000)%Q
  /\ (p ← state (PyInt 0) (PyInt 0) (PyInt 0) (PyInt 3500) one_64th;
      Ok (field (payload p) "duration")) = Ok (Some 15)
  /\ spec_duration_ms one_64th = Ok 16.
Proof. repeat split; vm_compute; reflexivity. Qed.

(** C9, amended.  For every duration from 0 to 4294967 seconds, an int or
    a float, [Packet.state] stores in the 4-byte duration field
    [int(duration * 1000)]: the product, truncated toward zero, which lies
    between 0 and 4294967000; for an int duration this is
    [1000 * duration], the value [round] gives as well. *)
Theorem state_duration_is_truncated hue saturation brightness kelvin duration h s b k :
  py_int hue = Ok h -> py_int saturation = Ok s ->
  py_int brightness = Ok b -> py_int kelvin = Ok k ->
  fits 2 h -> fits 2 s -> fits 2 b -> fits 2 k ->
  duration_in_range duration ->
  exists x ms p,
    py_mul duration (PyInt 1000) = Ok x
    /\ py_int x = Ok ms
    /\ 0 <= ms <= 4294967000
    /\ state hue saturation brightness kelvin duration = Ok p
    /\ field (payload p) "duration" = Some ms
    /\ last (parameters (payload p))
       = Some {| name := "duration"; data := le_bytes 4 ms |}
    /\ (exists q, num_value x = Some q
                  /\ (inject_Z ms <= q)%Q /\ (q < inject_Z (ms + 1))%Q)
    /\ (forall z, duration = PyInt z ->
                  ms = 1000 * z /\ spec_duration_ms duration = Ok ms).
Proof.
  intros Hh Hs Hb Hk Fh Fs Fb Fk Hd.
  destruct (duration_ms_in_range duration Hd)
    as (x & ms & Hx & Hms & Hr & Hint & Hq).
  assert (Fms : fits 4 ms) by (unfold fits; lia).
  assert (Hc : (x ← py_mul duration (PyInt 1000); py_int x) = Ok ms)
    by (rewrite Hx; exact Hms).
  exists x, ms, (state_packet h s b k ms).
  destruct (state_packet_fields h s b k ms Fh Fs Fb Fk Fms)
    as (_ & _ & _ & _ & _ & Hfd & _).
  split; [exact Hx|]. split; [exact Hms|]. split; [exact Hr|].
  split; [exact (state_fits _ _ _ _ _ _ _ _ _ _ Hh Hs Hb Hk Hc Fh Fs Fb Fk Fms)|].
  split; [exact Hfd|]. split; [reflexivity|]. split; [exact Hq|].
  intros z ->. destruct (Hint z eq_refl) as [-> ->]. split; [reflexivity|].
  unfold spec_duration_ms. cbn. f_equal. lia.
Qed.

Lemma state_duration_is_truncated_witness :
  exists x ms p,
    py_mul one_64th (PyInt 1000) = Ok x
    /\ py_int x = Ok ms
    /\ 0 <= ms <= 4294967000
    /\ state (PyInt 120) (PyInt 0) (PyInt 655) (PyInt 3500) one_64th = Ok p
    /\ field (payload p) "duration" = Some ms
    /\ last (parameters (payload p))
       = Some {| name := "duration"; data := le_bytes 4 ms |}
    /\ (exists q, num_value x = Some q
                  /\ (inject_Z ms <= q)%Q /\ (q < inject_Z (ms + 1))%Q)
    /\ (forall z, one_64th = PyInt z ->
                  ms = 1000 * z /\ spec_duration_ms one_64th = Ok ms).
Proof.
  apply (state_duration_is_truncated (PyInt 120) (PyInt 0) (PyInt 655) (PyInt 3500)
           one_64th 120 0 655 3500); try reflexivity; try (unfold fits; lia).
  eexists. split; [reflexivity|]. split; vm_compute; discriminate.
Defined.

Lemma reduce_append pieces : forall acc,
  Forall (fun pair => 0 <= pair.2) pieces ->
  reduce append pieces acc =
    Ok (fold_left (fun result pair => Z.lor (Z.shiftl result pair.2) pair.1) pieces acc).
Proof.
  induction pieces as [|[v w] pieces IH]; intros acc Hw; [done|].
  inversion Hw as [|? ? Hw1 Hw2]; subst. cbn [snd] in Hw1.
  cbn [reduce append fold_left fst snd].
  replace (w <? 0) with false by lia. cbn [mbind result_bind]. by apply IH.
Qed.

Lemma total_width_nonneg pieces :
  Forall (fun pair : Z * Z => 0 <= pair.2) pieces -> 0 <= total_width pieces.
Proof.
  induction 1 as [|[v w] l H _ IH]; cbn [total_width fold_right snd] in *; [done|].
  fold (total_width l). lia.
Qed.

Lemma fold_pack_from pieces : forall acc,
  Forall (fun pair => 0 <= pair.2) pieces ->
  fold_left (fun result pair => Z.lor (Z.shiftl result pair.2) pair.1) pieces acc
  = Z.lor (Z.shiftl acc (total_width pieces)) (pack_bits pieces).
Proof.
  unfold pack_bits.
  induction pieces as [|[v w] pieces IH]; intros acc Hw.
  - cbn. by rewrite Z.shiftl_0_r, Z.lor_0_r.
  - inversion Hw as [|? ? Hw1 Hw2]; subst. cbn [snd] in Hw1.
    pose proof (total_width_nonneg pieces Hw2) as Ht.
    cbn [fold_left fst snd total_width fold_right]. fold (total_width pieces).
    rewrite (IH (Z.lor (Z.shiftl acc w) v)) by done.
    rewrite (IH (Z.lor (Z.shiftl 0 w) v)) by done.
    rewrite Z.shiftl_0_l, Z.lor_0_l.
    rewrite Z.shiftl_lor, Z.shiftl_shiftl by lia.
    by rewrite Z.lor_assoc.
Qed.

(** [packbytes] starts its fold from the first value, and so has that
    value once more than the spec's fold, above all the fields. *)
Lemma packbytes_pack_bits a w rest :
  Forall (fun pair => 0 <= pair.2) ((a, w) :: rest) ->
  packbytes ((a, w) :: rest)
  = Ok (Z.lor (Z.shiftl a (total_width ((a, w) :: rest)))
              (pack_bits ((a, w) :: rest))).
Proof.
  intros Hw. unfold packbytes. rewrite reduce_append by done.
  by rewrite fold_pack_from by done.
Qed.

Lemma lor_shiftl_add x w y :
  0 <= w -> 0 <= y < 2 ^ w -> Z.lor (Z.shiftl x w) y = x * 2 ^ w + y.
Proof.
  intros Hw Hy.
  assert (Hl : Z.land (Z.shiftl x w) y = 0).
  { apply Z.bits_inj'. intros n Hn. rewrite Z.land_spec, Z.bits_0.
    destruct (Z.lt_ge_cases n w) as [Hlt|Hge].
    - by rewrite Z.shiftl_spec_low.
    - destruct (Z.eq_dec y 0) as [->|Hne]; [by rewrite Z.bits_0, andb_false_r|].
      rewrite (Z.bits_above_log2 y n), andb_false_r; [done|lia|].
      assert (Z.log2 y < w) by (apply Z.log2_lt_pow2; lia). lia. }
  pose proof (Z.add_lor_land (Z.shiftl x w) y) as H.
  rewrite Hl in H. rewrite Z.shiftl_mul_pow2 in H |- * by lia. lia.
Qed.

(** The round trip of the bit-packing invariant holds for the spec's
    fold. *)
Lemma pack_bits_roundtrip a b c w1 w2 w3 :
  0 < w1 -> 0 < w2 -> 0 < w3 ->
  0 <= a < 2 ^ w1 -> 0 <= b < 2 ^ w2 -> 0 <= c < 2 ^ w3 ->
  deconstruct_sub (pack_bits [(a, w1); (b, w2); (c, w3)]) (w1 + w2 + w3) 0
    [("a", w1); ("b", w2); ("c", w3)]
  = Ok [("a", a); ("b", b); ("c", c)].
Proof.
  intros H1 H2 H3 Ha Hb Hc.
  assert (Hv : pack_bits [(a, w1); (b, w2); (c, w3)] = (a * 2 ^ w2 + b) * 2 ^ w3 + c).
  { unfold pack_bits. cbn [fold_left fst snd].
    rewrite Z.shiftl_0_l, Z.lor_0_l.
    rewrite (lor_shiftl_add a w2 b) by lia.
    by rewrite lor_shiftl_add by lia. }
  rewrite Hv.
  assert (HA : 0 < 2 ^ w1) by (apply Z.pow_pos_nonneg; lia).
  assert (HB : 0 < 2 ^ w2) by (apply Z.pow_pos_nonneg; lia).
  assert (HC : 0 < 2 ^ w3) by (apply Z.pow_pos_nonneg; lia).
  assert (Hbc : 0 <= b * 2 ^ w3 + c < 2 ^ w2 * 2 ^ w3) by nia.
  rewrite deconstruct_sub_spec; [|lia| |lia| |].
  - cbn [sub_values]. unfold bitfield.
    replace (w1 + w2 + w3 - 0 - w1) with (w2 + w3) by lia.
    replace (w1 + w2 + w3 - (0 + w1) - w2) with w3 by lia.
    replace (w1 + w2 + w3 - (0 + w1 + w2) - w3) with 0 by lia.
    rewrite Z.pow_add_r, Z.pow_0_r, Z.div_1_r by lia.
    replace (((a * 2 ^ w2 + b) * 2 ^ w3 + c) / (2 ^ w2 * 2 ^ w3)) with a
      by (apply Z.div_unique with (b * 2 ^ w3 + c); [lia|ring]).
    replace (((a * 2 ^ w2 + b) * 2 ^ w3 + c) / 2 ^ w3) with (a * 2 ^ w2 + b)
      by (apply Z.div_unique with c; [lia|ring]).
    rewrite (Z.mod_small a) by lia.
    replace ((a * 2 ^ w2 + b) mod 2 ^ w2) with b
      by (apply Z.mod_unique with a; [lia|ring]).
    replace (((a * 2 ^ w2 + b) * 2 ^ w3 + c) mod 2 ^ w3) with c
      by (apply Z.mod_unique with (a * 2 ^ w2 + b); [lia|ring]).
    reflexivity.
  - rewrite !Z.pow_add_r by lia. nia.
  - repeat constructor; cbn; lia.
  - unfold sum_values. cbn. lia.
Qed.

(** C1. [packbytes] does not compute the fold from zero: [reduce] starts
    from the first value and then folds every pair, the first one again.
    On [(1,1), (0,1), (0,1)] it returns 12 where the fold from zero gives
    4, and slicing 12 over 3 bits with the schema a:1, b:1, c:1 returns
    a = 1, b = 1, c = 0 instead of 1, 0, 0.  In general the result is the
    fold from zero with the first value once more above all the fields;
    the round trip holds for the fold from zero, and for [packbytes]
    when the first value is 0, as in both calls of [set_headers]. *)
Theorem packbytes_starts_from_first_value :
  packbytes [(1, 1); (0, 1); (0, 1)] = Ok 12 /\
  pack_bits [(1, 1); (0, 1); (0, 1)] = 4 /\
  (v ← packbytes [(1, 1); (0, 1); (0, 1)];
   deconstruct_sub v 3 0 [("a", 1); ("b", 1); ("c", 1)])
  = Ok [("a", 1); ("b", 1); ("c", 0)] /\
  (forall a w rest,
     Forall (fun pair => 0 <= pair.2) ((a, w) :: rest) ->
     packbytes ((a, w) :: rest)
     = Ok (Z.lor (Z.shiftl a (total_width ((a, w) :: rest)))
                 (pack_bits ((a, w) :: rest)))) /\
  (forall a b c w1 w2 w3,
     0 < w1 -> 0 < w2 -> 0 < w3 -> w1 + w2 + w3 <= 16 ->
     0 <= a < 2 ^ w1 -> 0 <= b < 2 ^ w2 -> 0 <= c < 2 ^ w3 ->
     deconstruct_sub (pack_bits [(a, w1); (b, w2); (c, w3)]) (w1 + w2 + w3) 0
       [("a", w1); ("b", w2); ("c", w3)]
     = Ok [("a", a); ("b", b); ("c", c)]) /\
  (forall b c w1 w2 w3,
     0 < w1 -> 0 < w2 -> 0 < w3 -> w1 + w2 + w3 <= 16 ->
     0 <= b < 2 ^ w2 -> 0 <= c < 2 ^ w3 ->
     (v ← packbytes [(0, w1); (b, w2); (c, w3)];
      deconstruct_sub v (w1 + w2 + w3) 0 [("a", w1); ("b", w2); ("c", w3)])
     = Ok [("a", 0); ("b", b); ("c", c)]).
Proof.
  split; [reflexivity|]. split; [reflexivity|]. split; [by vm_compute|].
  split; [apply packbytes_pack_bits|].
  split.
  - intros a b c w1 w2 w3 H1 H2 H3 _ Ha Hb Hc. by apply pack_bits_roundtrip.
  - intros b c w1 w2 w3 H1 H2 H3 _ Hb Hc.
    rewrite packbytes_pack_bits by (repeat constructor; cbn; lia).
    rewrite Z.shiftl_0_l, Z.lor_0_l. cbn [mbind result_bind].
    apply pack_bits_roundtrip; try done.
    split; [done|]. apply Z.pow_pos_nonneg; lia.
Qed.

(** * Further properties of the code *)

Ltac pow_lia :=
  repeat match goal with
         | |- context [256 ^ ?k] =>
             let v := eval vm_compute in (256 ^ k) in change (256 ^ k) with v
         end;
  lia.

Lemma tobytes_small :
  tobytes 8 = Ok 1 /\ tobytes 48 = Ok 6 /\ tobytes 64 = Ok 8.
Proof. repeat split; vm_compute; reflexivity. Qed.

Lemma packbytes_protocol tagged :
  packbytes [(0, 2); (Z.b2z tagged, 1); (Z.b2z true, 1); (1024, 12)]
  = Ok (protocol_bits tagged).
Proof. by destruct tagged. Qed.

Lemma packbytes_resp ack_required res_required :
  packbytes [(0, 6); (Z.b2z ack_required, 1); (Z.b2z res_required, 1)]
  = Ok (resp_bits ack_required res_required).
Proof. by destruct ack_required, res_required. Qed.

(** [set_headers] on a fresh packet, by the ranges of its arguments. *)
Lemma set_headers_spec msgtype tagged source res_required ack_required sequence :
  set_headers Packet_init msgtype tagged source res_required ack_required sequence =
    (encode 4 source;; encode 1 sequence;; encode 2 msgtype;;
     Ok (header_packet msgtype tagged source res_required ack_required sequence)).
Proof.
  destruct tobytes_small as (T8 & T48 & T64).
  unfold set_headers.
  rewrite packbytes_protocol, packbytes_resp, tobytes_16, tobytes_32, T8, T48, T64.
  step_bind. unfold append_param.
  rewrite (Parameter_init_int "protocol" (protocol_bits tagged) 2) by lia.
  rewrite (encode_fits 2 (protocol_bits tagged)) by (destruct tagged; unfold protocol_bits; cbn [Z.b2z]; pow_lia).
  step_bind.
  rewrite (Parameter_init_int "source" source 4) by lia.
  destruct (encode 4 source) as [?|?] eqn:E1; step_bind; [|reflexivity].
  apply encode_Ok in E1 as [_ ->].
  rewrite (Parameter_init_int "target" 0 8) by lia.
  rewrite (encode_fits 8 0) by pow_lia. step_bind.
  rewrite (Parameter_init_int "reserved" 0 6) by lia.
  rewrite (encode_fits 6 0) by pow_lia. step_bind.
  rewrite (Parameter_init_int "resp" (resp_bits ack_required res_required) 1) by lia.
  rewrite (encode_fits 1 (resp_bits ack_required res_required))
    by (destruct ack_required, res_required; unfold resp_bits; cbn [Z.b2z]; pow_lia).
  step_bind.
  rewrite (Parameter_init_int "sequence" sequence 1) by lia.
  destruct (encode 1 sequence) as [?|?] eqn:E2; step_bind; [|reflexivity].
  apply encode_Ok in E2 as [_ ->].
  rewrite (Parameter_init_int "reserved" 0 8) by lia.
  rewrite (encode_fits 8 0) by pow_lia. step_bind.
  rewrite (Parameter_init_int "message type" msgtype 2) by lia.
  destruct (encode 2 msgtype) as [?|?] eqn:E3; step_bind; [|reflexivity].
  apply encode_Ok in E3 as [_ ->].
  rewrite (Parameter_init_int "reserved" 0 2) by lia.
  rewrite (encode_fits 2 0) by pow_lia. step_bind.
  reflexivity.
Qed.

Lemma MSGHEADER_ok : sizes_ok MSGHEADER.
Proof. unfold sizes_ok, MSGHEADER. repeat constructor; cbn; lia. Qed.

(** The bytes of a field that lies between two known stretches. *)
Lemma from_bytes_slice_at (pre mid post : list Byte.byte) i j :
  Z.of_nat (length pre) = i -> Z.of_nat (length mid) = j - i ->
  from_bytes (py_slice (pre ++ mid ++ post) i j) = from_bytes mid.
Proof.
  intros Hi Hj.
  rewrite py_slice_inner; [|lia|rewrite !length_app; lia].
  replace (Z.to_nat i) with (length pre) by lia.
  replace (Z.to_nat (j - i)) with (length mid) by lia.
  by rewrite drop_app_length, take_app_length.
Qed.

(** The serialized packet after [set_size]: the size field, the header
    fields in their order, the payload. *)
Lemma bytearray_header_packet msgtype tagged source res_required ack_required
    sequence pl size :
  let q := with_payload
             (header_packet msgtype tagged source res_required ack_required sequence)
             pl in
  bytearray (with_frame q {| parameters := {| name := "size"; data := size |}
                                             :: parameters (frame q) |})
  = size ++ le_bytes 2 (protocol_bits tagged) ++ le_bytes 4 source
    ++ le_bytes 8 0 ++ le_bytes 6 0
    ++ le_bytes 1 (resp_bits ack_required res_required) ++ le_bytes 1 sequence
    ++ le_bytes 8 0 ++ le_bytes 2 msgtype ++ le_bytes 2 0
    ++ concat (map data (parameters pl)).
Proof.
  cbv zeta. unfold bytearray, get_parts, header_packet, with_frame, with_payload.
  cbn [frame frame_address protocol_header payload parameters map concat data].
  rewrite !app_nil_r, <- !app_assoc. reflexivity.
Qed.

(** X1.  Every header field [set_headers] and [set_size] write is read back by
    [deconstruct] with [MSGHEADER]: the size is the length of the
    datagram, origin 0, addressable 1, protocol 1024, and the tagged bit,
    source, flags, sequence and message type are the arguments. *)
Theorem set_headers_decodes_back msgtype tagged source res_required ack_required
    sequence pl :
  fits 2 msgtype -> fits 4 source -> fits 1 sequence ->
  Part_len pl + 36 < 65536 ->
  exists q p items,
    set_headers Packet_init msgtype tagged source res_required ack_required sequence
      = Ok q
    /\ set_size (with_payload q pl) 2 = Ok p
    /\ deconstruct (bytearray p) MSGHEADER = Ok items
    /\ py_dict items !! "size" = Some (Z.of_nat (length (bytearray p)))
    /\ py_dict items !! "origin" = Some 0
    /\ py_dict items !! "tagged" = Some (Z.b2z tagged)
    /\ py_dict items !! "addressable" = Some 1
    /\ py_dict items !! "protocol" = Some 1024
    /\ py_dict items !! "source" = Some source
    /\ py_dict items !! "target" = Some 0
    /\ py_dict items !! "ack_required" = Some (Z.b2z ack_required)
    /\ py_dict items !! "res_required" = Some (Z.b2z res_required)
    /\ py_dict items !! "sequence" = Some sequence
    /\ py_dict items !! "type" = Some msgtype
    /\ py_dict items !! "reserved" = Some 0.
Proof.
  intros Hm Hs Hq Hl.
  set (q := header_packet msgtype tagged source res_required ack_required sequence).
  assert (Hlen : Packet_len (with_payload q pl) = 34 + Part_len pl).
  { unfold Packet_len, with_payload, get_parts.
    cbn [frame frame_address protocol_header payload fold_right q header_packet].
    unfold Part_len at 1 2 3.
    cbn [parameters fold_right data]. rewrite !le_bytes_length. lia. }
  set (N := 34 + Part_len pl + 2).
  assert (HN : fits 2 N).
  { unfold fits, N. change (256 ^ 2) with 65536.
    rewrite Part_len_bytes in Hl |- *. lia. }
  exists q,
    (with_frame (with_payload q pl)
       {| parameters := {| name := "size"; data := le_bytes 2 N |}
                          :: parameters (frame (with_payload q pl)) |}).
  eexists.
  split.
  { rewrite set_headers_spec.
    rewrite (encode_fits 4 source), (encode_fits 1 sequence), (encode_fits 2 msgtype)
      by assumption.
    reflexivity. }
  split.
  { rewrite set_size_spec by lia. rewrite Hlen. fold N.
    by rewrite (encode_fits 2 N HN). }
  split; [apply deconstruct_from_total; [apply MSGHEADER_ok|lia]|].
  unfold q.
  rewrite (bytearray_header_packet msgtype tagged source res_required
             ack_required sequence pl (le_bytes 2 N)).
  set (pay := concat (map data (parameters pl))).
  set (proto := le_bytes 2 (protocol_bits tagged)).
  set (resp := le_bytes 1 (resp_bits ack_required res_required)).
  match goal with |- context [length ?l] => set (L := l) end.
  assert (H0 : from_bytes (py_slice L 0 2) = Z.of_nat (length L)).
  { transitivity N.
    - rewrite <- (from_bytes_le_bytes_fits 2 N HN).
      apply (from_bytes_slice_at [] (le_bytes 2 N)); [reflexivity|].
      by rewrite le_bytes_length.
    - unfold L, N, pay, proto, resp. rewrite Part_len_bytes, !length_app, !le_bytes_length. lia. }
  assert (H2 : from_bytes (py_slice L 2 4) = protocol_bits tagged).
  { unfold L. rewrite (from_bytes_slice_at (le_bytes 2 N) proto);
      rewrite ?le_bytes_length; try reflexivity.
    apply from_bytes_le_bytes_fits. destruct tagged; unfold fits; vm_compute; (split; [discriminate|reflexivity]). }
  assert (H4 : from_bytes (py_slice L 4 8) = source).
  { replace L with ((le_bytes 2 N ++ proto) ++ le_bytes 4 source
                    ++ le_bytes 8 0 ++ le_bytes 6 0 ++ resp ++ le_bytes 1 sequence
                    ++ le_bytes 8 0 ++ le_bytes 2 msgtype ++ le_bytes 2 0 ++ pay)
      by (unfold L; rewrite <- !app_assoc; reflexivity).
    rewrite from_bytes_slice_at; rewrite ?length_app, ?le_bytes_length;
      try reflexivity.
    by apply from_bytes_le_bytes_fits. }
  assert (H8 : from_bytes (py_slice L 8 16) = 0).
  { replace L with ((le_bytes 2 N ++ proto ++ le_bytes 4 source)
                    ++ le_bytes 8 0 ++ le_bytes 6 0 ++ resp ++ le_bytes 1 sequence
                    ++ le_bytes 8 0 ++ le_bytes 2 msgtype ++ le_bytes 2 0 ++ pay)
      by (unfold L; rewrite <- !app_assoc; reflexivity).
    rewrite from_bytes_slice_at; rewrite ?length_app, ?le_bytes_length;
      try reflexivity. }
  assert (H22 : from_bytes (py_slice L 22 23) = resp_bits ack_required res_required).
  { replace L with ((le_bytes 2 N ++ proto ++ le_bytes 4 source
                     ++ le_bytes 8 0 ++ le_bytes 6 0)
                    ++ resp ++ le_bytes 1 sequence
                    ++ le_bytes 8 0 ++ le_bytes 2 msgtype ++ le_bytes 2 0 ++ pay)
      by (unfold L; rewrite <- !app_assoc; reflexivity).
    rewrite from_bytes_slice_at; rewrite ?length_app, ?le_bytes_length;
      try reflexivity.
    apply from_bytes_le_bytes_fits.
    destruct ack_required, res_required; unfold fits; vm_compute;
      (split; [discriminate|reflexivity]). }
  assert (H23 : from_bytes (py_slice L 23 24) = sequence).
  { replace L with ((le_bytes 2 N ++ proto ++ le_bytes 4 source
                     ++ le_bytes 8 0 ++ le_bytes 6 0 ++ resp)
                    ++ le_bytes 1 sequence
                    ++ le_bytes 8 0 ++ le_bytes 2 msgtype ++ le_bytes 2 0 ++ pay)
      by (unfold L; rewrite <- !app_assoc; reflexivity).
    rewrite from_bytes_slice_at; rewrite ?length_app, ?le_bytes_length;
      try reflexivity.
    by apply from_bytes_le_bytes_fits. }
  assert (H32 : from_bytes (py_slice L 32 34) = msgtype).
  { replace L with ((le_bytes 2 N ++ proto ++ le_bytes 4 source
                     ++ le_bytes 8 0 ++ le_bytes 6 0 ++ resp
                     ++ le_bytes 1 sequence ++ le_bytes 8 0)
                    ++ le_bytes 2 msgtype ++ le_bytes 2 0 ++ pay)
      by (unfold L; rewrite <- !app_assoc; reflexivity).
    rewrite from_bytes_slice_at; rewrite ?length_app, ?le_bytes_length;
      try reflexivity.
    by apply from_bytes_le_bytes_fits. }
  assert (H34 : from_bytes (py_slice L 34 36) = 0).
  { replace L with ((le_bytes 2 N ++ proto ++ le_bytes 4 source
                     ++ le_bytes 8 0 ++ le_bytes 6 0 ++ resp
                     ++ le_bytes 1 sequence ++ le_bytes 8 0 ++ le_bytes 2 msgtype)
                    ++ le_bytes 2 0 ++ pay)
      by (unfold L; rewrite <- !app_assoc; reflexivity).
    rewrite from_bytes_slice_at; rewrite ?length_app, ?le_bytes_length;
      try reflexivity. }
  clearbody L.
  rewrite !py_dict_lookup.
  cbn [decoded_from MSGHEADER lookup_last String.eqb Ascii.eqb Bool.eqb
       sum_values fold_left snd fst app sub_values].
  change (0 + 16 `div` 8) with 2.
  change (2 + (0 + 2 + 1 + 1 + 12) `div` 8) with 4.
  change (4 + 32 `div` 8) with 8.
  change (8 + 64 `div` 8) with 16.
  change (16 + 48 `div` 8) with 22.
  change (22 + (0 + 6 + 1 + 1) `div` 8) with 23.
  change (23 + 8 `div` 8) with 24.
  change (24 + 64 `div` 8) with 32.
  change (32 + 16 `div` 8) with 34.
  change (34 + 16 `div` 8) with 36.
  rewrite H0, H2, H4, H8, H22, H23, H32, H34.
  repeat split;
    solve [reflexivity
          | destruct tagged; reflexivity
          | destruct ack_required, res_required; reflexivity].
Qed.

Lemma setitems_length vals : forall self i r,
  setitems self i vals = Ok r -> length r = length self.
Proof.
  induction vals as [|v vals IH]; intros self i r H; cbn [setitems] in H.
  - by inversion H.
  - destruct (byte_of_int v) as [b|]; [|discriminate].
    destruct (i <? length self)%nat; [|discriminate].
    apply IH in H. by rewrite length_insert in H.
Qed.

Lemma Parameter_init_length key values length reverse p :
  Parameter_init key values length reverse = Ok p ->
  name p = key /\ Z.of_nat (List.length (data p)) = length.
Proof.
  unfold Parameter_init. intros H.
  destruct (length <? 0) eqn:E; [discriminate|]. apply Z.ltb_ge in E.
  destruct (truthy values).
  - apply bind_Ok in H as (vals & _ & H).
    apply bind_Ok in H as (self & Hs & H). inversion H; subst p.
    apply setitems_length in Hs. cbn [name data].
    rewrite Hs, length_replicate. split; [done|lia].
  - inversion H; subst p. cbn [name data]. rewrite length_replicate.
    split; [done|lia].
Qed.

(** X3.  Whatever the values are, a [Parameter] that is constructed has the
    name given and exactly [length] bytes: values that need more raise, and
    fewer are zero-filled.  A negative [length] raises [ValueError]. *)
Theorem Parameter_has_length key values length reverse :
  (forall p,
      Parameter_init key values length reverse = Ok p ->
      name p = key /\ Z.of_nat (List.length (data p)) = length)
  /\ (length < 0 -> Parameter_init key values length reverse = Raise ValueError).
Proof.
  split; [apply Parameter_init_length|].
  intros Hn. unfold Parameter_init. by replace (length <? 0) with true by lia.
Qed.

Lemma Forall_rev_range (l : list Z) :
  Forall (fun d => 0 <= d < 256) l -> Forall (fun d => 0 <= d < 256) (rev l).
Proof. apply Stdlib.Lists.List.Forall_rev. Qed.

Lemma Parameter_init_int_rev key z length :
  0 <= length -> 0 <= z < 256 ^ length ->
  Parameter_init key (VInt z) length true
  = Ok {| name := key; data := rev (le_bytes (Z.to_nat length) z) |}.
Proof.
  intros Hlen [Hz0 Hz]. unfold Parameter_init.
  replace (length <? 0) with false by lia.
  destruct (Z.eq_dec z 0) as [->|Hne].
  - cbn [truthy Z.eqb negb]. do 2 f_equal. unfold le_bytes.
    rewrite le_digits_zero, map_replicate.
    change (byte_of_Z 0) with Byte.x00.
    generalize (Z.to_nat length). intros n. induction n as [|n IH]; [done|].
    cbn [replicate rev]. rewrite <- IH. by rewrite replicate_snoc.
  - assert (Hpos : 0 < z) by lia.
    cbn [truthy]. replace (z =? 0) with false by lia. cbn [negb].
    rewrite to_bytearray_pos by done.
    destruct (byte_count_bounds z Hpos) as (Hk & Hlo & Hhi).
    cbn [mbind result_bind]. rewrite le_digits_length.
    assert (byte_count z <= length).
    { apply Z.nlt_ge. intros Hc.
      assert (256 ^ length <= 256 ^ (byte_count z - 1)) by (apply Z.pow_le_mono_r; lia).
      lia. }
    rewrite <- le_digits_small by (rewrite Z2Nat.id by lia; lia).
    replace (Z.to_nat (byte_count z) + Z.to_nat (length - Z.of_nat (Z.to_nat (byte_count z))))%nat
      with (Z.to_nat length) by lia.
    rewrite setitems_ok; [|apply Forall_rev_range, le_digits_range|].
    2:{ rewrite length_replicate, length_rev, le_digits_length. lia. }
    cbn [take app]. rewrite drop_ge.
    2:{ rewrite length_replicate, length_rev, le_digits_length. lia. }
    rewrite app_nil_r. unfold le_bytes. by rewrite map_rev.
Qed.

(** X4.  An int that fits is stored in [length] bytes, little-endian, or
    big-endian with [reverse=True], and read back by [int.from_bytes]. *)
Theorem Parameter_int_roundtrip key z length reverse :
  0 <= length -> 0 <= z < 256 ^ length ->
  exists p,
    Parameter_init key (VInt z) length reverse = Ok p
    /\ name p = key
    /\ List.length (data p) = Z.to_nat length
    /\ from_bytes (if reverse then rev (data p) else data p) = z.
Proof.
  intros Hlen Hz.
  assert (Hv : from_bytes (le_bytes (Z.to_nat length) z) = z).
  { apply from_bytes_le_bytes_fits. unfold fits. by rewrite Z2Nat.id. }
  destruct reverse.
  - eexists. split; [by apply Parameter_init_int_rev|].
    cbn [name data]. rewrite rev_involutive, length_rev, le_bytes_length. done.
  - eexists. split.
    + rewrite Parameter_init_int by done. rewrite encode_fits by done. reflexivity.
    + cbn [name data]. by rewrite le_bytes_length.
Qed.

Lemma Parameter_int_roundtrip_witness :
  exists p,
    Parameter_init "hue" (VInt 43690) 2 true = Ok p
    /\ name p = "hue"
    /\ List.length (data p) = Z.to_nat 2
    /\ from_bytes (if true then rev (data p) else data p) = 43690.
Proof.
  apply (Parameter_int_roundtrip "hue" 43690 2 true); [lia|].
  change (256 ^ 2) with 65536. lia.
Defined.

(** X5.  A list of byte values is stored as it is, zero-filled up to
    [length], and [reverse] has no effect on it; a list longer than
    [length] raises [IndexError], an empty list gives zero bytes. *)
Theorem Parameter_list_values key l length reverse :
  0 <= length ->
  Forall (fun d => 0 <= d < 256) l ->
  Parameter_init key (VList l) length reverse
  = if bool_decide (Z.of_nat (List.length l) <= length)
    then Ok {| name := key;
               data := map byte_of_Z l
                       ++ replicate (Z.to_nat length - List.length l) Byte.x00 |}
    else Raise IndexError.
Proof.
  intros Hlen Hr. unfold Parameter_init.
  replace (length <? 0) with false by lia.
  destruct l as [|v l].
  - cbn [truthy]. rewrite bool_decide_eq_true_2 by done. cbn [negb].
    rewrite bool_decide_eq_true_2 by (cbn; lia).
    cbn [map app List.length]. by rewrite Nat.sub_0_r.
  - cbn [truthy]. rewrite bool_decide_eq_false_2 by done. cbn [negb mbind result_bind].
    destruct (decide (Z.of_nat (List.length (v :: l)) <= length)) as [Hle|Hgt].
    + rewrite bool_decide_eq_true_2 by done.
      rewrite setitems_ok; [|done|rewrite length_replicate; lia].
      cbn [take app]. rewrite drop_replicate. repeat f_equal; cbn [List.length]; lia.
    + rewrite bool_decide_eq_false_2 by done.
      rewrite setitems_IndexError; [done|done|].
      rewrite length_replicate. lia.
Qed.

Lemma Parameter_list_values_witness :
  Parameter_init "protocol" (VList [0; 52]) 2 true
  = Ok {| name := "protocol"; data := [Byte.x00; Byte.x34] |}
  /\ Parameter_init "protocol" (VList [0; 52; 1]) 2 false = Raise IndexError.
Proof.
  split.
  - rewrite (Parameter_list_values "protocol" [0; 52] 2 true);
      [reflexivity|lia|repeat constructor; lia].
  - rewrite (Parameter_list_values "protocol" [0; 52; 1] 2 false);
      [reflexivity|lia|repeat constructor; lia].
Defined.

(** X6.  [to_bytearray(num)] with the default [bitlength] gives the shortest
    little-endian rendering of a non-negative [num]: its bytes read back as
    [num], and no shorter sequence can hold it ([0] gives no byte at all).
    A negative [num] raises [OverflowError], [bitlength=0] raises
    [ZeroDivisionError], and with [bitlength=16] the byte count is too
    small for every [num] from 256 to 65535. *)
Theorem to_bytearray_shortest :
  (forall num, 0 <= num ->
     exists ds,
       to_bytearray num 8 = Ok ds
       /\ Forall (fun d => 0 <= d < 256) ds
       /\ from_bytes (map byte_of_Z ds) = num
       /\ num < 256 ^ Z.of_nat (length ds)
       /\ (forall k, 0 <= k -> num < 256 ^ k -> Z.of_nat (length ds) <= k))
  /\ (forall num, num < 0 -> to_bytearray num 8 = Raise OverflowError)
  /\ (forall num, to_bytearray num 0 = Raise ZeroDivisionError)
  /\ (forall num, 256 <= num < 65536 -> to_bytearray num 16 = Raise OverflowError).
Proof.
  split; [|split; [exact to_bytearray_neg|split; [done|]]].
  - intros num Hn. destruct (Z.eq_dec num 0) as [->|Hne].
    + exists []. repeat split; try done.
    + assert (Hpos : 0 < num) by lia.
      destruct (byte_count_bounds num Hpos) as (Hk & Hlo & Hhi).
      exists (le_digits (Z.to_nat (byte_count num)) num).
      rewrite le_digits_length, Z2Nat.id by lia.
      split; [by apply to_bytearray_pos|].
      split; [apply le_digits_range|].
      split.
      { fold (le_bytes (Z.to_nat (byte_count num)) num).
        apply from_bytes_le_bytes_fits. unfold fits. rewrite Z2Nat.id by lia. lia. }
      split; [lia|].
      intros k Hk0 Hlt. apply Z.nlt_ge. intros Hc.
      assert (256 ^ k <= 256 ^ (byte_count num - 1)) by (apply Z.pow_le_mono_r; lia).
      lia.
  - intros num [Hlo Hhi]. unfold to_bytearray, int_to_bytes.
    change (16 =? 0) with false. cbv iota.
    pose proof (bit_length_bounds num ltac:(lia)) as [Bl Bh].
    assert (H1 : 8 < bit_length num).
    { apply Z.nle_gt. intros Hc.
      assert (2 ^ bit_length num <= 2 ^ 8) by (apply Z.pow_le_mono_r; lia). lia. }
    assert (H2 : bit_length num <= 16).
    { apply Z.nlt_ge. intros Hc.
      assert (2 ^ 16 <= 2 ^ (bit_length num - 1)) by (apply Z.pow_le_mono_r; lia).
      lia. }
    replace ((bit_length num + 16 - 1) / 16) with 1
      by (apply Z.div_unique with (bit_length num - 1); lia).
    change (1 <? 0) with false. replace (num <? 0) with false by lia.
    by replace (256 ^ 1 <=? num) with true by lia.
Qed.

Lemma bytearray_prepend self (par : Param) :
  bytearray (with_frame self {| parameters := par :: parameters (frame self) |})
  = data par ++ bytearray self.
Proof.
  unfold bytearray, get_parts, with_frame.
  cbn [frame frame_address protocol_header payload parameters map concat].
  by rewrite <- app_assoc.
Qed.

Lemma Packet_len_prepend self (par : Param) :
  Packet_len (with_frame self {| parameters := par :: parameters (frame self) |})
  = Z.of_nat (List.length (data par)) + Packet_len self.
Proof. rewrite !Packet_len_bytes, bytearray_prepend, length_app. lia. Qed.

Lemma size_field_le_bytes z rest :
  fits 2 z -> size_field (le_bytes 2 z ++ rest) = z.
Proof.
  intros Hz. unfold size_field.
  rewrite take_app_length' by (by rewrite le_bytes_length).
  by apply from_bytes_le_bytes_fits.
Qed.

Lemma Packet_len_nonneg self : 0 <= Packet_len self.
Proof. rewrite Packet_len_bytes. lia. Qed.

(** X8.  [set_size(length)] counts [length] bytes for the size field but
    always writes it in two: the field holds [len + length] and the packet
    grows by 2, so the field is the packet's length only for the default
    [length=2].  A negative [length] raises [ValueError]. *)
Theorem set_size_other_length self length :
  (0 <= length -> Packet_len self + length < 65536 ->
   exists p,
     set_size self length = Ok p
     /\ size_field (bytearray p) = Packet_len self + length
     /\ Packet_len p = Packet_len self + 2
     /\ (size_field (bytearray p) = Packet_len p <-> length = 2))
  /\ (length < 0 -> set_size self length = Raise ValueError).
Proof.
  split.
  - intros Hlen Hfit. pose proof (Packet_len_nonneg self) as H0.
    assert (Hf : fits 2 (Packet_len self + length))
      by (unfold fits; change (256 ^ 2) with 65536; lia).
    eexists. split.
    { rewrite set_size_spec by done. rewrite (encode_fits 2 _ Hf). reflexivity. }
    change (Z.to_nat 2) with 2%nat.
    rewrite bytearray_prepend, Packet_len_prepend. cbn [data].
    rewrite size_field_le_bytes by done. rewrite le_bytes_length.
    repeat split; lia.
  - intros Hn. unfold set_size, prepend_param, Parameter_init.
    by replace (length <? 0) with true by lia.
Qed.

(** X9.  [set_size] is not idempotent: a second call puts a second size field
    in front.  The first two bytes then hold the new length, and the
    earlier field, now bytes 2 and 3, still holds the earlier length. *)
Theorem set_size_twice self :
  Packet_len self + 4 < 65536 ->
  exists p1 p2,
    set_size self 2 = Ok p1
    /\ set_size p1 2 = Ok p2
    /\ Packet_len p2 = Packet_len self + 4
    /\ size_field (bytearray p2) = Packet_len self + 4
    /\ from_bytes (py_slice (bytearray p2) 2 4) = Packet_len self + 2
    /\ map name (parameters (frame p2))
       = "size" :: "size" :: map name (parameters (frame self)).
Proof.
  intros Hfit. pose proof (Packet_len_nonneg self) as H0.
  assert (Hf1 : fits 2 (Packet_len self + 2))
    by (unfold fits; change (256 ^ 2) with 65536; lia).
  assert (Hf2 : fits 2 (Packet_len self + 2 + 2))
    by (unfold fits; change (256 ^ 2) with 65536; lia).
  set (p1 := with_frame self
               {| parameters := {| name := "size";
                                   data := le_bytes 2 (Packet_len self + 2) |}
                                  :: parameters (frame self) |}).
  assert (Hl1 : Packet_len p1 = Packet_len self + 2).
  { unfold p1. rewrite Packet_len_prepend. cbn [data].
    rewrite le_bytes_length. lia. }
  exists p1. eexists. split.
  { rewrite set_size_spec; [|lia]. rewrite (encode_fits 2 (Packet_len self + 2) Hf1). reflexivity. }
  split.
  { rewrite set_size_spec by lia. rewrite Hl1, (encode_fits 2 _ Hf2). reflexivity. }
  change (Z.to_nat 2) with 2%nat.
  rewrite Packet_len_prepend, Hl1, !bytearray_prepend. cbn [data].
  unfold p1 at 1 2. rewrite !bytearray_prepend. cbn [data].
  rewrite !le_bytes_length.
  rewrite size_field_le_bytes by done.
  rewrite (from_bytes_slice_at (le_bytes 2 (Packet_len self + 2 + 2))
             (le_bytes 2 (Packet_len self + 2)) (bytearray self))
    by (by rewrite le_bytes_length).
  rewrite from_bytes_le_bytes_fits by done.
  repeat split; lia.
Qed.

Lemma headers_101_len : Packet_len (headers 101) + 4 < 65536.
Proof. vm_compute. reflexivity. Qed.

Lemma set_size_twice_witness :
  exists p1 p2,
    set_size (headers 101) 2 = Ok p1
    /\ set_size p1 2 = Ok p2
    /\ Packet_len p2 = Packet_len (headers 101) + 4
    /\ size_field (bytearray p2) = Packet_len (headers 101) + 4
    /\ from_bytes (py_slice (bytearray p2) 2 4) = Packet_len (headers 101) + 2
    /\ map name (parameters (frame p2))
       = "size" :: "size" :: map name (parameters (frame (headers 101))).
Proof. exact (set_size_twice (headers 101) headers_101_len). Defined.

Lemma headers_117 : set_headers_default Packet_init 117 = Ok (headers 117).
Proof. vm_compute. reflexivity. Qed.

Lemma power_spec on duration :
  power on duration =
    (x ← py_mul duration (PyInt 1000); ms ← py_int x; encode 4 ms;;
     Ok (power_packet (if on then 65535 else 0) ms)).
Proof.
  unfold power. rewrite headers_117, tobytes_16, tobytes_32. step_bind.
  cbn [py_int]. step_bind. unfold append_param.
  rewrite (Parameter_init_int "level" (65535 * Z.b2z on) 2) by lia.
  rewrite (encode_fits 2 (65535 * Z.b2z on))
    by (destruct on; cbn [Z.b2z]; change (256 ^ 2) with 65536; lia).
  step_bind.
  destruct (py_mul duration (PyInt 1000)) as [x|?]; step_bind; [|reflexivity].
  destruct (py_int x) as [ms|?]; step_bind; [|reflexivity].
  rewrite (Parameter_init_int "duration" ms 4) by lia.
  destruct (encode 4 ms) as [?|?] eqn:E; step_bind; [|reflexivity].
  apply encode_Ok in E as [_ ->].
  rewrite set_size_spec by lia.
  match goal with |- context [Packet_len ?p] =>
    replace (Packet_len p) with 40 by (vm_compute; reflexivity) end.
  rewrite (encode_fits 2 (40 + 2)) by (change (256 ^ 2) with 65536; lia).
  destruct on; reflexivity.
Qed.

(** X11.  [Packet.power(power, duration)] for a duration from 0 to 4294967
    seconds is a SetLightPower packet, type 117, of 42 bytes, with level
    0xFFFF for on and 0 for off and the duration in milliseconds; an int
    duration below 0 raises [OverflowError], one above 4294967 raises
    [IndexError].  [Packet.fastpwr(power)] is a SetPower packet, type 21, of
    38 bytes with the same level. *)
Theorem power_packets on :
  (forall duration,
      duration_in_range duration ->
      exists ms p,
        (x ← py_mul duration (PyInt 1000); py_int x) = Ok ms
        /\ power on duration = Ok p
        /\ msgtype p = Ok 117
        /\ field (payload p) "level" = Some (if on then 65535 else 0)
        /\ field (payload p) "duration" = Some ms
        /\ size_field (bytearray p) = 42
        /\ length (bytearray p) = 42%nat)
  /\ (forall z, z < 0 -> power on (PyInt z) = Raise OverflowError)
  /\ (forall z, 4294967 < z -> power on (PyInt z) = Raise IndexError)
  /\ (exists p,
        fastpwr on = Ok p
        /\ msgtype p = Ok 21
        /\ field (payload p) "level" = Some (if on then 65535 else 0)
        /\ size_field (bytearray p) = 38
        /\ length (bytearray p) = 38%nat).
Proof.
  split; [|split; [|split]].
  - intros duration Hd.
    destruct (duration_ms_in_range duration Hd) as (x & ms & Hx & Hms & Hr & _).
    assert (Hf : fits 4 ms)
      by (unfold fits; change (256 ^ 4) with 4294967296; lia).
    exists ms, (power_packet (if on then 65535 else 0) ms).
    split; [by rewrite Hx|].
    split.
    { rewrite power_spec, Hx. step_bind. rewrite Hms. step_bind.
      by rewrite (encode_fits 4 ms Hf). }
    split; [reflexivity|].
    unfold power_packet, field.
    cbn [payload with_frame with_payload parameters find name String.eqb
         Ascii.eqb Bool.eqb data].
    rewrite !from_bytes_le_bytes_fits
      by (done || (destruct on; unfold fits; vm_compute;
                   (split; [discriminate|reflexivity]))).
    split; [done|]. split; [done|].
    split; [destruct on; reflexivity|].
    unfold bytearray, get_parts.
    cbn [frame frame_address protocol_header payload with_frame with_payload
         parameters map concat data].
    rewrite !length_app, !le_bytes_length. reflexivity.
  - intros z Hz. rewrite power_spec. cbn [py_mul]. step_bind. cbn [py_int]. step_bind.
    unfold encode. replace (z * 1000 <? 0) with true by lia. reflexivity.
  - intros z Hz. rewrite power_spec. cbn [py_mul]. step_bind. cbn [py_int]. step_bind.
    unfold encode. replace (z * 1000 <? 0) with false by lia.
    change (256 ^ 4) with 4294967296.
    replace (4294967296 <=? z * 1000) with true by lia. reflexivity.
  - destruct on; eexists; (split; [vm_compute; reflexivity|]);
      repeat split; vm_compute; reflexivity.
Qed.

(** X12.  [send_packet] and [send_recieve_packet] read [bytestring.msgtype] for
    the log line before anything is sent: with [silent=False] a packet
    that has no message type raises [StopIteration] and no datagram goes
    out.  Otherwise exactly one datagram, the serialized packet, is sent;
    [send_packet] returns its length, [send_recieve_packet] consumes one
    reply and returns its first 255 bytes, or raises [socket.timeout]
    with the datagram already sent. *)
Theorem transport_sends_once device p silent s :
  (silent = false -> msgtype p = Raise StopIteration ->
   send_packet device p silent s = (Raise StopIteration, s)
   /\ send_recieve_packet device p silent s = (Raise StopIteration, s))
  /\ (silent = true \/ (exists z, msgtype p = Ok z) ->
      send_packet device p silent s
      = (Ok (Z.of_nat (length (bytearray p))),
         {| handler := handler s;
            world := send device (bytearray p) (world s) |})
      /\ send_recieve_packet device p silent s
         = (received (world s),
            {| handler := handler s;
               world := next_reply (send device (bytearray p) (world s)) |})).
Proof.
  destruct s as [h [snt rep unc]]. split.
  - intros -> Hm. unfold send_packet, send_recieve_packet.
    unfold_M. rewrite Hm. done.
  - intros H.
    assert (Hlog : (if silent then mret 0 else lift (msgtype p))
                     {| handler := h;
                        world := {| sent := snt; replies := rep; uncaught := unc |} |}
                   = (Ok (if silent then 0 else default 0
                                                  (match msgtype p with
                                                   | Ok z => Some z
                                                   | Raise _ => None
                                                   end)),
                      {| handler := h;
                         world := {| sent := snt; replies := rep; uncaught := unc |} |})).
    { destruct silent; [reflexivity|].
      destruct H as [?|[z Hz]]; [done|]. unfold lift. by rewrite Hz. }
    unfold send_packet, send_recieve_packet, received, send, next_reply.
    cbv [mbind M_bind]. rewrite Hlog.
    unfold sock_send, sock_recv. cbn [handler world sent replies uncaught].
    split; [reflexivity|].
    destruct rep as [|[d|] rest]; reflexivity.
Qed.

(** A slice with ends that are not negative, whatever the length. *)
Lemma py_slice_nonneg {A} (l : list A) i j :
  0 <= i <= j ->
  py_slice l i j = take (Z.to_nat (j - i)) (drop (Z.to_nat i) l).
Proof.
  intros Hij. unfold py_slice.
  replace (i <? 0) with false by lia. replace (j <? 0) with false by lia.
  destruct (Z.le_gt_cases j (Z.of_nat (length l))) as [Hj|Hj].
  - by rewrite !Z.min_l by lia.
  - rewrite (Z.min_r j) by lia.
    destruct (Z.le_gt_cases i (Z.of_nat (length l))) as [Hi|Hi].
    + rewrite Z.min_l by lia.
      assert (Hd : length (drop (Z.to_nat i) l) = Z.to_nat (Z.of_nat (length l) - i))
        by (rewrite length_drop; lia).
      rewrite !take_ge; [done|lia|lia].
    + rewrite Z.min_r by lia. rewrite Z.sub_diag. cbn [Z.to_nat take].
      rewrite !drop_ge by lia. by rewrite !take_nil.
Qed.

Lemma py_slice_take {A} (l : list A) n i j :
  0 <= i <= j -> j <= Z.of_nat n ->
  py_slice (take n l) i j = py_slice l i j.
Proof.
  intros Hij Hn. rewrite !py_slice_nonneg by done.
  rewrite skipn_firstn_comm, take_take. f_equal. lia.
Qed.

Lemma reading_state_response header h s b k r p rest :
  length header = 36%nat ->
  fits 2 h -> fits 2 s -> fits 2 b -> fits 2 k -> fits 2 p ->
  let st := reading (state_response header h s b k r p rest) in
  st !! "hue" = Some h /\ st !! "saturation" = Some s
  /\ st !! "brightness" = Some b /\ st !! "kelvin" = Some k
  /\ st !! "power" = Some p.
Proof.
  intros Hh Fh Fs Fb Fk Fp. cbv zeta.
  pose proof (reading_fields (state_response header h s b k r p rest))
    as (H1 & H2 & H3 & H4 & H5). cbv zeta in *.
  rewrite H1, H2, H3, H4, H5.
  rewrite !py_slice_take by lia.
  unfold state_response.
  rewrite (from_bytes_slice_at header (le_bytes 2 h))
    by (rewrite ?le_bytes_length; lia).
  replace (header ++ le_bytes 2 h ++ le_bytes 2 s ++ le_bytes 2 b ++ le_bytes 2 k
           ++ le_bytes 2 r ++ le_bytes 2 p ++ rest)
    with ((header ++ le_bytes 2 h) ++ le_bytes 2 s ++ le_bytes 2 b ++ le_bytes 2 k
          ++ le_bytes 2 r ++ le_bytes 2 p ++ rest) at 1
    by (rewrite <- !app_assoc; reflexivity).
  rewrite (from_bytes_slice_at (header ++ le_bytes 2 h) (le_bytes 2 s))
    by (rewrite ?length_app, ?le_bytes_length; lia).
  replace (header ++ le_bytes 2 h ++ le_bytes 2 s ++ le_bytes 2 b ++ le_bytes 2 k
           ++ le_bytes 2 r ++ le_bytes 2 p ++ rest)
    with ((header ++ le_bytes 2 h ++ le_bytes 2 s) ++ le_bytes 2 b ++ le_bytes 2 k
          ++ le_bytes 2 r ++ le_bytes 2 p ++ rest) at 1
    by (rewrite <- !app_assoc; reflexivity).
  rewrite (from_bytes_slice_at (header ++ le_bytes 2 h ++ le_bytes 2 s) (le_bytes 2 b))
    by (rewrite ?length_app, ?le_bytes_length; lia).
  replace (header ++ le_bytes 2 h ++ le_bytes 2 s ++ le_bytes 2 b ++ le_bytes 2 k
           ++ le_bytes 2 r ++ le_bytes 2 p ++ rest)
    with ((header ++ le_bytes 2 h ++ le_bytes 2 s ++ le_bytes 2 b) ++ le_bytes 2 k
          ++ le_bytes 2 r ++ le_bytes 2 p ++ rest) at 1
    by (rewrite <- !app_assoc; reflexivity).
  rewrite (from_bytes_slice_at (header ++ le_bytes 2 h ++ le_bytes 2 s ++ le_bytes 2 b)
             (le_bytes 2 k))
    by (rewrite ?length_app, ?le_bytes_length; lia).
  replace (header ++ le_bytes 2 h ++ le_bytes 2 s ++ le_bytes 2 b ++ le_bytes 2 k
           ++ le_bytes 2 r ++ le_bytes 2 p ++ rest)
    with ((header ++ le_bytes 2 h ++ le_bytes 2 s ++ le_bytes 2 b ++ le_bytes 2 k
           ++ le_bytes 2 r) ++ le_bytes 2 p ++ rest)
    by (rewrite <- !app_assoc; reflexivity).
  rewrite (from_bytes_slice_at (header ++ le_bytes 2 h ++ le_bytes 2 s ++ le_bytes 2 b
                                ++ le_bytes 2 k ++ le_bytes 2 r) (le_bytes 2 p))
    by (rewrite ?length_app, ?le_bytes_length; lia).
  rewrite !from_bytes_le_bytes_fits by assumption.
  repeat split; reflexivity.
Qed.

(** X13.  [get_state] sends one GetColor query (type 101, 36 bytes) and reads
    the fields of the reply at their offsets behind the 36 header bytes:
    what the device put there as hue, saturation, brightness, kelvin and
    power is what the mapping holds.  The handler is not touched. *)
Theorem get_state_reads_response device silent s header h sat b k r p rest more :
  length header = 36%nat ->
  fits 2 h -> fits 2 sat -> fits 2 b -> fits 2 k -> fits 2 p ->
  replies (world s) = Some (state_response header h sat b k r p rest) :: more ->
  exists st s',
    Lifx.get_state device silent s = (Ok st, s')
    /\ st !! "hue" = Some h /\ st !! "saturation" = Some sat
    /\ st !! "brightness" = Some b /\ st !! "kelvin" = Some k
    /\ st !! "power" = Some p
    /\ handler s' = handler s
    /\ sent (world s') = sent (world s) ++ [(device, bytearray query_packet)]
    /\ replies (world s') = more
    /\ msgtype query_packet = Ok 101
    /\ length (bytearray query_packet) = 36%nat.
Proof.
  intros Hh Fh Fs Fb Fk Fp Hr.
  pose proof (reading_state_response header h sat b k r p rest Hh Fh Fs Fb Fk Fp)
    as (H1 & H2 & H3 & H4 & H5). cbv zeta in *.
  rewrite get_state_spec, Hr. do 2 eexists. split; [reflexivity|].
  fold (reading (state_response header h sat b k r p rest)).
  cbn [handler world sent replies next_reply send]. rewrite Hr.
  repeat split; done.
Qed.

Lemma get_state_reads_response_witness :
  exists st s',
    Lifx.get_state Taklampa true answering_example = (Ok st, s')
    /\ st !! "hue" = Some 120 /\ st !! "saturation" = Some 0
    /\ st !! "brightness" = Some 30000 /\ st !! "kelvin" = Some 3500
    /\ st !! "power" = Some 65535
    /\ handler s' = handler answering_example
    /\ sent (world s')
       = sent (world answering_example) ++ [(Taklampa, bytearray query_packet)]
    /\ replies (world s') = []
    /\ msgtype query_packet = Ok 101
    /\ length (bytearray query_packet) = 36%nat.
Proof.
  apply (get_state_reads_response Taklampa true answering_example
           (bytearray query_packet) 120 0 30000 3500 0 65535 [] []);
    try reflexivity; unfold fits; change (256 ^ 2) with 65536; lia.
Defined.


Lemma all_from_spec test n : forall from z,
  all_from test n from = true -> from <= z < from + Z.of_nat n -> test z = true.
Proof.
  induction n as [|n IH]; intros from z H Hz; [lia|].
  cbn [all_from] in H. apply andb_prop in H as [H1 H2].
  destruct (Z.eq_dec z from) as [->|Hne]; [done|].
  apply (IH (from + 1)); [done|lia].
Qed.

Lemma restored_all : all_from restored_same (Z.to_nat 65536) 0 = true.
Proof. vm_compute. reflexivity. Qed.

(** The two roundings of [(lb / 0xFFFF) * 0xFFFF] never lose the
    brightness: every 16-bit value comes back as it was. *)
Lemma restored_exact lb : 0 <= lb <= 65535 -> restored lb = Ok lb.
Proof.
  intros H. pose proof (all_from_spec _ _ 0 lb restored_all ltac:(lia)) as Hs.
  unfold restored_same in Hs. destruct (restored lb) as [b|]; [|discriminate].
  apply Z.eqb_eq in Hs. by subst.
Qed.

(** The colour of a reading, as [brightness] reads it with [dict.get]. *)
Lemma reading_colour d :
  exists h sat k,
    reading d !! "hue" = Some h
    /\ reading d !! "saturation" = Some sat
    /\ reading d !! "kelvin" = Some k
    /\ fits 2 h /\ fits 2 sat /\ fits 2 k
    /\ dict_get (reading d) "hue" 0 = h
    /\ dict_get (reading d) "saturation" 0 = sat
    /\ dict_get (reading d) "kelvin" 3500 = k.
Proof.
  destruct (reading_fits d "hue" ltac:(tauto)) as (vh & Hvh & Fh).
  destruct (reading_fits d "saturation" ltac:(tauto)) as (vs & Hvs & Fs).
  destruct (reading_fits d "kelvin" ltac:(tauto)) as (vk & Hvk & Fk).
  exists vh, vs, vk. unfold dict_get. rewrite Hvh, Hvs, Hvk.
  do 3 (split; [reflexivity|]).
  split; [exact Fh|]. split; [exact Fs|]. split; [exact Fk|].
  repeat split; reflexivity.
Qed.

(** X15.  On a dimmed controller, [motion] with a cached reading sends exactly
    one datagram: the set-color datagram that carries the cached hue,
    saturation, brightness and kelvin unchanged, each at its offset,
    whatever the cached brightness is, with a ramp of 100 ms; the device
    is not queried, both timers are stopped and the controller is
    Active. *)
Theorem motion_restores_cached_state s d :
  is_active (handler s) = false ->
  last_state (handler s) = reading d ->
  exists h sat b k datagram s',
    reading d !! "hue" = Some h
    /\ reading d !! "saturation" = Some sat
    /\ reading d !! "brightness" = Some b
    /\ reading d !! "kelvin" = Some k
    /\ datagram = set_color_datagram h sat b k 100
    /\ motion s = (Ok tt, s')
    /\ sent (world s') = sent (world s) ++ [(Taklampa, datagram)]
    /\ replies (world s') = replies (world s)
    /\ length datagram = 49%nat
    /\ from_bytes (py_slice datagram 32 34) = 102
    /\ from_bytes (py_slice datagram 37 39) = h
    /\ from_bytes (py_slice datagram 39 41) = sat
    /\ from_bytes (py_slice datagram 41 43) = b
    /\ from_bytes (py_slice datagram 43 45) = k
    /\ from_bytes (py_slice datagram 45 49) = 100
    /\ is_active (handler s') = true
    /\ is_alive (timer (handler s')) = false
    /\ is_alive (fading_timer (handler s')) = false
    /\ last_state (handler s') = reading d.
Proof.
  intros Ha Hd. rewrite (motion_inactive s Ha). cbv zeta.
  destruct (reading_colour d) as (vh & vs & vk & Hvh & Hvs & Hvk & Fh & Fs & Fk & Gh & Gs & Gk).
  destruct (reading_fits d "brightness" ltac:(tauto)) as (vb & Hvb & Fb).
  assert (Hrange : 0 <= vb <= 65535)
    by (unfold fits in Fb; change (256 ^ 2) with 65536 in Fb; lia).
  pose proof (restored_exact vb Hrange) as Hres. unfold restored in Hres.
  rewrite Hd, Hvb.
  destruct (py_truediv (PyInt vb) (PyInt 65535)) as [level|] eqn:El;
    [|discriminate]. cbn [mbind result_bind] in Hres.
  assert (Hls : last_state (cancel_timers (handler s)) = reading d) by exact Hd.
  rewrite (brightness_cached _ _ _ vb 100); cbn [handler world];
    rewrite ?Hls, ?Gh, ?Gs, ?Gk;
    [|exact (lookup_nonempty _ _ _ Hvb)|exact Hres|exact ramp_default
     |exact Fh|exact Fs|exact Fb|exact Fk|unfold fits; lia].
  rewrite bytearray_state_packet.
  destruct (set_color_datagram_fields vh vs vb vk 100
              Fh Fs Fb Fk ltac:(unfold fits; lia))
    as (Hlen & _ & Hm & Hfh & Hfs & Hfb & Hfk & Hfd).
  exists vh, vs, vb, vk. eexists. eexists.
  do 6 (split; [first [assumption | reflexivity]|]).
  cbn [handler world send sent replies is_active set_is_active timer
       fading_timer last_state cancel_timers set_timer set_fading_timer].
  rewrite !is_alive_cancel_if_alive.
  repeat split; assumption || reflexivity.
Qed.

Lemma motion_restores_cached_state_witness :
  exists s',
    motion dimmed_example = (Ok tt, s')
    /\ sent (world s') = [(Taklampa, set_color_datagram 120 0 40000 3500 100)]
    /\ from_bytes (py_slice (set_color_datagram 120 0 40000 3500 100) 41 43) = 40000
    /\ is_active (handler s') = true.
Proof.
  destruct (motion_restores_cached_state dimmed_example bright_response eq_refl eq_refl)
    as (h & sat & b & k & datagram & s' & Hh & Hs & Hb & Hk & Hd & H1 & H2 & _ & _ & _
        & _ & _ & H5 & _ & _ & H8 & _).
  assert (Eh : h = 120) by (vm_compute in Hh; congruence).
  assert (Es : sat = 0) by (vm_compute in Hs; congruence).
  assert (Eb : b = 40000) by (vm_compute in Hb; congruence).
  assert (Ek : k = 3500) by (vm_compute in Hk; congruence).
  subst datagram h sat k. rewrite Eb in *.
  exists s'. repeat split; assumption.
Defined.

(** [timeout]: the controller is marked inactive first; when the
    brightness command goes through, a new fading timer is started and
    [is_fading] set. *)
Lemma timeout_spec s fade :
  total_seconds (fadetime (handler s)) = Ok fade ->
  timeout s =
    match brightness dark fade
            {| handler := set_is_active false (handler s); world := world s |}
    with
    | (Ok _, s2) =>
        (Ok tt,
         {| handler := set_is_fading true
                         (set_fading_timer (start (Timer_init fade)) (handler s2));
            world := world s2 |})
    | (Raise e, s2) => (Raise e, s2)
    end.
Proof.
  intros Hf. unfold timeout. unfold_M. cbn [fadetime set_is_active].
  rewrite Hf.
  pose proof (brightness_handler dark fade
                {| handler := set_is_active false (handler s); world := world s |}) as Hh.
  destruct (brightness dark fade _) as [[[]|e] [h2 w2]];
    cbn [snd handler world] in *; subst h2; [|reflexivity].
  cbn [fading_timer set_is_active fadetime].
  destruct (is_alive (fading_timer (handler s)));
    cbn [handler world fadetime set_fading_timer set_is_active fading_timer];
    rewrite Hf; reflexivity.
Qed.

Lemma dim_level : (b ← py_mul dark (PyInt 65535); py_int b) = Ok 655.
Proof. vm_compute. reflexivity. Qed.

(** [timeout] with a cached reading, as a state change. *)
Lemma timeout_cached s fade ms d :
  total_seconds (fadetime (handler s)) = Ok fade ->
  (x ← py_mul fade (PyInt 1000); py_int x) = Ok ms ->
  fits 4 ms ->
  last_state (handler s) = reading d ->
  timeout s =
    (Ok tt,
     {| handler := set_is_fading true
                     (set_fading_timer (start (Timer_init fade))
                        (set_is_active false (handler s)));
        world := send Taklampa
                   (set_color_datagram (dict_get (reading d) "hue" 0)
                      (dict_get (reading d) "saturation" 0) 655
                      (dict_get (reading d) "kelvin" 3500) ms)
                   (world s) |}).
Proof.
  intros Hf Hxm Fms Hls. rewrite (timeout_spec s fade Hf).
  destruct (reading_fits d "hue" ltac:(tauto)) as (vh & Hvh & Fh).
  destruct (reading_fits d "saturation" ltac:(tauto)) as (vs & Hvs & Fs).
  destruct (reading_fits d "kelvin" ltac:(tauto)) as (vk & Hvk & Fk).
  rewrite (brightness_cached _ _ _ 655 ms); cbn [handler world last_state set_is_active];
    rewrite ?Hls; unfold dict_get; rewrite ?Hvh, ?Hvs, ?Hvk; cbn [default];
    [|apply reading_nonempty|exact dim_level|exact Hxm
     |exact Fh|exact Fs|unfold fits; lia|exact Fk|exact Fms].
  rewrite bytearray_state_packet. reflexivity.
Qed.

(** [timeout] with an empty cache: the device is asked for its colour
    first. *)
Lemma timeout_live s fade ms :
  total_seconds (fadetime (handler s)) = Ok fade ->
  (x ← py_mul fade (PyInt 1000); py_int x) = Ok ms ->
  fits 4 ms ->
  last_state (handler s) = ∅ ->
  timeout s =
    match replies (world s) with
    | Some d :: _ =>
        (Ok tt,
         {| handler := set_is_fading true
                         (set_fading_timer (start (Timer_init fade))
                            (set_is_active false (handler s)));
            world := send Taklampa
                       (set_color_datagram (dict_get (reading d) "hue" 0)
                          (dict_get (reading d) "saturation" 0) 655
                          (dict_get (reading d) "kelvin" 3500) ms)
                       (next_reply
                          (send Taklampa (header_bytes 36 101) (world s))) |})
    | _ =>
        (Raise SocketTimeout,
         {| handler := set_is_active false (handler s);
            world := next_reply
                       (send Taklampa (header_bytes 36 101) (world s)) |})
    end.
Proof.
  intros Hf Hxm Fms He. rewrite (timeout_spec s fade Hf).
  rewrite (brightness_live _ _ _ 655 ms);
    [|exact He|exact dim_level|exact Hxm|unfold fits; lia|exact Fms].
  cbn [handler world]. rewrite bytearray_query.
  destruct (replies (world s)) as [|[d|] rest]; reflexivity.
Qed.

(** X16.  [timeout] with a fade time from 0 to 4294967 seconds.  With a cached
    reading it sends exactly one datagram: the set-color datagram with the
    cached hue, saturation and kelvin, the brightness 655 (1 % of full
    scale) in bytes 41-42 and the fade time in milliseconds in bytes
    45-48; then the controller is inactive and fading, with a fresh fading
    timer running for the fade time.  With an empty cache the device is
    queried first: when it answers, the same datagram with the colour of
    the answer follows the query; when it does not, [socket.timeout] ends
    the callback: the controller is already inactive, but no set-color
    datagram was sent, [is_fading] and the fading timer are as they
    were. *)
Theorem timeout_dims_the_light s fade :
  total_seconds (fadetime (handler s)) = Ok fade ->
  duration_in_range fade ->
  exists ms,
    (x ← py_mul fade (PyInt 1000); py_int x) = Ok ms
    /\ (forall d,
          last_state (handler s) = reading d ->
          exists h sat k datagram s',
            reading d !! "hue" = Some h
            /\ reading d !! "saturation" = Some sat
            /\ reading d !! "kelvin" = Some k
            /\ datagram = set_color_datagram h sat 655 k ms
            /\ timeout s = (Ok tt, s')
            /\ sent (world s') = sent (world s) ++ [(Taklampa, datagram)]
            /\ replies (world s') = replies (world s)
            /\ from_bytes (py_slice datagram 32 34) = 102
            /\ from_bytes (py_slice datagram 41 43) = 655
            /\ from_bytes (py_slice datagram 45 49) = ms
            /\ is_active (handler s') = false
            /\ is_fading (handler s') = true
            /\ fading_timer (handler s')
               = {| interval := fade; status := Running (seconds fade) |}
            /\ timer (handler s') = timer (handler s)
            /\ last_state (handler s') = reading d)
    /\ (last_state (handler s) = ∅ ->
        forall d rest,
          replies (world s) = Some d :: rest ->
          exists h sat k datagram s',
            reading d !! "hue" = Some h
            /\ reading d !! "saturation" = Some sat
            /\ reading d !! "kelvin" = Some k
            /\ datagram = set_color_datagram h sat 655 k ms
            /\ timeout s = (Ok tt, s')
            /\ sent (world s')
               = sent (world s) ++ [(Taklampa, header_bytes 36 101);
                                    (Taklampa, datagram)]
            /\ replies (world s') = rest
            /\ from_bytes (py_slice datagram 32 34) = 102
            /\ from_bytes (py_slice datagram 41 43) = 655
            /\ from_bytes (py_slice datagram 45 49) = ms
            /\ is_active (handler s') = false
            /\ is_fading (handler s') = true
            /\ fading_timer (handler s')
               = {| interval := fade; status := Running (seconds fade) |}
            /\ timer (handler s') = timer (handler s)
            /\ last_state (handler s') = ∅)
    /\ (last_state (handler s) = ∅ ->
        received (world s) = Raise SocketTimeout ->
        exists s',
          timeout s = (Raise SocketTimeout, s')
          /\ sent (world s') = sent (world s) ++ [(Taklampa, header_bytes 36 101)]
          /\ is_active (handler s') = false
          /\ is_fading (handler s') = is_fading (handler s)
          /\ fading_timer (handler s') = fading_timer (handler s)
          /\ timer (handler s') = timer (handler s)).
Proof.
  intros Hf Hd.
  destruct (duration_ms_in_range fade Hd) as (x & ms & Hx & Hms & Hr & _).
  assert (Hxm : (x ← py_mul fade (PyInt 1000); py_int x) = Ok ms) by (by rewrite Hx).
  assert (Fms : fits 4 ms) by (unfold fits; change (256 ^ 4) with 4294967296; lia).
  exists ms. split; [exact Hxm|]. split; [|split].
  - intros d Hls.
    rewrite (timeout_cached s fade ms d Hf Hxm Fms Hls).
    destruct (reading_colour d)
      as (vh & vs & vk & Hvh & Hvs & Hvk & Fh & Fs & Fk & -> & -> & ->).
    destruct (set_color_datagram_fields vh vs 655 vk ms
                Fh Fs ltac:(unfold fits; lia) Fk Fms)
      as (_ & _ & Hm & _ & _ & Hfb & _ & Hfd).
    exists vh, vs, vk. eexists. eexists.
    do 5 (split; [first [assumption | reflexivity]|]).
    cbn [handler world send sent replies is_active is_fading set_is_active
         set_is_fading set_fading_timer fading_timer timer last_state start
         Timer_init interval].
    repeat split; assumption || reflexivity.
  - intros He d rest Hrep.
    rewrite (timeout_live s fade ms Hf Hxm Fms He), Hrep.
    destruct (reading_colour d)
      as (vh & vs & vk & Hvh & Hvs & Hvk & Fh & Fs & Fk & -> & -> & ->).
    destruct (set_color_datagram_fields vh vs 655 vk ms
                Fh Fs ltac:(unfold fits; lia) Fk Fms)
      as (_ & _ & Hm & _ & _ & Hfb & _ & Hfd).
    exists vh, vs, vk. eexists. eexists.
    do 5 (split; [first [assumption | reflexivity]|]).
    cbn [handler world send next_reply sent replies is_active is_fading set_is_active
         set_is_fading set_fading_timer fading_timer timer last_state start
         Timer_init interval].
    rewrite <- app_assoc, Hrep.
    repeat split; assumption || reflexivity.
  - intros He Hrecv.
    rewrite (timeout_live s fade ms Hf Hxm Fms He).
    unfold received in Hrecv.
    destruct (replies (world s)) as [|[d|] rest]; [|discriminate|];
      (eexists; split; [reflexivity|]); repeat split; reflexivity.
Qed.

Lemma Zdigits2_eq m k :
  0 < k -> 2 ^ (k - 1) <= m < 2 ^ k -> Zdigits2 m = k.
Proof.
  intros Hk [Hlo Hhi].
  assert (0 < 2 ^ (k - 1)) by (apply Z.pow_pos_nonneg; lia).
  destruct m as [|p|p]; try lia.
  pose proof (Zdigits2_le (Z.pos p) k ltac:(lia) ltac:(lia)).
  pose proof (Zdigits2_ge p (k - 1) Hlo ltac:(lia)). lia.
Qed.

Lemma Zdigits2_bounds m :
  0 < m -> 0 < Zdigits2 m /\ 2 ^ (Zdigits2 m - 1) <= m < 2 ^ Zdigits2 m.
Proof.
  intros Hm. destruct m as [|p|p]; try lia. cbn [Zdigits2].
  split; [lia|]. apply digits2_pos_bounds.
Qed.

Lemma Zdigits2_mul_pow2 m t :
  0 < m -> 0 <= t -> Zdigits2 (m * 2 ^ t) = Zdigits2 m + t.
Proof.
  intros Hm Ht. destruct (Zdigits2_bounds m Hm) as (Hd & Hlo & Hhi).
  assert (Hp : 0 < 2 ^ t) by (apply Z.pow_pos_nonneg; lia).
  apply Zdigits2_eq; [lia|].
  replace (Zdigits2 m + t - 1) with (Zdigits2 m - 1 + t) by lia.
  rewrite !Z.pow_add_r by lia. nia.
Qed.

(** Rounding a value that needs no rounding: when the bits to shift out
    are all zero, the result is the mantissa shifted. *)
Lemma binary_round_aux_exact sx M E n :
  0 < M ->
  n = Z.max 0 (fexp prec emax (Zdigits2 M + E) - E) ->
  M mod 2 ^ n = 0 ->
  E + n <= emax - prec ->
  binary_round_aux prec emax sx M E loc_Exact
  = S754_finite sx (Z.to_pos (M / 2 ^ n)) (E + n).
Proof.
  intros HM Hn Hmod HE.
  assert (Hn0 : 0 <= n) by lia.
  assert (Hpn : 0 < 2 ^ n) by (apply Z.pow_pos_nonneg; lia).
  assert (HMn : M = M / 2 ^ n * 2 ^ n).
  { pose proof (Z.div_mod M (2 ^ n) ltac:(lia)). lia. }
  assert (Hq : 0 < M / 2 ^ n) by nia.
  unfold binary_round_aux.
  destruct (shr_fexp_Exact M E ltac:(lia)) as (n1 & _ & Hn1 & He1 & Hm1 & Hloc1).
  rewrite <- Hn in Hn1. subst n1.
  destruct (shr_fexp prec emax M E loc_Exact) as [mrs' e'].
  cbn [fst snd] in He1, Hm1, Hloc1.
  rewrite (Hloc1 Hmod). cbn [round_nearest_even]. rewrite Hm1. subst e'.
  destruct (shr_fexp_Exact (M / 2 ^ n) (E + n) ltac:(lia))
    as (n2 & _ & Hn2 & He2 & Hm2 & _).
  assert (Hd : Zdigits2 (M / 2 ^ n) = Zdigits2 M - n).
  { pose proof (Zdigits2_mul_pow2 (M / 2 ^ n) n Hq Hn0) as H.
    rewrite <- HMn in H. lia. }
  rewrite Hd in Hn2.
  replace (Zdigits2 M - n + (E + n)) with (Zdigits2 M + E) in Hn2 by lia.
  assert (Hz : n2 = 0) by lia. clear Hn2. subst n2.
  destruct (shr_fexp prec emax (M / 2 ^ n) (E + n) loc_Exact) as [mrs'' e''].
  cbn [fst snd] in He2, Hm2.
  rewrite Hm2, Z.pow_0_r, Z.div_1_r.
  destruct (M / 2 ^ n) as [|p|p] eqn:Ep; try lia.
  replace (e'' <=? emax - prec) with true by lia.
  cbn [Z.to_pos]. f_equal. lia.
Qed.

(** The quotient of two ints that is a 53-bit integer over a power of
    two is computed without any rounding. *)
Lemma SFdiv_int_exact sa (a b : positive) c j :
  0 < c < 2 ^ 53 -> 0 <= j ->
  Z.pos a * 2 ^ j = c * Z.pos b ->
  Z.pos b < 2 ^ 64 ->
  exists t,
    0 <= t
    /\ SFdiv prec emax (S754_finite sa a 0) (S754_finite false b 0)
       = S754_finite sa (Z.to_pos (c * 2 ^ t)) (- (t + j)).
Proof.
  intros [Hc0 Hc] Hj Hab Hb.
  destruct (Zdigits2_bounds (Z.pos a) ltac:(lia)) as (Hd1 & Hlo1 & Hhi1).
  destruct (Zdigits2_bounds (Z.pos b) ltac:(lia)) as (Hd2 & Hlo2 & Hhi2).
  destruct (Zdigits2_bounds c Hc0) as (Hdc & Hloc & Hhic).
  pose proof (Zdigits2_le (Z.pos b) 64 ltac:(lia) ltac:(lia)) as Hd64.
  pose proof (Zdigits2_le c 53 ltac:(lia) ltac:(lia)) as Hdc53.
  set (d1 := Zdigits2 (Z.pos a)) in *. set (d2 := Zdigits2 (Z.pos b)) in *.
  set (dc := Zdigits2 c) in *.
  remember (53 + d2 - d1) as s eqn:Es.
  assert (Hpj : 0 < 2 ^ j) by (apply Z.pow_pos_nonneg; lia).
  assert (Hjs : j <= s).
  { apply Z.nlt_ge. intros Hlt.
    assert (H1 : 2 ^ (53 + d2) <= 2 ^ (d1 - 1 + j)) by (apply Z.pow_le_mono_r; lia).
    rewrite !Z.pow_add_r in H1 by lia.
    assert (c * Z.pos b < 2 ^ 53 * 2 ^ d2) by nia.
    assert (2 ^ (d1 - 1) * 2 ^ j <= Z.pos a * 2 ^ j) by nia.
    lia. }
  assert (Hs116 : s <= 116) by lia.
  unfold SFdiv, SFdiv_core_binary. fold d1 d2.
  rewrite fexp_53.
  replace (Z.min (Z.max (d1 + 0 - (d2 + 0) - 53) (-1074)) (0 - 0)) with (- s) by lia.
  replace (0 - 0 - - s) with s by lia.
  assert (Hm' : match s with
                | Z.pos _ => Z.shiftl (Z.pos a) s
                | 0 => Z.pos a
                | Z.neg _ => 0
                end = Z.pos a * 2 ^ s).
  { destruct s as [|p|p] eqn:Es'; try lia.
    rewrite Z.shiftl_mul_pow2 by lia. reflexivity. }
  rewrite Hm'. clear Hm'.
  assert (Hps : 0 < 2 ^ (s - j)) by (apply Z.pow_pos_nonneg; lia).
  assert (Hprod : Z.pos a * 2 ^ s = c * 2 ^ (s - j) * Z.pos b).
  { replace s with (j + (s - j)) at 1 by lia. rewrite Z.pow_add_r by lia. nia. }
  destruct (Z.div_eucl (Z.pos a * 2 ^ s) (Z.pos b)) as [q r] eqn:Ed.
  assert (Hq : q = c * 2 ^ (s - j)).
  { change q with (fst (q, r)). rewrite <- Ed. fold (Z.div (Z.pos a * 2 ^ s) (Z.pos b)).
    rewrite Hprod. apply Z.div_mul. lia. }
  assert (Hr : r = 0).
  { change r with (snd (q, r)). rewrite <- Ed.
    fold (Z.modulo (Z.pos a * 2 ^ s) (Z.pos b)).
    rewrite Hprod. apply Z.mod_mul. lia. }
  subst q r.
  assert (Hnl : new_location (Z.pos b) 0 = loc_Exact).
  { unfold new_location, new_location_even, new_location_odd.
    by destruct (Z.even (Z.pos b)). }
  rewrite Hnl, xorb_false_r.
  assert (Hqpos : 0 < c * 2 ^ (s - j)) by nia.
  assert (Hdq : Zdigits2 (c * 2 ^ (s - j)) = dc + (s - j))
    by (apply Zdigits2_mul_pow2; lia).
  set (n := Z.max 0 (fexp prec emax (Zdigits2 (c * 2 ^ (s - j)) + - s) - - s)).
  assert (Hn : 0 <= n <= s - j).
  { unfold n. rewrite Hdq, fexp_53. lia. }
  assert (Hpn : 0 < 2 ^ n) by (apply Z.pow_pos_nonneg; lia).
  assert (Hsplit : c * 2 ^ (s - j) = c * 2 ^ (s - j - n) * 2 ^ n).
  { replace (s - j) with (s - j - n + n) at 1 by lia.
    rewrite Z.pow_add_r by lia. ring. }
  rewrite (binary_round_aux_exact sa (c * 2 ^ (s - j)) (- s) n Hqpos eq_refl).
  - exists (s - j - n). split; [lia|].
    rewrite Hsplit, Z.div_mul by lia. f_equal. lia.
  - rewrite Hsplit. apply Z.mod_mul. lia.
  - unfold emax, prec. lia.
Qed.

Lemma float_trunc_scaled sx c t j :
  0 < c -> 0 <= t -> 0 <= j ->
  float_trunc (S754_finite sx (Z.to_pos (c * 2 ^ t)) (- (t + j)))
  = Ok (if sx then - (c / 2 ^ j) else c / 2 ^ j).
Proof.
  intros Hc Ht Hj.
  assert (Hpt : 0 < 2 ^ t) by (apply Z.pow_pos_nonneg; lia).
  assert (Hpj : 0 < 2 ^ j) by (apply Z.pow_pos_nonneg; lia).
  cbn [float_trunc]. rewrite Z2Pos.id by nia.
  destruct (0 <=? - (t + j)) eqn:E.
  - apply Z.leb_le in E. assert (t = 0) by lia. assert (j = 0) by lia. subst.
    cbn. rewrite !Z.mul_1_r, Z.div_1_r. reflexivity.
  - replace (- - (t + j)) with (t + j) by lia.
    rewrite Z.pow_add_r by lia.
    rewrite (Z.mul_comm c), Z.div_mul_cancel_l by lia. reflexivity.
Qed.

Lemma float_to_Q_scaled c t j :
  0 < c -> 0 <= t -> 0 <= j ->
  (float_to_Q (S754_finite false (Z.to_pos (c * 2 ^ t)) (- (t + j)))
   == c # Z.to_pos (2 ^ j))%Q.
Proof.
  intros Hc Ht Hj.
  assert (Hpt : 0 < 2 ^ t) by (apply Z.pow_pos_nonneg; lia).
  assert (Hpj : 0 < 2 ^ j) by (apply Z.pow_pos_nonneg; lia).
  assert (Hptj : 0 < 2 ^ (t + j)) by (apply Z.pow_pos_nonneg; lia).
  cbn [float_to_Q]. rewrite Z2Pos.id by nia.
  destruct (0 <=? - (t + j)) eqn:E.
  - apply Z.leb_le in E. assert (t = 0) by lia. assert (j = 0) by lia. subst.
    cbn. unfold Qeq. cbn. lia.
  - replace (- - (t + j)) with (t + j) by lia.
    unfold Qeq. cbn [Qnum Qden]. rewrite !Z2Pos.id by lia.
    rewrite Z.pow_add_r by lia. ring.
Qed.

(** X7.  [tobytes(number)], which goes through a float division, is the
    integer quotient by 8, rounded toward zero, for every int below
    [2 ** 53] in absolute value; beyond that the float quotient is rounded
    and the result can be off. *)
Theorem tobytes_is_quotient :
  (forall number, - 2 ^ 53 < number < 2 ^ 53 -> tobytes number = Ok (Z.quot number 8))
  /\ tobytes (-1) = Ok 0
  /\ tobytes (2 ^ 56 + 8) = Ok (2 ^ 53)
  /\ (2 ^ 56 + 8) / 8 = 2 ^ 53 + 1.
Proof.
  split; [|repeat split; vm_compute; reflexivity].
  intros n Hn. unfold tobytes, py_truediv. change (8 =? 0) with false. cbv iota.
  change (raw_of_Z 8) with (S754_finite false 8 0).
  destruct n as [|p|p].
  - reflexivity.
  - cbn [raw_of_Z].
    destruct (SFdiv_int_exact false p 8 (Z.pos p) 3) as (t & Ht & ->); try lia.
    cbn [mbind result_bind py_int].
    rewrite float_trunc_scaled by lia.
    rewrite Z.quot_div_nonneg by lia. reflexivity.
  - destruct (SFdiv_int_exact true p 8 (Z.pos p) 3) as (t & Ht & E); try lia.
    cbn [raw_of_Z]. rewrite E.
    cbn [mbind result_bind py_int].
    rewrite float_trunc_scaled by lia.
    change (Z.neg p) with (- Z.pos p). rewrite Z.quot_opp_l by lia.
    rewrite Z.quot_div_nonneg by lia. reflexivity.
Qed.

(** The seconds of a timedelta of [i] 64ths of a second ([15625 * i]
    microseconds) are the float [i / 64], exactly: the float is zero, or
    has the mantissa [i * 2 ^ t] and the exponent [- (t + 6)]. *)
Lemma total_seconds_64ths_form i :
  0 <= i < 2 ^ 53 ->
  exists f,
    total_seconds (15625 * i) = Ok (PyFloat f)
    /\ ((i = 0 /\ f = S754_zero false)
        \/ (0 < i /\ exists t, 0 <= t
                               /\ f = S754_finite false (Z.to_pos (i * 2 ^ t))
                                                  (- (t + 6)))).
Proof.
  intros Hi. unfold total_seconds, py_truediv.
  change (1000000 =? 0) with false. cbv iota.
  change (raw_of_Z 1000000) with (S754_finite false 1000000 0).
  destruct i as [|p|p]; try lia.
  - eexists. split; [reflexivity|]. by left.
  - change (15625 * Z.pos p) with (Z.pos (15625 * p)). cbn [raw_of_Z].
    destruct (SFdiv_int_exact false (15625 * p) 1000000 (Z.pos p) 6)
      as (t & Ht & ->); try lia.
    eexists. split; [reflexivity|]. right. split; [lia|]. by exists t.
Qed.

Lemma total_seconds_64ths i :
  0 <= i < 2 ^ 53 ->
  exists f,
    total_seconds (15625 * i) = Ok (PyFloat f)
    /\ num_value (PyFloat f) = Some (float_to_Q f)
    /\ (float_to_Q f == i # 64)%Q.
Proof.
  intros Hi.
  destruct (total_seconds_64ths_form i Hi) as (f & H1 & [[-> ->]|(H0 & t & Ht & ->)]);
    eexists; (split; [exact H1|]); (split; [reflexivity|]).
  - reflexivity.
  - rewrite float_to_Q_scaled by lia. reflexivity.
Qed.


Lemma five_minutes_total_seconds : total_seconds 300000000 = Ok five_minutes.
Proof. vm_compute. reflexivity. Qed.

Lemma five_minutes_in_range : duration_in_range five_minutes.
Proof. eexists. split; [reflexivity|]. split; vm_compute; discriminate. Qed.

Lemma timeout_dims_the_light_witness :
  exists s',
    timeout dimmed_example = (Ok tt, s')
    /\ sent (world s') = [(Taklampa, set_color_datagram 120 0 655 3500 300000)]
    /\ from_bytes (py_slice (set_color_datagram 120 0 655 3500 300000) 41 43) = 655
    /\ from_bytes (py_slice (set_color_datagram 120 0 655 3500 300000) 45 49) = 300000
    /\ is_fading (handler s') = true.
Proof.
  destruct (timeout_dims_the_light dimmed_example five_minutes
              five_minutes_total_seconds five_minutes_in_range)
    as (ms & Hms & Hc & _).
  destruct (Hc bright_response eq_refl)
    as (h & sat & k & datagram & s' & Hh & Hs & Hk & Hd & H1 & H2 & _ & _ & H4 & H5
        & _ & H7 & _).
  assert (Em : ms = 300000) by (vm_compute in Hms; congruence).
  assert (Eh : h = 120) by (vm_compute in Hh; congruence).
  assert (Es : sat = 0) by (vm_compute in Hs; congruence).
  assert (Ek : k = 3500) by (vm_compute in Hk; congruence).
  subst datagram h sat k. rewrite Em in *.
  exists s'. repeat split; assumption.
Defined.

Lemma elapse_n_nothing_due n dt s :
  due dt (timer (handler s)) = None ->
  due dt (fading_timer (handler s)) = None ->
  elapse_n n dt s = pass_time dt s.
Proof.
  intros H1 H2. destruct n; [reflexivity|].
  cbn [elapse_n]. unfold next_due. by rewrite H1, H2.
Qed.

Lemma Qle_bool_true r dt : (r <= dt)%Q -> Qle_bool r dt = true.
Proof. apply Qle_bool_iff. Qed.

Lemma fading_false_spec s :
  fading_false s
  = (Ok tt, {| handler := set_is_fading false (handler s); world := world s |}).
Proof. reflexivity. Qed.

Lemma elapse_fires_inactivity n dt s r :
  status (timer (handler s)) = Running r ->
  is_alive (fading_timer (handler s)) = false ->
  (r <= dt)%Q ->
  elapse_n (S n) dt s = elapse_n n (dt - r) (fire InactivityTimer (pass_time r s)).
Proof.
  intros Ht Hf Hr. cbn [elapse_n]. unfold next_due.
  rewrite (due_not_alive dt _ Hf). unfold due at 1. rewrite Ht.
  by rewrite (Qle_bool_true _ _ Hr).
Qed.

Lemma elapse_fires_fading n dt s r :
  is_alive (timer (handler s)) = false ->
  status (fading_timer (handler s)) = Running r ->
  (r <= dt)%Q ->
  elapse_n (S n) dt s = elapse_n n (dt - r) (fire FadingTimer (pass_time r s)).
Proof.
  intros Ht Hf Hr. cbn [elapse_n]. unfold next_due.
  rewrite (due_not_alive dt _ Ht). unfold due. rewrite Hf.
  by rewrite (Qle_bool_true _ _ Hr).
Qed.

Lemma advance_not_alive dt t : is_alive t = false -> advance dt t = t.
Proof. unfold is_alive, advance. by destruct (status t). Qed.

(** Motion is cleared and the delay passes, on a controller with no fade
    in progress whose [timeout] goes through and leaves the network as
    [W]. *)
Lemma delay_passes s w fade dt W :
  is_alive (fading_timer (handler s)) = false ->
  total_seconds (delay (handler s)) = Ok w ->
  (forall sp,
      world sp = world s ->
      last_state (handler sp) = last_state (handler s) ->
      fadetime (handler sp) = fadetime (handler s) ->
      timeout sp =
        (Ok tt,
         {| handler := set_is_fading true
                         (set_fading_timer (start (Timer_init fade))
                            (set_is_active false (handler sp)));
            world := W |})) ->
  (seconds w <= dt)%Q -> (dt < seconds w + seconds fade)%Q ->
  run [MotionCleared; Elapse dt] s =
    {| handler :=
         set_timer {| interval := w; status := Finished |}
           (set_is_fading true
              (set_fading_timer
                 {| interval := fade;
                    status := Running (seconds fade - (dt - seconds w)) |}
                 (set_is_active false (handler s))));
       world := W |}.
Proof.
  intros Hfa Hw Hto Hdt1 Hdt2.
  unfold run. cbn [fold_left step].
  rewrite (run_thread_Ok _ _ _ (no_motion_spec s w Hw)).
  unfold elapse.
  rewrite (elapse_fires_inactivity 2 dt _ (seconds w)); [|reflexivity|exact Hfa|exact Hdt1].
  cbn [fire].
  match goal with |- context [run_thread timeout ?st] => set (sp := st) end.
  rewrite (run_thread_Ok _ _ _ (Hto sp eq_refl eq_refl eq_refl)).
  rewrite elapse_n_nothing_due.
  - unfold pass_time, sp, advance, finish, start, Timer_init.
    cbn [handler world timer fading_timer set_timer set_fading_timer
         set_is_fading set_is_active status interval pass_time].
    rewrite (advance_not_alive _ _ Hfa).
    reflexivity.
  - reflexivity.
  - unfold due.
    cbn [handler fading_timer set_timer set_fading_timer set_is_fading status
         start Timer_init interval].
    rewrite Qle_bool_false; [reflexivity|]. lra.
Qed.

(** The rest of the fade: the main loop does not poll, and when the fade
    time is over the fading timer clears [is_fading]. *)
Lemma fade_ends h w fade r dt2 W :
  (r <= dt2)%Q ->
  let s2 :=
    {| handler :=
         set_timer {| interval := w; status := Finished |}
           (set_is_fading true
              (set_fading_timer {| interval := fade; status := Running r |}
                 (set_is_active false h)));
       world := W |} in
  run [Poll] s2 = s2
  /\ is_active (handler (run [Poll; Elapse dt2] s2)) = false
  /\ is_fading (handler (run [Poll; Elapse dt2] s2)) = false
  /\ status (fading_timer (handler (run [Poll; Elapse dt2] s2))) = Finished
  /\ world (run [Poll; Elapse dt2] s2) = W
  /\ last_state (handler (run [Poll; Elapse dt2] s2)) = last_state h.
Proof.
  intros Hr s2.
  assert (E3 : run [Poll] s2 = s2).
  { unfold run. cbn [fold_left step]. unfold run_thread. by rewrite poll_spec. }
  split; [exact E3|].
  replace (run [Poll; Elapse dt2] s2) with (run [Elapse dt2] (run [Poll] s2))
    by reflexivity.
  rewrite E3. unfold run. cbn [fold_left step]. unfold elapse.
  rewrite (elapse_fires_fading 2 dt2 s2 r); [|reflexivity|reflexivity|exact Hr].
  cbn [fire]. rewrite (run_thread_Ok _ _ _ (fading_false_spec _)).
  rewrite elapse_n_nothing_due; [|reflexivity|reflexivity].
  repeat split; reflexivity.
Qed.

(** Motion is cleared and the delay passes, on a controller with an empty
    cache whose device does not answer. *)
Lemma delay_passes_unanswered s w fade ms dt :
  is_alive (fading_timer (handler s)) = false ->
  total_seconds (delay (handler s)) = Ok w ->
  total_seconds (fadetime (handler s)) = Ok fade ->
  (x ← py_mul fade (PyInt 1000); py_int x) = Ok ms -> fits 4 ms ->
  last_state (handler s) = ∅ ->
  received (world s) = Raise SocketTimeout ->
  (seconds w <= dt)%Q ->
  run [MotionCleared; Elapse dt] s =
    {| handler := set_timer {| interval := w; status := Finished |}
                    (set_is_active false (handler s));
       world := {| sent := sent (world s) ++ [(Taklampa, header_bytes 36 101)];
                   replies := tail (replies (world s));
                   uncaught := uncaught (world s) ++ [SocketTimeout] |} |}.
Proof.
  intros Hfa Hw Hf Hxm Fms He Hrecv Hdt1.
  unfold run. cbn [fold_left step].
  rewrite (run_thread_Ok _ _ _ (no_motion_spec s w Hw)).
  unfold elapse.
  rewrite (elapse_fires_inactivity 2 dt _ (seconds w)); [|reflexivity|exact Hfa|exact Hdt1].
  cbn [fire].
  match goal with |- context [run_thread timeout ?st] => set (sp := st) end.
  assert (Hto : timeout sp =
                (Raise SocketTimeout,
                 {| handler := set_is_active false (handler sp);
                    world := next_reply
                               (send Taklampa (header_bytes 36 101) (world s)) |})).
  { rewrite (timeout_live sp fade ms Hf Hxm Fms He).
    unfold received in Hrecv. cbn [sp world pass_time].
    destruct (replies (world s)) as [|[d|] rest]; [|discriminate|]; reflexivity. }
  unfold run_thread. rewrite Hto.
  rewrite elapse_n_nothing_due; [|reflexivity|].
  - unfold pass_time, sp, advance, finish.
    cbn [handler world timer fading_timer set_timer set_fading_timer
         set_is_active status interval pass_time send next_reply sent replies
         uncaught].
    rewrite (advance_not_alive _ _ Hfa).
    destruct (fading_timer (handler s)) as [i st] eqn:Eft.
    unfold is_alive in Hfa. cbn [status] in Hfa.
    destruct st; try discriminate; destruct s as [[] ?]; cbn in *; subst; reflexivity.
  - apply due_not_alive.
    cbn [handler fading_timer set_timer set_fading_timer set_is_active sp pass_time].
    by rewrite (advance_not_alive _ _ Hfa).
Qed.

(** X17.  The whole dimming cycle, on a controller with no fade in progress.
    After motion is cleared and the delay has passed, the inactivity timer
    has run [timeout].  With a cached reading, exactly the set-color
    datagram with brightness 655 and the fade time as duration has been
    sent; with an empty cache, as on a controller just constructed, the
    query goes out first and the datagram follows when the device
    answers.  Then the controller is inactive and fading, the fading timer
    has the rest of the fade time to run, the main loop does not poll
    during the fade, and when the fade time is over the fading timer has
    cleared [is_fading] and nothing more was sent.  When the cache is
    empty and the device does not answer, only the query was sent,
    [socket.timeout] ended the timer thread, and the controller is
    inactive without fading. *)
Theorem inactivity_dims_then_fade_ends s w fade dt dt2 :
  is_alive (fading_timer (handler s)) = false ->
  total_seconds (delay (handler s)) = Ok w ->
  total_seconds (fadetime (handler s)) = Ok fade ->
  duration_in_range fade ->
  (seconds w <= dt)%Q -> (dt < seconds w + seconds fade)%Q ->
  (seconds fade <= dt2)%Q ->
  let s2 := run [MotionCleared; Elapse dt] s in
  let s4 := run [MotionCleared; Elapse dt; Poll; Elapse dt2] s in
  exists ms,
    (x ← py_mul fade (PyInt 1000); py_int x) = Ok ms
    /\ (forall d,
          last_state (handler s) = reading d ->
          exists h sat k datagram r,
            reading d !! "hue" = Some h
            /\ reading d !! "saturation" = Some sat
            /\ reading d !! "kelvin" = Some k
            /\ datagram = set_color_datagram h sat 655 k ms
            /\ sent (world s2) = sent (world s) ++ [(Taklampa, datagram)]
            /\ replies (world s2) = replies (world s)
            /\ uncaught (world s2) = uncaught (world s)
            /\ from_bytes (py_slice datagram 32 34) = 102
            /\ from_bytes (py_slice datagram 41 43) = 655
            /\ from_bytes (py_slice datagram 45 49) = ms
            /\ is_active (handler s2) = false
            /\ is_fading (handler s2) = true
            /\ status (timer (handler s2)) = Finished
            /\ status (fading_timer (handler s2)) = Running r
            /\ (r == seconds fade - (dt - seconds w))%Q
            /\ run [MotionCleared; Elapse dt; Poll] s = s2
            /\ is_active (handler s4) = false
            /\ is_fading (handler s4) = false
            /\ status (fading_timer (handler s4)) = Finished
            /\ world s4 = world s2
            /\ last_state (handler s4) = reading d)
    /\ (last_state (handler s) = ∅ ->
        forall d rest,
          replies (world s) = Some d :: rest ->
          exists h sat k datagram r,
            reading d !! "hue" = Some h
            /\ reading d !! "saturation" = Some sat
            /\ reading d !! "kelvin" = Some k
            /\ datagram = set_color_datagram h sat 655 k ms
            /\ sent (world s2)
               = sent (world s) ++ [(Taklampa, header_bytes 36 101);
                                    (Taklampa, datagram)]
            /\ replies (world s2) = rest
            /\ uncaught (world s2) = uncaught (world s)
            /\ from_bytes (py_slice datagram 32 34) = 102
            /\ from_bytes (py_slice datagram 41 43) = 655
            /\ from_bytes (py_slice datagram 45 49) = ms
            /\ is_active (handler s2) = false
            /\ is_fading (handler s2) = true
            /\ status (timer (handler s2)) = Finished
            /\ status (fading_timer (handler s2)) = Running r
            /\ (r == seconds fade - (dt - seconds w))%Q
            /\ run [MotionCleared; Elapse dt; Poll] s = s2
            /\ is_active (handler s4) = false
            /\ is_fading (handler s4) = false
            /\ status (fading_timer (handler s4)) = Finished
            /\ world s4 = world s2
            /\ last_state (handler s4) = ∅)
    /\ (last_state (handler s) = ∅ ->
        received (world s) = Raise SocketTimeout ->
        sent (world s2) = sent (world s) ++ [(Taklampa, header_bytes 36 101)]
        /\ uncaught (world s2) = uncaught (world s) ++ [SocketTimeout]
        /\ is_active (handler s2) = false
        /\ is_fading (handler s2) = is_fading (handler s)
        /\ status (timer (handler s2)) = Finished
        /\ fading_timer (handler s2) = fading_timer (handler s)).
Proof.
  intros Hfa Hw Hf Hd Hdt1 Hdt2 Hdt3. cbv zeta.
  destruct (duration_ms_in_range fade Hd) as (x & ms & Hx & Hms & Hr & _).
  assert (Hxm : (x ← py_mul fade (PyInt 1000); py_int x) = Ok ms) by (by rewrite Hx).
  assert (Fms : fits 4 ms) by (unfold fits; change (256 ^ 4) with 4294967296; lia).
  assert (Hr2 : (seconds fade - (dt - seconds w) <= dt2)%Q) by lra.
  change (run [MotionCleared; Elapse dt; Poll] s)
    with (run [Poll] (run [MotionCleared; Elapse dt] s)).
  change (run [MotionCleared; Elapse dt; Poll; Elapse dt2] s)
    with (run [Poll; Elapse dt2] (run [MotionCleared; Elapse dt] s)).
  exists ms. split; [exact Hxm|]. split; [|split].
  - intros d Hls.
    destruct (reading_colour d)
      as (vh & vs & vk & Hvh & Hvs & Hvk & Fh & Fs & Fk & Gh & Gs & Gk).
    destruct (set_color_datagram_fields vh vs 655 vk ms
                Fh Fs ltac:(unfold fits; lia) Fk Fms)
      as (_ & _ & Hm & _ & _ & Hfb & _ & Hfd).
    rewrite (delay_passes s w fade dt
               (send Taklampa (set_color_datagram vh vs 655 vk ms) (world s))
               Hfa Hw); [| |exact Hdt1|exact Hdt2].
    2:{ intros sp Hwd Hlsp Hfp.
        rewrite (timeout_cached sp fade ms d); rewrite ?Hfp, ?Hlsp, ?Hwd, ?Gh, ?Gs, ?Gk;
          assumption || reflexivity. }
    destruct (fade_ends (handler s) w fade (seconds fade - (dt - seconds w)) dt2
                (send Taklampa (set_color_datagram vh vs 655 vk ms) (world s)) Hr2)
      as (P1 & P2 & P3 & P4 & P5 & P6).
    exists vh, vs, vk. eexists. exists (seconds fade - (dt - seconds w))%Q.
    do 4 (split; [first [assumption | reflexivity]|]).
    cbn [handler world sent replies uncaught send is_active is_fading timer
         fading_timer status set_timer set_is_fading set_fading_timer set_is_active].
    do 11 (split; [first [assumption | reflexivity]|]).
    split; [exact P1|]. split; [exact P2|]. split; [exact P3|].
    split; [exact P4|]. split; [exact P5|]. by rewrite P6.
  - intros He d rest Hrep.
    destruct (reading_colour d)
      as (vh & vs & vk & Hvh & Hvs & Hvk & Fh & Fs & Fk & Gh & Gs & Gk).
    destruct (set_color_datagram_fields vh vs 655 vk ms
                Fh Fs ltac:(unfold fits; lia) Fk Fms)
      as (_ & _ & Hm & _ & _ & Hfb & _ & Hfd).
    rewrite (delay_passes s w fade dt
               (send Taklampa (set_color_datagram vh vs 655 vk ms)
                  (next_reply (send Taklampa (header_bytes 36 101) (world s))))
               Hfa Hw); [| |exact Hdt1|exact Hdt2].
    2:{ intros sp Hwd Hlsp Hfp.
        rewrite (timeout_live sp fade ms); rewrite ?Hfp, ?Hlsp, ?Hwd, ?Hrep, ?Gh, ?Gs, ?Gk;
          assumption || reflexivity. }
    destruct (fade_ends (handler s) w fade (seconds fade - (dt - seconds w)) dt2
                (send Taklampa (set_color_datagram vh vs 655 vk ms)
                   (next_reply (send Taklampa (header_bytes 36 101) (world s)))) Hr2)
      as (P1 & P2 & P3 & P4 & P5 & P6).
    exists vh, vs, vk. eexists. exists (seconds fade - (dt - seconds w))%Q.
    do 4 (split; [first [assumption | reflexivity]|]).
    cbn [handler world sent replies uncaught send next_reply is_active is_fading timer
         fading_timer status set_timer set_is_fading set_fading_timer set_is_active].
    rewrite <- app_assoc, Hrep.
    do 11 (split; [first [assumption | reflexivity]|]).
    split; [exact P1|]. split; [exact P2|]. split; [exact P3|].
    split; [exact P4|]. split; [exact P5|]. by rewrite P6.
  - intros He Hrecv.
    rewrite (delay_passes_unanswered s w fade ms dt Hfa Hw Hf Hxm Fms He Hrecv Hdt1).
    repeat split; reflexivity.
Qed.





















Lemma Part_len_app part (par : Param) :
  Part_len {| parameters := parameters part ++ [par] |}
  = Part_len part + Z.of_nat (length (data par)).
Proof.
  rewrite !Part_len_bytes. cbn [parameters].
  rewrite map_app, concat_app, length_app. cbn [map concat data].
  rewrite app_nil_r. lia.
Qed.

Lemma Part_len_cons part (par : Param) :
  Part_len {| parameters := par :: parameters part |}
  = Part_len part + Z.of_nat (length (data par)).
Proof. unfold Part_len. cbn [parameters fold_right]. lia. Qed.

(** X10.  The three views of a packet agree: [len(packet)] is the number of
    bytes [bytearray()] returns, and [get_bytes()] lists the same bytes as
    ints from 0 to 255.  A parameter that [append_param] or
    [prepend_param] constructs is put behind or in front of the others,
    which stay as they are, and makes the part [length] bytes longer. *)
Theorem serialization_accounting :
  (forall self,
      Packet_len self = Z.of_nat (length (bytearray self))
      /\ get_bytes self = map Z_of_byte (bytearray self)
      /\ Forall (fun v => 0 <= v < 256) (get_bytes self))
  /\ (forall part key values length reverse part',
        append_param part key values length reverse = Ok part' ->
        Part_len part' = Part_len part + length
        /\ exists par, parameters part' = parameters part ++ [par]
                       /\ name par = key)
  /\ (forall part key value length part',
        prepend_param part key value length = Ok part' ->
        Part_len part' = Part_len part + length
        /\ exists par, parameters part' = par :: parameters part
                       /\ name par = key).
Proof.
  split; [|split].
  - intros self. split; [apply Packet_len_bytes|].
    split; [apply get_bytes_bytearray|].
    rewrite get_bytes_bytearray. apply Stdlib.Lists.List.Forall_map.
    apply Forall_forall. intros b _. apply Z_of_byte_range.
  - intros part key values length reverse part' H. unfold append_param in H.
    apply bind_Ok in H as (par & Hp & H). inversion H; subst part'.
    destruct (Parameter_init_length _ _ _ _ _ Hp) as [Hn Hlen].
    rewrite Part_len_app. split; [lia|]. by exists par.
  - intros part key value length part' H. unfold prepend_param in H.
    apply bind_Ok in H as (par & Hp & H). inversion H; subst part'.
    destruct (Parameter_init_length _ _ _ _ _ Hp) as [Hn Hlen].
    rewrite Part_len_cons. split; [lia|]. by exists par.
Qed.

(** X2.  [deconstruct] on any decode map with widths that are not negative and
    sub-widths that are positive: it never raises, whatever the length of
    the packet, and what it yields is arithmetic on the bytes.  A plain
    field of [n] bits is the little-endian integer of its [n // 8] bytes,
    bytes past the end counting as zero; a sub-field of [w] bits that
    starts [i] bits below the top of a piece of [size] bits is
    [(piece >> (size - i - w)) mod 2 ** w].  A sub-width of 0 raises
    [ValueError], from [int('', 2)]. *)
Theorem deconstruct_is_bit_slicing :
  (forall packet sizes,
      sizes_ok sizes ->
      deconstruct packet sizes = Ok (decoded_from packet 0 sizes))
  /\ (forall packet key n,
        0 <= n ->
        deconstruct packet [(key, SInt n)]
        = Ok [(key, (from_bytes packet) mod 256 ^ (n / 8))])
  /\ (forall packet key a wa b wb,
        0 < wa -> 0 < wb ->
        let piece := (from_bytes packet) mod 256 ^ ((wa + wb) / 8) in
        deconstruct packet [(key, SDict [(a, wa); (b, wb)])]
        = Ok [(a, (piece / 2 ^ wb) mod 2 ^ wa); (b, piece mod 2 ^ wb)])
  /\ (forall packet key k rest more,
        deconstruct packet ((key, SDict ((k, 0) :: rest)) :: more)
        = Raise ValueError).
Proof.
  split; [|split; [|split]].
  - intros packet sizes Hs. apply deconstruct_from_total; [exact Hs|lia].
  - intros packet key n Hn.
    unfold deconstruct. rewrite deconstruct_from_total; [|repeat constructor; done|lia].
    cbn [decoded_from]. rewrite from_bytes_slice by (split; [lia|]; apply Z.add_nonneg_nonneg; [lia|apply Z.div_pos; lia]).
    rewrite Z.pow_0_r, Z.div_1_r.
    replace (0 + n / 8 - 0) with (n / 8) by lia. reflexivity.
  - intros packet key a wa b wb Ha Hb. cbv zeta.
    unfold deconstruct.
    rewrite deconstruct_from_total;
      [|repeat constructor; cbn; lia|lia].
    cbn [decoded_from sub_values app].
    assert (Hsum : sum_values [(a, wa); (b, wb)] = wa + wb)
      by (unfold sum_values; cbn; lia).
    rewrite Hsum.
    rewrite from_bytes_slice
      by (split; [lia|]; apply Z.add_nonneg_nonneg; [lia|apply Z.div_pos; lia]).
    rewrite Z.pow_0_r, Z.div_1_r.
    replace (0 + (wa + wb) / 8 - 0) with ((wa + wb) / 8) by lia.
    unfold bitfield.
    replace (wa + wb - 0 - wa) with wb by lia.
    replace (wa + wb - (0 + wa) - wb) with 0 by lia.
    by rewrite Z.pow_0_r, Z.div_1_r.
  - intros packet key k rest more. unfold deconstruct.
    cbn [deconstruct_from deconstruct_sub].
    destruct (format_bin _ _) as [text|e] eqn:E.
    + cbn [mbind result_bind]. unfold py_slice.
      change (0 <? 0) with false. change (0 + 0 <? 0) with false. cbv iota.
      assert (Hmin : Z.min 0 (Z.of_nat (length text)) = 0) by lia.
      change (0 + 0) with 0. rewrite Hmin. reflexivity.
    + unfold format_bin in E. destruct (_ <? 0); [|discriminate].
      by inversion E.
Qed.

Lemma set_headers_decodes_back_witness :
  exists q p items,
    set_headers Packet_init 102 false 123 true false 0 = Ok q
    /\ set_size (with_payload q (state_payload 120 0 40000 3500 100)) 2 = Ok p
    /\ deconstruct (bytearray p) MSGHEADER = Ok items
    /\ py_dict items !! "size" = Some (Z.of_nat (length (bytearray p)))
    /\ py_dict items !! "origin" = Some 0
    /\ py_dict items !! "tagged" = Some (Z.b2z false)
    /\ py_dict items !! "addressable" = Some 1
    /\ py_dict items !! "protocol" = Some 1024
    /\ py_dict items !! "source" = Some 123
    /\ py_dict items !! "target" = Some 0
    /\ py_dict items !! "ack_required" = Some (Z.b2z false)
    /\ py_dict items !! "res_required" = Some (Z.b2z true)
    /\ py_dict items !! "sequence" = Some 0
    /\ py_dict items !! "type" = Some 102
    /\ py_dict items !! "reserved" = Some 0.
Proof.
  apply (set_headers_decodes_back 102 false 123 true false 0
           (state_payload 120 0 40000 3500 100));
    try (unfold fits; vm_compute; split; [discriminate|reflexivity]).
  vm_compute. reflexivity.
Defined.

Lemma inactivity_dims_then_fade_ends_witness :
  sent (world (run [MotionCleared; Elapse 300]
                 (fresh_example bright_response bright_response)))
  = [(Taklampa, header_bytes 36 101);
     (Taklampa, set_color_datagram 120 0 655 3500 300000)]
  /\ from_bytes (py_slice (set_color_datagram 120 0 655 3500 300000) 41 43) = 655
  /\ from_bytes (py_slice (set_color_datagram 120 0 655 3500 300000) 45 49) = 300000
  /\ is_fading (handler (run [MotionCleared; Elapse 300]
                           (fresh_example bright_response bright_response))) = true
  /\ is_fading (handler (run [MotionCleared; Elapse 300; Poll; Elapse 300]
                           (fresh_example bright_response bright_response))) = false.
Proof.
  destruct (inactivity_dims_then_fade_ends
              (fresh_example bright_response bright_response)
              five_minutes five_minutes 300 300)
    as (ms & Hms & _ & HB & _).
  - vm_compute. reflexivity.
  - vm_compute. reflexivity.
  - vm_compute. reflexivity.
  - exact five_minutes_in_range.
  - vm_compute. discriminate.
  - vm_compute. reflexivity.
  - vm_compute. discriminate.
  - destruct (HB ltac:(vm_compute; reflexivity) bright_response [Some bright_response] eq_refl)
      as (h & sat & k & datagram & r & Hh & Hs & Hk & Hd & H1 & _ & _ & _ & H5 & H6
          & _ & H8 & _ & _ & _ & _ & _ & H14 & _).
    assert (Em : ms = 300000) by (vm_compute in Hms; congruence).
    assert (Eh : h = 120) by (vm_compute in Hh; congruence).
    assert (Es : sat = 0) by (vm_compute in Hs; congruence).
    assert (Ek : k = 3500) by (vm_compute in Hk; congruence).
    subst datagram h sat k. rewrite Em in *.
    repeat split; assumption.
Defined.


